(** * Rekall agent: the config_updater bootstrap (rekall_agent/config_updater.py)

    A shallow embedding of [AgentServerInitialize] (generate_keys,
    _build_config, write_config, write_manifest, collect) and of the
    [AgentConfigHook] of rekall_agent/hooks.py that write_config calls
    through the session.

    The properties of the specification come first; further properties
    of the same methods (what each one writes and leaves alone, how it
    fails, what the configuration and the hook's result are made of)
    follow them.

    The Python methods are generators that read and write files, draw
    random keys and raise exceptions.  They are embedded as functions in a
    state-and-exception monad over an explicit [World]; an exception keeps
    the effects performed before it, as in Python, and the rows a generator
    yields are appended to a log.  The module mixes Python 2 and Python 3
    syntax (print statements next to f-strings); each statement is read
    with its evident meaning.

    The collaborators that live outside the embedded files (the crypto
    module, the serializer and YAML, the deployment policies, the upload
    location) are operations of the classes [CryptoProvider] and
    [Collaborators]; the development is parametric in them. *)

From Stdlib Require Import Ascii String.
From stdpp Require Import gmap strings list pretty.

Local Open Scope string_scope.

(** ** Exceptions *)

(** The Python exceptions the embedded code raises or lets through.
    [ProviderError] stands for whatever a collaborator raises that is not
    one of the others (a parse error of a PEM block or of YAML, a failed
    upload, the error of a failed signature check). *)
Inductive Exn : Type :=
| IOError
| PluginError (msg : string)
| AttributeError (msg : string)
| NameError (name : string)
| RuntimeError (msg : string)
| ProviderError (what : string).

(** ** Paths and the file system *)

(** A path as the program builds it: [os.path.join(config_dir, name)]
    with [name] one of the fixed file names (none contains a separator),
    kept as the pair it was joined from; it denotes the entry [name] of the
    directory [config_dir]. *)
Record Path : Type := os_path_join { p_dir : string; p_name : string }.

Definition ends_with_slash (s : string) : bool :=
  match String.length s with
  | O => false
  | S n => match String.get n s with
           | Some c => bool_decide (c = "/"%char)
           | None => false
           end
  end.

(** The string [os.path.join] returns (posixpath): no separator is added
    after an empty directory or after one that already ends in a slash. *)
Definition path_str (p : Path) : string :=
  if bool_decide (p_dir p = "") || ends_with_slash (p_dir p)
  then p_dir p ++ p_name p
  else p_dir p ++ "/" ++ p_name p.

Definition os_path_dirname (p : Path) : string := p_dir p.

Record File : Type := mkFile
  { f_data : string; f_readable : bool; f_writable : bool }.

Record Directory : Type := mkDir
  { d_readable : bool; d_writable : bool; d_entries : gmap string File }.

(** [os.access(dir, os.R_OK)] on a directory. *)
Definition access_dir_R (fs : gmap string Directory) (d : string) : bool :=
  match fs !! d with
  | Some dir => d_readable dir
  | None => false
  end.

Definition lookup_file (fs : gmap string Directory) (p : Path) : option File :=
  dir ← fs !! p_dir p; d_entries dir !! p_name p.

(** [os.access(path, os.R_OK)] on a file path. *)
Definition access_R (fs : gmap string Directory) (p : Path) : bool :=
  match lookup_file fs p with
  | Some f => f_readable f
  | None => false
  end.

(** [open(path).read()]: the data, or IOError when the file is absent or
    not readable. *)
Definition read_file (fs : gmap string Directory) (p : Path) : Exn + string :=
  match lookup_file fs p with
  | Some f => if f_readable f then inr (f_data f) else inl IOError
  | None => inl IOError
  end.

(** [with open(path, "wb") as fd: fd.write(data)]: an existing file must be
    writable and keeps its permissions; a new file needs a writable
    directory and is created readable and writable; anything else is
    IOError and changes nothing. *)
Definition write_file (fs : gmap string Directory) (p : Path) (data : string)
  : Exn + gmap string Directory :=
  match fs !! p_dir p with
  | None => inl IOError
  | Some dir =>
      match d_entries dir !! p_name p with
      | Some f =>
          if f_writable f
          then inr (<[p_dir p :=
                      mkDir (d_readable dir) (d_writable dir)
                        (<[p_name p := mkFile data (f_readable f) true]> (d_entries dir))]> fs)
          else inl IOError
      | None =>
          if d_writable dir
          then inr (<[p_dir p :=
                      mkDir (d_readable dir) (d_writable dir)
                        (<[p_name p := mkFile data true true]> (d_entries dir))]> fs)
          else inl IOError
      end
  end.

(** The entry a path names once a write to it has been attempted: the new
    data when the write succeeds, what was there when it fails. *)
Definition entry_after (fs : gmap string Directory) (p : Path) (data : string)
  : option File :=
  match write_file fs p data with
  | inr fs' => lookup_file fs' p
  | inl _ => lookup_file fs p
  end.

(** ** The crypto module (rekall_agent/crypto.py, not part of the embedded files) *)

Class CryptoProvider : Type := {
  RSAPrivateKey : Type;
  RSAPublicKey : Type;
  (** the source spells the class X509Ceritifcate *)
  X509Certificate : Type;
  (** the state of the random generator keys are drawn from *)
  Entropy : Type;
  (** [RSAPrivateKey(session).generate_key()] *)
  generate_key : Entropy → RSAPrivateKey * Entropy;
  key_to_primitive : RSAPrivateKey → string;
  (** [RSAPrivateKey.from_primitive(data)], which may raise *)
  key_from_primitive : string → Exn + RSAPrivateKey;
  cert_to_primitive : X509Certificate → string;
  cert_from_primitive : string → Exn + X509Certificate;
  MakeCACert : RSAPrivateKey → X509Certificate;
  (** [MakeCASignedCert(common_name, private_key, ca_cert, ca_private_key)] *)
  MakeCASignedCert :
    string → RSAPrivateKey → X509Certificate → RSAPrivateKey → X509Certificate;
  get_public_key : X509Certificate → RSAPublicKey;
  (** Modelled from the spec: [X509Ceritifcate.verify] is defined in the
      crypto module, outside the embedded files.  The spec makes a failed
      verification fatal, and generate_keys discards what the call returns,
      so the call is modelled by its outcome: [inr tt] when the signature
      checks under the key and the call returns, [inl e] when it raises. *)
  verify : X509Certificate → RSAPublicKey → Exn + unit;
  (** [private_key.sign(data)] *)
  sign : RSAPrivateKey → string → string;
}.

(** ** The data model (rekall_agent.config.agent and the policies) *)

(** The value of the [labels] argument: the command line parser hands over
    a Python list (the declared default is the list ["All"]); a caller of
    the plugin API may hand over a set. *)
Inductive PyLabels : Type :=
| PyList (l : list string)
| PySet (s : gset string).

(** [x in labels] *)
Definition py_in (x : string) (labels : PyLabels) : bool :=
  match labels with
  | PyList l => bool_decide (x ∈ l)
  | PySet s => bool_decide (x ∈ s)
  end.

(** [labels.add(x)]: a set gains the element in place; a list has no
    method [add], the attribute lookup raises AttributeError. *)
Definition py_add (x : string) (labels : PyLabels) : Exn + PyLabels :=
  match labels with
  | PyList _ => inl (AttributeError "'list' object has no attribute 'add'")
  | PySet s => inr (PySet ({[x]} ∪ s))
  end.

(** The types the deployment policies bring along. *)
Class PolicyTypes : Type := {
  (** what a server policy holds besides certificate and private key *)
  ServerPolicyData : Type;
  (** what a client policy holds besides labels, secret and writeback path *)
  ClientPolicyData : Type;
  Location : Type;
  ServiceAccount : Type;
  (** the store behind an upload location (a bucket) *)
  Remote : Type;
  (** the object the session hands back for "agent_config_obj" *)
  SessionConfig : Type;
}.

Section DataModel.
Context `{CryptoProvider} `{PolicyTypes}.

Record ServerPolicy : Type := mkServerPolicy {
  sp_data : ServerPolicyData;
  certificate : option X509Certificate;
  private_key : option RSAPrivateKey;
}.

Record ClientPolicy : Type := mkClientPolicy {
  cp_data : ClientPolicyData;
  labels : option PyLabels;
  secret : option string;
  writeback_path : option string;
}.

Record Startup : Type := mkStartup { location : Location }.

Record StartupAction : Type := mkStartupAction { startup_message : Startup }.

Record Manifest : Type := mkManifest {
  rekall_session : list (string * string);
  startup_actions : list StartupAction;
}.

Record SignedManifest : Type := mkSignedManifest {
  data : string;
  server_certificate : option X509Certificate;
  signature : option string;
}.

(** [agent.Configuration]; a field that was never assigned reads None. *)
Record Configuration : Type := mkConfiguration {
  server : option ServerPolicy;
  client : option ClientPolicy;
  ca_certificate : option X509Certificate;
  manifest : option Manifest;
  signed_manifest : option SignedManifest;
}.

(** [agent.Configuration(session=self.session)] *)
Definition new_Configuration : Configuration :=
  mkConfiguration None None None None None.

End DataModel.

(** ** The other collaborators *)

Class Collaborators `{CryptoProvider} `{PolicyTypes} : Type := {
  (** [yaml_utils.safe_dump(config.to_primitive())] *)
  dump_config : Configuration → string;
  (** [agent.Configuration.from_primitive(yaml.safe_load(data))] *)
  load_config : string → Exn + Configuration;
  (** [manifest.to_json()] *)
  manifest_to_json : Manifest → string;
  (** [server.flow_ticket_for_client(name, path_template, expiration)] *)
  flow_ticket_for_client : ServerPolicy → string → string → Z → Location;
  (** [server.manifest_for_client()] *)
  manifest_for_client : ServerPolicy → Location;
  (** [cloud.ServiceAccount.from_json(data)] *)
  ServiceAccount_from_json : string → Exn + ServiceAccount;
  (** [gcs.GCSServerPolicy.from_keywords(bucket, service_account)] *)
  GCSServerPolicy : string → ServiceAccount → ServerPolicyData;
  (** [gcs.GCSAgentPolicy.from_keywords(manifest_location)] *)
  GCSAgentPolicy : Location → ClientPolicyData;
  (** [http_server.HTTPServerPolicy.from_keywords(base_url, bind_port,
      bind_address, ...)] *)
  HTTPServerPolicy : string → Z → string → ServerPolicyData;
  (** [serializer.unserialize(data=yaml.safe_load(config_data),
      strict_parsing=False)] *)
  unserialize : string → Exn + SessionConfig;
  (** [obj.NoneObject("No valid configuration provided in session.")] *)
  NoneObject : SessionConfig;
  (** [x is None] *)
  is_None : SessionConfig → bool;
  (** [self._config.server.manifest_for_server()] *)
  manifest_for_server : SessionConfig → Exn + Location;
  (** [upload_location.to_path()] *)
  to_path : Location → string;
  (** [upload_location.write_file(data)] *)
  location_write_file : Location → string → Remote → Exn + Remote;
  (** [self._config.signed_manifest.to_json()] *)
  signed_manifest_to_json : SessionConfig → Exn + string;
  (** [yaml_utils.safe_dump(self._config.manifest.to_primitive())] *)
  dump_manifest : SessionConfig → Exn + string;
}.

(** ** The plugin, its session and the world it runs in *)

(** The two concrete plugins with their own arguments:
    AgentServerInitializeGCS(bucket, service_account_path) and
    AgentServerInitializeLocalHTTP(base_url, bind_port, bind_address). *)
Inductive Variant : Type :=
| GCS (bucket : string) (service_account_path : Path)
| LocalHTTP (base_url : string) (bind_port : Z) (bind_address : string).

Record PluginArgs : Type := mkPluginArgs {
  arg_config_dir : string;
  arg_client_writeback_path : string;
  arg_labels : PyLabels;
}.

(** The session parameters the code touches and the two environment
    variables the hook consults. *)
Record Session : Type := mkSession {
  agent_config_data : option string;
  agent_configuration : option Path;
  config_search_path : option (list string);
  (** whether "agent_config_obj" was set with SetParameter; the value is
      then the configuration object write_config is building *)
  agent_config_obj_set : bool;
  REKALL_AGENT_CONFIG : option string;
  REKALL_AGENT_CONFIG_FILE : option Path;
}.

Section Plugin.
Context `{Collaborators}.

(** The attributes of [self]. [secret] is the class attribute
    [os.urandom(5).encode("hex")], drawn once when the module is loaded. *)
Record Self : Type := mkSelf {
  variant : Variant;
  plugin_args : PluginArgs;
  self_secret : string;
  config_dir : option string;
  ca_cert : option X509Certificate;
  server_cert : option X509Certificate;
  server_private_key : option RSAPrivateKey;
  _config : option SessionConfig;
}.

Record World : Type := mkWorld {
  fs : gmap string Directory;
  entropy : Entropy;
  (** [time.time()], in seconds *)
  clock : Z;
  session : Session;
  remote : Remote;
  (** the rows the generators have yielded, oldest first *)
  yielded : list string;
  stdout : list string;
  self : Self;
  (** the Configuration object that write_config binds to [config] and
      that _build_config fills in by assignment; None before write_config
      has one *)
  config_obj : option Configuration;
}.

(** A freshly constructed plugin object. *)
Definition new_Self (v : Variant) (args : PluginArgs) (secret : string) : Self :=
  mkSelf v args secret None None None None None.

End Plugin.

(** ** The monad of the plugin's methods *)

Section Monad.
Context `{Collaborators}.

(** A computation returns a value or raises, and leaves a world behind in
    both cases. *)
Definition M (A : Type) : Type := World → (Exn + A) * World.

Definition ret {A} (a : A) : M A := λ w, (inr a, w).

Definition raise {A} (e : Exn) : M A := λ w, (inl e, w).

Definition bind {A B} (m : M A) (k : A → M B) : M B :=
  λ w, match m w with
       | (inr a, w') => k a w'
       | (inl e, w') => (inl e, w')
       end.

(** The outcome of a pure call that may raise. *)
Definition lift {A} (r : Exn + A) : M A := λ w, (r, w).

Definition gets {A} (f : World → A) : M A := λ w, (inr (f w), w).

Definition modify (f : World → World) : M unit := λ w, (inr tt, f w).

(** [try: body  except IOError: handler]; the handler starts in the world
    the body left when it raised. *)
Definition try_except_IOError {A} (body handler : M A) : M A :=
  λ w, match body w with
       | (inl IOError, w') => handler w'
       | r => r
       end.

End Monad.

Notation "'let*' x ':=' m 'in' k" := (bind m (λ x, k))
  (at level 10, x name, m at level 100, k at level 200).
Notation "m ';;;' k" := (bind m (λ _, k))
  (at level 100, k at level 200, right associativity).

Section Operations.
Context `{Collaborators}.

Definition with_fs (f : gmap string Directory) (w : World) : World :=
  mkWorld f (entropy w) (clock w) (session w) (remote w) (yielded w) (stdout w)
    (self w) (config_obj w).

Definition with_entropy (e : Entropy) (w : World) : World :=
  mkWorld (fs w) e (clock w) (session w) (remote w) (yielded w) (stdout w)
    (self w) (config_obj w).

Definition with_session (s : Session) (w : World) : World :=
  mkWorld (fs w) (entropy w) (clock w) s (remote w) (yielded w) (stdout w)
    (self w) (config_obj w).

Definition with_remote (r : Remote) (w : World) : World :=
  mkWorld (fs w) (entropy w) (clock w) (session w) r (yielded w) (stdout w)
    (self w) (config_obj w).

Definition with_yielded (l : list string) (w : World) : World :=
  mkWorld (fs w) (entropy w) (clock w) (session w) (remote w) l (stdout w)
    (self w) (config_obj w).

Definition with_stdout (l : list string) (w : World) : World :=
  mkWorld (fs w) (entropy w) (clock w) (session w) (remote w) (yielded w) l
    (self w) (config_obj w).

Definition with_self (s : Self) (w : World) : World :=
  mkWorld (fs w) (entropy w) (clock w) (session w) (remote w) (yielded w)
    (stdout w) s (config_obj w).

Definition with_config_obj (c : option Configuration) (w : World) : World :=
  mkWorld (fs w) (entropy w) (clock w) (session w) (remote w) (yielded w)
    (stdout w) (self w) c.

(** [yield dict(Message=msg)] *)
Definition yield (msg : string) : M unit :=
  modify (λ w, with_yielded (yielded w ++ [msg]) w).

(** [print s] *)
Definition print (s : string) : M unit :=
  modify (λ w, with_stdout (stdout w ++ [s]) w).

(** [open(path).read()] *)
Definition open_read (p : Path) : M string :=
  λ w, (read_file (fs w) p, w).

(** [with open(path, "wb") as fd: fd.write(data)] *)
Definition open_write (p : Path) (s : string) : M unit :=
  λ w, match write_file (fs w) p s with
       | inr f => (inr tt, with_fs f w)
       | inl e => (inl e, w)
       end.

(** [os.access(path, os.R_OK)] *)
Definition os_access_R (p : Path) : M bool := gets (λ w, access_R (fs w) p).

(** [location.write_file(data)] *)
Definition upload (l : Location) (s : string) : M unit :=
  λ w, match location_write_file l s (remote w) with
       | inr r => (inr tt, with_remote r w)
       | inl e => (inl e, w)
       end.

(** [RSAPrivateKey(session=self.session).generate_key()] *)
Definition draw_key : M RSAPrivateKey :=
  λ w, let (k, e) := generate_key (entropy w) in (inr k, with_entropy e w).

(** Reading an attribute that holds None where an object is needed ends
    in an AttributeError at the first use of the object. *)
Definition attr {A} (name : string) (f : Self → option A) : M A :=
  λ w, match f (self w) with
       | Some a => (inr a, w)
       | None => (inl (AttributeError name), w)
       end.

Definition set_config_dir (d : string) : M unit :=
  modify (λ w, let s := self w in
    with_self (mkSelf (variant s) (plugin_args s) (self_secret s) (Some d)
                 (ca_cert s) (server_cert s) (server_private_key s) (_config s)) w).

Definition set_ca_cert (c : X509Certificate) : M unit :=
  modify (λ w, let s := self w in
    with_self (mkSelf (variant s) (plugin_args s) (self_secret s) (config_dir s)
                 (Some c) (server_cert s) (server_private_key s) (_config s)) w).

Definition set_server_cert (c : X509Certificate) : M unit :=
  modify (λ w, let s := self w in
    with_self (mkSelf (variant s) (plugin_args s) (self_secret s) (config_dir s)
                 (ca_cert s) (Some c) (server_private_key s) (_config s)) w).

Definition set_server_private_key (k : RSAPrivateKey) : M unit :=
  modify (λ w, let s := self w in
    with_self (mkSelf (variant s) (plugin_args s) (self_secret s) (config_dir s)
                 (ca_cert s) (server_cert s) (Some k) (_config s)) w).

Definition set__config (c : SessionConfig) : M unit :=
  modify (λ w, let s := self w in
    with_self (mkSelf (variant s) (plugin_args s) (self_secret s) (config_dir s)
                 (ca_cert s) (server_cert s) (server_private_key s) (Some c)) w).

(** [labels.add(x)] changes the object that [plugin_args.labels] names. *)
Definition set_arg_labels (l : PyLabels) : M unit :=
  modify (λ w, let s := self w in let a := plugin_args s in
    with_self (mkSelf (variant s)
                 (mkPluginArgs (arg_config_dir a) (arg_client_writeback_path a) l)
                 (self_secret s) (config_dir s)
                 (ca_cert s) (server_cert s) (server_private_key s) (_config s)) w).

(** ** The class attributes *)

Definition ca_private_key_filename : string := "ca.private_key.pem".
Definition ca_cert_filename : string := "ca.cert.pem".
Definition server_private_key_filename : string := "server.private_key.pem".
Definition server_certificate_filename : string := "server.certificate.pem".
Definition client_config_filename : string := "client.config.yaml".
Definition server_config_filename : string := "server.config.yaml".
Definition client_config_warning : string :=
  "# Warning: Do not edit this file. Edit the server config instead."
    ++ String "010"%char "".

(** ** generate_keys (config_updater.py, lines 83-155)

    The method is two try statements and a final check; each try statement
    is given a name of its own here, so that it can be reasoned about
    separately. *)

(** Lines 91-113: the try statement for the CA keys; its value is what the
    local [ca_private_key] is bound to afterwards. *)
Definition generate_keys_ca (ca_private_key_filename ca_cert_filename : Path)
  : M RSAPrivateKey :=
  try_except_IOError
    (let* pem := open_read ca_private_key_filename in
     let* ca_private_key := lift (key_from_primitive pem) in
     let* pem := open_read ca_cert_filename in
     let* cert := lift (cert_from_primitive pem) in
     set_ca_cert cert ;;;
     yield ("Reusing existing CA keys in " ++ path_str ca_cert_filename) ;;;
     ret ca_private_key)
    (yield ("Generating new CA private key into "
              ++ path_str ca_private_key_filename ++ " and "
              ++ path_str ca_cert_filename) ;;;
     let* ca_private_key := draw_key in
     open_write ca_private_key_filename (key_to_primitive ca_private_key) ;;;
     set_ca_cert (MakeCACert ca_private_key) ;;;
     let* cert := attr "ca_cert" ca_cert in
     open_write ca_cert_filename (cert_to_primitive cert) ;;;
     ret ca_private_key).

(** Lines 122-152: the try statement for the server keys. *)
Definition generate_keys_server
  (server_private_key_filename server_certificate_filename : Path)
  (ca_private_key : RSAPrivateKey) : M unit :=
  try_except_IOError
    (let* pem := open_read server_private_key_filename in
     let* key := lift (key_from_primitive pem) in
     set_server_private_key key ;;;
     let* pem := open_read server_certificate_filename in
     let* cert := lift (cert_from_primitive pem) in
     set_server_cert cert ;;;
     yield ("Reusing existing server keys in "
              ++ path_str server_certificate_filename))
    (yield ("Generating new Server private keys into "
              ++ path_str server_private_key_filename ++ " and "
              ++ path_str server_certificate_filename) ;;;
     let* key := draw_key in
     set_server_private_key key ;;;
     let* key := attr "server_private_key" server_private_key in
     open_write server_private_key_filename (key_to_primitive key) ;;;
     let* key := attr "server_private_key" server_private_key in
     let* cacert := attr "ca_cert" ca_cert in
     set_server_cert
       (MakeCASignedCert "Rekall Agent Server" key cacert ca_private_key) ;;;
     let* cert := attr "server_cert" server_cert in
     open_write server_certificate_filename (cert_to_primitive cert)).

(** Line 155: [self.server_cert.verify(self.ca_cert.get_public_key())] *)
Definition generate_keys_verify : M unit :=
  let* cert := attr "server_cert" server_cert in
  let* cacert := attr "ca_cert" ca_cert in
  lift (verify cert (get_public_key cacert)).

Definition generate_keys : M unit :=
  let* config_dir := attr "config_dir" config_dir in
  let ca_private_key_filename := os_path_join config_dir ca_private_key_filename in
  let ca_cert_filename := os_path_join config_dir ca_cert_filename in
  let* ca_private_key :=
    generate_keys_ca ca_private_key_filename ca_cert_filename in
  (* Now same thing with the server keys. *)
  let server_private_key_filename :=
    os_path_join config_dir server_private_key_filename in
  let server_certificate_filename :=
    os_path_join config_dir server_certificate_filename in
  generate_keys_server server_private_key_filename server_certificate_filename
    ca_private_key ;;;
  (* Ensure the keys verify before we write them. *)
  generate_keys_verify.

(** ** _build_config (lines 157-204, and the overrides at 298-314, 333-347) *)

(** The object [config] names; using None as a configuration raises
    AttributeError. *)
Definition the_config : M Configuration :=
  λ w, match config_obj w with
       | Some c => (inr c, w)
       | None => (inl (AttributeError "config"), w)
       end.

(** [config.field = value] *)
Definition assign_config (f : Configuration → Configuration) : M unit :=
  let* c := the_config in
  modify (with_config_obj (Some (f c))).

(** [config.server], where a policy object is needed *)
Definition config_server : M ServerPolicy :=
  let* c := the_config in
  match server c with
  | Some p => ret p
  | None => raise (AttributeError "server")
  end.

(** [config.server.field = value] *)
Definition assign_server (f : ServerPolicy → ServerPolicy) : M unit :=
  let* p := config_server in
  assign_config (λ c, mkConfiguration (Some (f p)) (client c)
                        (ca_certificate c) (manifest c) (signed_manifest c)).

(** [config.client.field = value] *)
Definition assign_client (f : ClientPolicy → ClientPolicy) : M unit :=
  let* c := the_config in
  match client c with
  | Some p =>
      assign_config (λ c, mkConfiguration (server c) (Some (f p))
                            (ca_certificate c) (manifest c) (signed_manifest c))
  | None => raise (AttributeError "client")
  end.

(** AgentServerInitialize._build_config *)
Definition _build_config : M unit :=
  (* Config should already be populated with the server and client policies. *)
  let* cacert := gets (λ w, ca_cert (self w)) in
  assign_config (λ c, mkConfiguration (server c) (client c) cacert
                        (manifest c) (signed_manifest c)) ;;;
  let* the_labels := gets (λ w, arg_labels (plugin_args (self w))) in
  let* the_labels :=
    if negb (py_in "All" the_labels)
    then (let* added := lift (py_add "All" the_labels) in
          set_arg_labels added ;;; ret added)
    else ret the_labels in
  let* cert := gets (λ w, server_cert (self w)) in
  assign_server (λ p, mkServerPolicy (sp_data p) cert (private_key p)) ;;;
  let* key := gets (λ w, server_private_key (self w)) in
  assign_server (λ p, mkServerPolicy (sp_data p) (certificate p) key) ;;;
  assign_client (λ p, mkClientPolicy (cp_data p) (Some the_labels) (secret p)
                        (writeback_path p)) ;;;
  let* the_secret := gets (λ w, self_secret (self w)) in
  assign_client (λ p, mkClientPolicy (cp_data p) (labels p) (Some the_secret)
                        (writeback_path p)) ;;;
  let* wb := gets (λ w, arg_client_writeback_path (plugin_args (self w))) in
  assign_client (λ p, mkClientPolicy (cp_data p) (labels p) (secret p) (Some wb)) ;;;
  let* srv := config_server in
  let* now := gets clock in
  let the_manifest :=
    mkManifest [("live", "API")]
      [mkStartupAction
         (mkStartup
            (flow_ticket_for_client srv "Startup" "{client_id}"
               (now + 60 * 60 * 24 * 365)%Z))] in
  assign_config (λ c, mkConfiguration (server c) (client c) (ca_certificate c)
                        (Some the_manifest) (signed_manifest c)) ;;;
  (* Now create a signed manifest. *)
  let* srv := config_server in
  let signed := mkSignedManifest (manifest_to_json the_manifest)
                  (certificate srv) None in
  assign_config (λ c, mkConfiguration (server c) (client c) (ca_certificate c)
                        (manifest c) (Some signed)) ;;;
  let* srv := config_server in
  let* key := match private_key srv with
              | Some k => ret k
              | None => raise (AttributeError "sign")
              end in
  assign_config (λ c, mkConfiguration (server c) (client c) (ca_certificate c)
                        (manifest c)
                        (Some (mkSignedManifest (data signed)
                                 (server_certificate signed)
                                 (Some (sign key (data signed)))))).

(** The overrides of the two plugins: they assign the server and the
    client policy, then call the method above.  The HTTP plugin names
    [http_location], which the module never imports. *)
Definition _build_config_of (v : Variant) : M unit :=
  match v with
  | GCS bucket service_account_path =>
      let* json := open_read service_account_path in
      let* service_account := lift (ServiceAccount_from_json json) in
      assign_config (λ c, mkConfiguration
                            (Some (mkServerPolicy
                                     (GCSServerPolicy bucket service_account)
                                     None None))
                            (client c) (ca_certificate c) (manifest c)
                            (signed_manifest c)) ;;;
      let* srv := config_server in
      assign_config (λ c, mkConfiguration (server c)
                            (Some (mkClientPolicy
                                     (GCSAgentPolicy (manifest_for_client srv))
                                     None None None))
                            (ca_certificate c) (manifest c) (signed_manifest c)) ;;;
      _build_config
  | LocalHTTP base_url bind_port bind_address =>
      let* cert := gets (λ w, server_cert (self w)) in
      let* key := gets (λ w, server_private_key (self w)) in
      assign_config (λ c, mkConfiguration
                            (Some (mkServerPolicy
                                     (HTTPServerPolicy base_url bind_port bind_address)
                                     cert key))
                            (client c) (ca_certificate c) (manifest c)
                            (signed_manifest c)) ;;;
      raise (NameError "http_location")
  end.

(** ** AgentConfigHook.calculate (hooks.py, lines 53-84) *)

(** Python truth of an optional string: None and the empty string are
    false. *)
Definition truthy (o : option string) : bool :=
  match o with
  | Some s => negb (bool_decide (s = ""))
  | None => false
  end.

Definition truthy_path (o : option Path) : bool :=
  match o with
  | Some p => negb (bool_decide (path_str p = ""))
  | None => false
  end.

Definition set_config_search_path (l : list string) : M unit :=
  modify (λ w, let s := session w in
    with_session (mkSession (agent_config_data s) (agent_configuration s) (Some l)
                    (agent_config_obj_set s) (REKALL_AGENT_CONFIG s)
                    (REKALL_AGENT_CONFIG_FILE s)) w).

Definition AgentConfigHook_calculate : M SessionConfig :=
  let* config_data := gets (λ w, agent_config_data (session w)) in
  let* config_data :=
    if negb (truthy config_data)
    then gets (λ w, REKALL_AGENT_CONFIG (session w))
    else ret config_data in
  let* config_data :=
    if negb (truthy config_data)
    then
      let* agent_config :=
        gets (λ w, if truthy_path (agent_configuration (session w))
                   then agent_configuration (session w)
                   else REKALL_AGENT_CONFIG_FILE (session w)) in
      match agent_config with
      | Some p =>
          if truthy_path agent_config
          then
            let* sp := gets (λ w, config_search_path (session w)) in
            (if bool_decide (sp = None)
             then set_config_search_path [os_path_dirname p]
             else ret tt) ;;;
            let* read := open_read p in
            ret (Some read)
          else ret config_data
      | None => ret config_data
      end
    else ret config_data in
  match config_data with
  | Some s => if truthy config_data then lift (unserialize s) else ret NoneObject
  | None => ret NoneObject
  end.

(** ** write_config (lines 206-253)

    Three statements in a row: bind [config], write the client document,
    reload the server document through the session. *)

(** [session.SetParameter("agent_config_obj", config)] *)
Definition set_agent_config_obj : M unit :=
  modify (λ w, let s := session w in
    with_session (mkSession (agent_config_data s) (agent_configuration s)
                    (config_search_path s) true (REKALL_AGENT_CONFIG s)
                    (REKALL_AGENT_CONFIG_FILE s)) w).

(** [session.SetParameter("agent_configuration", path)] *)
Definition set_agent_configuration (p : Path) : M unit :=
  modify (λ w, let s := session w in
    with_session (mkSession (agent_config_data s) (Some p)
                    (config_search_path s) (agent_config_obj_set s)
                    (REKALL_AGENT_CONFIG s) (REKALL_AGENT_CONFIG_FILE s)) w).

(** Lines 234-236: the client gets just the client part of the
    configuration. *)
Definition client_config_of (config : Configuration) : Configuration :=
  mkConfiguration None (client config) (ca_certificate config) None None.

(** Lines 210-231: the if statement that binds [config], to the existing
    server configuration or to a new one that is built and written. *)
Definition write_config_server (server_config_filename : Path) : M unit :=
  let* readable := os_access_R server_config_filename in
  if readable
  then
    yield ("Server config at " ++ path_str server_config_filename
             ++ " exists. Remove to regenerate.") ;;;
    (* Load existing server config. *)
    let* server_config_data := open_read server_config_filename in
    let* loaded := lift (load_config server_config_data) in
    modify (with_config_obj (Some loaded))
  else
    (* Make a new configuration *)
    modify (with_config_obj (Some new_Configuration)) ;;;
    set_agent_config_obj ;;;
    let* v := gets (λ w, variant (self w)) in
    _build_config_of v ;;;
    yield ("Writing server config file " ++ path_str server_config_filename) ;;;
    let* config := the_config in
    open_write server_config_filename (dump_config config).

(** Lines 233-245: the client document. *)
Definition write_config_client (client_config_filename : Path) : M unit :=
  (* The client gets just the client part of the configuration. *)
  let* config := the_config in
  let client_config := client_config_of config in
  yield ("Writing client config file " ++ path_str client_config_filename) ;;;
  open_write client_config_filename
    (client_config_warning ++ dump_config client_config).

(** Lines 247-253: now load the server config file to make sure it is
    validly written.  [GetParameter("agent_config_obj", cached=False)]
    makes the session run the hook of that parameter, which is
    AgentConfigHook.calculate. *)
Definition write_config_check (server_config_filename : Path) : M unit :=
  set_agent_configuration server_config_filename ;;;
  let* cfg := AgentConfigHook_calculate in
  set__config cfg ;;;
  if is_None cfg
  then raise (RuntimeError "Unable to parse provided configuration.")
  else ret tt.

Definition write_config : M unit :=
  let* config_dir := attr "config_dir" config_dir in
  let server_config_filename := os_path_join config_dir server_config_filename in
  write_config_server server_config_filename ;;;
  let client_config_filename := os_path_join config_dir client_config_filename in
  write_config_client client_config_filename ;;;
  write_config_check server_config_filename.

(** ** write_manifest (lines 255-266, and the override at 349-358) *)

Definition write_manifest : M unit :=
  yield "Writing manifest file." ;;;
  (* Now upload the signed manifest to the bucket. *)
  let* cfg := attr "_config" _config in
  let* upload_location := lift (manifest_for_server cfg) in
  yield ("Writing manifest file to " ++ to_path upload_location) ;;;
  let* json := lift (signed_manifest_to_json cfg) in
  upload upload_location json ;;;
  let* dumped := lift (dump_manifest cfg) in
  print dumped.

(** For HTTP servers the manifest is served from the configuration and
    never written: the override returns the empty list. *)
Definition write_manifest_of (v : Variant) : M unit :=
  match v with
  | GCS _ _ => write_manifest
  | LocalHTTP _ _ _ => ret tt
  end.

(** ** collect (lines 269-282) *)

Definition collect : M unit :=
  let* dir := gets (λ w, arg_config_dir (plugin_args (self w))) in
  set_config_dir dir ;;;
  let* config_dir := attr "config_dir" config_dir in
  let* readable := gets (λ w, access_dir_R (fs w) config_dir) in
  (if negb readable
   then raise (PluginError ("Unable to write to config directory " ++ config_dir))
   else ret tt) ;;;
  generate_keys ;;;
  write_config ;;;
  (let* v := gets (λ w, variant (self w)) in write_manifest_of v) ;;;
  yield "Done!".

End Operations.

(** * Vocabulary of the properties *)

Section Vocabulary.
Context `{Collaborators}.

(** The paths of one directory. *)
Definition ca_key_path (d : string) : Path := os_path_join d ca_private_key_filename.
Definition ca_cert_path (d : string) : Path := os_path_join d ca_cert_filename.
Definition server_key_path (d : string) : Path :=
  os_path_join d server_private_key_filename.
Definition server_cert_path (d : string) : Path :=
  os_path_join d server_certificate_filename.
Definition server_config_path (d : string) : Path :=
  os_path_join d server_config_filename.
Definition client_config_path (d : string) : Path :=
  os_path_join d client_config_filename.

(** The key and certificate files of a directory, and its two
    configuration documents. *)
Definition is_key_file (d : string) (p : Path) : Prop :=
  p ∈ [ca_key_path d; ca_cert_path d; server_key_path d; server_cert_path d].

Definition is_config_file (d : string) (p : Path) : Prop :=
  p ∈ [server_config_path d; client_config_path d].

(** What a computation leaves as it is

    [keeps R m]: whatever [m] does, returning or raising, the world it
    leaves is related by [R] to the world it started in. *)

Definition keeps {A} (R : World → World → Prop) (m : M A) : Prop :=
  ∀ w r w', m w = (r, w') → R w w'.

(** The relations that are kept: two worlds agree on an observation, *)
Definition agree {A} (f : World → A) (w w' : World) : Prop := f w' = f w.

(** or on every file outside a set of paths (and on the permissions of
    every directory). *)
Definition unwritten (P : Path → Prop) (w w' : World) : Prop :=
  (∀ p, ¬ P p → lookup_file (fs w') p = lookup_file (fs w) p) ∧
  (∀ d, access_dir_R (fs w') d = access_dir_R (fs w) d).

(** The observations that matter below. *)
Definition keys_of (w : World) :=
  (entropy w, ca_cert (self w), server_cert (self w), server_private_key (self w)).

Definition plugin_of (w : World) :=
  (variant (self w), self_secret (self w), arg_config_dir (plugin_args (self w)),
   arg_client_writeback_path (plugin_args (self w)), clock w, config_dir (self w)).

(** The world after the first statement of collect,
    [self.config_dir = self.plugin_args.config_dir]. *)
Definition started (w : World) : World :=
  (set_config_dir (arg_config_dir (plugin_args (self w))) w).2.

(** What collect runs once the directory has passed the access check. *)
Definition collect_methods : M unit :=
  generate_keys ;;;
  write_config ;;;
  (let* v := gets (λ w, variant (self w)) in write_manifest_of v) ;;;
  yield "Done!".

(** The same world with another [labels] argument. *)
Definition with_labels (l : PyLabels) (w : World) : World :=
  (set_arg_labels l w).2.

(** The try statement of a key and certificate pair takes the except
    branch: the key file cannot be opened, or it can (and parses) and the
    certificate file cannot. *)
Definition pair_missing {K} (parse : string → Exn + K)
  (f : gmap string Directory) (kp cp : Path) : Prop :=
  read_file f kp = inl IOError ∨
  ∃ pem k, read_file f kp = inr pem ∧ parse pem = inr k ∧
           read_file f cp = inl IOError.

(** The same world with another server key and certificate in [self]. *)
Definition with_server_pair (k : RSAPrivateKey) (c : X509Certificate) (w : World)
  : World :=
  (set_server_cert c (set_server_private_key k w).2).2.

(** The manifest _build_config makes for a server policy at a time. *)
Definition manifest_of (srv : ServerPolicy) (now : Z) : Manifest :=
  mkManifest [("live", "API")]
    [mkStartupAction
       (mkStartup
          (flow_ticket_for_client srv "Startup" "{client_id}"
             (now + 60 * 60 * 24 * 365)%Z))].

(** The labels once [if "All" not in labels: labels.add("All")] has
    returned: a list is left as it is (the statement returns on a list
    only when "All" is in it), a set holds "All". *)
Definition labels_with_All (l : PyLabels) : PyLabels :=
  match l with
  | PyList ll => PyList ll
  | PySet s => if bool_decide ("All" ∈ s) then PySet s else PySet ({["All"]} ∪ s)
  end.

(** What generate_keys has no business with. *)
Definition beside_keys (w : World) :=
  (config_obj w, plugin_args (self w), variant (self w), self_secret (self w),
   config_dir (self w), _config (self w), session w, remote w, stdout w, clock w).

(** The rows a computation adds to the log all satisfy [P]. *)
Definition yields_only (P : string → Prop) (w w' : World) : Prop :=
  ∃ l, yielded w' = (yielded w ++ l)%list ∧ Forall P l.

(** A computation yields the row "Done!" when it returns, as its last
    row, and at no other time. *)
Definition Done_last {A} (m : M A) : Prop :=
  ∀ w r w', m w = (r, w') →
    ∃ l, yielded w' = (yielded w ++ l)%list ∧
         match r with
         | inr _ => ∃ l0, l = (l0 ++ ["Done!"])%list ∧ "Done!" ∉ l0
         | inl _ => "Done!" ∉ l
         end.

(** The configuration text the hook finds without opening a file: the
    session parameter agent_config_data, or else the environment variable
    REKALL_AGENT_CONFIG. *)
Definition inline_config_data (s : Session) : option string :=
  if truthy (agent_config_data s) then agent_config_data s
  else REKALL_AGENT_CONFIG s.

(** The file the hook opens otherwise: the session parameter
    agent_configuration, or else the environment variable
    REKALL_AGENT_CONFIG_FILE. *)
Definition config_file_of (s : Session) : option Path :=
  if truthy_path (agent_configuration s) then agent_configuration s
  else REKALL_AGENT_CONFIG_FILE s.

(** The non-empty text the hook hands to the serializer: the inline data,
    or else what the configuration file holds. *)
Definition config_source (w : World) (s : string) : Prop :=
  s ≠ "" ∧
  (inline_config_data (session w) = Some s ∨
   (truthy (inline_config_data (session w)) = false ∧
    ∃ p, config_file_of (session w) = Some p ∧ read_file (fs w) p = inr s)).

End Vocabulary.

(** ** A small instance, to run the methods on concrete directories *)

Module Toy.

(** Keys and certificates are their own PEM text.  A certificate signed by
    a CA key starts with the text of that CA's certificate, and verifying
    it under a public key checks that prefix. *)
Definition crypto : CryptoProvider := {|
  RSAPrivateKey := string;
  RSAPublicKey := string;
  X509Certificate := string;
  Entropy := nat;
  generate_key := λ n, ("rsa-" ++ pretty n, S n);
  key_to_primitive := λ k, k;
  key_from_primitive := λ s, inr s;
  cert_to_primitive := λ c, c;
  cert_from_primitive := λ s, inr s;
  MakeCACert := λ k, "ca(" ++ k ++ ")";
  MakeCASignedCert := λ cn key cacert cakey,
    "ca(" ++ cakey ++ ") signs " ++ cn ++ " holding " ++ key;
  get_public_key := λ c, c;
  verify := λ c pk,
    if String.prefix pk c then inr tt else inl (ProviderError "CipherError");
  sign := λ k s, "sig(" ++ k ++ ")";
|}.

Inductive session_config : Type :=
| SNone
| SNoneObject
| SConfig (doc : string).

Definition types : PolicyTypes := {|
  ServerPolicyData := string;
  ClientPolicyData := string;
  Location := string;
  ServiceAccount := string;
  Remote := list (string * string);
  SessionConfig := session_config;
|}.

#[local] Existing Instance crypto.
#[local] Existing Instance types.

Definition show (o : option string) : string := default "~" o.

Definition show_labels (o : option PyLabels) : string :=
  match o with
  | Some (PyList l) => "[" ++ String.concat "," l ++ "]"
  | Some (PySet s) => "{" ++ String.concat "," (elements s) ++ "}"
  | None => "~"
  end.

Definition server_field (f : ServerPolicy → option string) (c : Configuration)
  : option string :=
  match server c with Some p => f p | None => None end.

Definition client_field (f : ClientPolicy → option string) (c : Configuration)
  : option string :=
  match client c with Some p => f p | None => None end.

(** The YAML text of a configuration, one field per line. *)
Definition dump (c : Configuration) : string :=
  String.concat (String "010"%char "")
    [ "server: " ++ show (server_field (λ p, Some (sp_data p)) c);
      "server.certificate: " ++ show (server_field certificate c);
      "server.private_key: " ++ show (server_field private_key c);
      "client: " ++ show (client_field (λ p, Some (cp_data p)) c);
      "client.labels: "
        ++ show_labels (match client c with Some p => labels p | None => None end);
      "client.secret: " ++ show (client_field secret c);
      "client.writeback_path: " ++ show (client_field writeback_path c);
      "ca_certificate: " ++ show (ca_certificate c);
      "signed_manifest.signature: "
        ++ show (match signed_manifest c with
                 | Some m => signature m
                 | None => None
                 end) ].

(** The collaborators, given the documents the YAML loader understands. *)
Definition collaborators_with (known : list Configuration) : Collaborators := {|
  dump_config := dump;
  load_config := λ s,
    match List.find (λ c, bool_decide (dump c = s)) known with
    | Some c => inr c
    | None => inl (ProviderError "YAMLError")
    end;
  manifest_to_json := λ m, "manifest";
  flow_ticket_for_client := λ srv name template expiration,
    sp_data srv ++ "/" ++ name ++ "/" ++ template;
  manifest_for_client := λ srv, sp_data srv ++ "/manifest";
  ServiceAccount_from_json := λ s, inr s;
  GCSServerPolicy := λ bucket account, "gs://" ++ bucket;
  GCSAgentPolicy := λ loc, loc;
  HTTPServerPolicy := λ url port address, url;
  unserialize := λ s, inr (SConfig s);
  NoneObject := SNoneObject;
  is_None := λ x, match x with SNone => true | _ => false end;
  manifest_for_server := λ x,
    match x with
    | SConfig _ => inr "gs://manifest"
    | _ => inl (AttributeError "manifest_for_server")
    end;
  to_path := λ l, l;
  location_write_file := λ l s (r : list (string * string)), inr (app r [(l, s)]);
  signed_manifest_to_json := λ x,
    match x with
    | SConfig d => inr d
    | _ => inl (AttributeError "signed_manifest")
    end;
  dump_manifest := λ x,
    match x with
    | SConfig d => inr d
    | _ => inl (AttributeError "manifest")
    end;
|}.

Definition etc : string := "/etc/rekall".

Definition account_path : Path := os_path_join "/home/operator" "account.json".

Definition args (l : PyLabels) : PluginArgs :=
  mkPluginArgs etc "/etc/rekall/agent.local.json" l.

Definition no_session : Session := mkSession None None None false None None.

(** The directory of the service account file, next to a configuration
    directory with the given permissions and entries. *)
Definition disk (readable writable : bool) (entries : gmap string File)
  : gmap string Directory :=
  {[ "/home/operator" :=
       mkDir true true {[ "account.json" := mkFile "{account}" true false ]};
     etc := mkDir readable writable entries ]}.

(** The world a new process of the GCS plugin starts in. *)
Definition start (d : gmap string Directory) (seed : nat) (the_secret : string)
  (l : PyLabels) : World :=
  mkWorld d seed 1500000000%Z no_session [] [] []
    (new_Self (GCS "bucket" account_path) (args l) the_secret) None.

(** The configuration a first run against an empty directory builds from
    seed 0, and the collaborators whose YAML loader understands its
    document. *)
Definition first_config : Configuration :=
  Eval vm_compute in
    default new_Configuration
      (config_obj
         (@collect _ _ (collaborators_with [])
            (start (disk true true ∅) 0 "0a1b2c3d4e" (PyList ["All"]))).2).

Definition collaborators : Collaborators := collaborators_with [first_config].

(** Directories to start from. *)
Definition file (text : string) : File := mkFile text true true.

(** a CA certificate, no CA private key *)
Definition lone_ca_cert : gmap string File :=
  {[ "ca.cert.pem" := file "ca(rsa-old)" ]}.

(** all four files, the server certificate signed by another CA *)
Definition foreign_server_cert : gmap string File :=
  {[ "ca.private_key.pem" := file "rsa-7";
     "ca.cert.pem" := file "ca(rsa-7)";
     "server.private_key.pem" := file "rsa-9";
     "server.certificate.pem" :=
       file "ca(rsa-3) signs Rekall Agent Server holding rsa-9" ]}.

(** a CA private key and a CA certificate that do not belong together *)
Definition mismatched_ca : gmap string File :=
  {[ "ca.private_key.pem" := file "rsa-7";
     "ca.cert.pem" := file "ca(rsa-3)" ]}.

(** a server pair left over from a CA that is gone *)
Definition stale_server_pair : gmap string File :=
  {[ "server.private_key.pem" := file "rsa-9";
     "server.certificate.pem" :=
       file "ca(rsa-3) signs Rekall Agent Server holding rsa-9" ]}.

(** good keys, and a server configuration that is not YAML *)
Definition broken_server_config : gmap string File :=
  {[ "ca.private_key.pem" := file "rsa-7";
     "ca.cert.pem" := file "ca(rsa-7)";
     "server.private_key.pem" := file "rsa-9";
     "server.certificate.pem" :=
       file "ca(rsa-7) signs Rekall Agent Server holding rsa-9";
     "server.config.yaml" := file "{{{" ]}.

(** A new process in a readable, writable configuration directory, and
    the same once collect has assigned [self.config_dir]. *)
Definition process (entries : gmap string File) : World :=
  start (disk true true entries) 0 "0a1b2c3d4e" (PyList ["All"]).

Definition in_collect (entries : gmap string File) : World :=
  started (process entries).


(** Keys and certificates from their text. *)
Definition key (text : string) : RSAPrivateKey := text.
Definition cert (text : string) : X509Certificate := text.

(** The file system a successful write leaves. *)
Definition written (r : Exn + gmap string Directory) : gmap string Directory :=
  match r with
  | inr f => f
  | inl _ => ∅
  end.

(** The text of the stale server certificate. *)
Definition stale_cert : string :=
  "ca(rsa-3) signs Rekall Agent Server holding rsa-9".

(** Three runs in a row, the first against an empty directory. *)
Definition run_1 : World := (@collect _ _ collaborators (process ∅)).2.

(** The world between generate_keys and write_config, in a first run. *)
Definition keys_made : World :=
  (generate_keys (in_collect ∅)).2.

(** A process whose configuration directory does not exist. *)
Definition nowhere : World := start ∅ 0 "0a1b2c3d4e" (PyList ["All"]).

(** a CA key pair, no server pair *)
Definition ca_pair_only : gmap string File :=
  {[ "ca.private_key.pem" := file "rsa-7";
     "ca.cert.pem" := file "ca(rsa-7)" ]}.

(** a CA private key, no CA certificate *)
Definition lone_ca_key : gmap string File :=
  {[ "ca.private_key.pem" := file "rsa-old" ]}.

(** The world of a first run when the GCS override has assigned the two
    policies and calls the base method. *)
Definition policies_assigned : World :=
  with_config_obj
    (Some (mkConfiguration (Some (mkServerPolicy "gs://bucket" None None))
             (Some (mkClientPolicy "gs://bucket/manifest" None None None))
             None None None))
    keys_made.

(** The world between generate_keys and write_config when the labels are
    the empty list. *)
Definition keys_made_unlabelled : World :=
  (generate_keys (started (start (disk true true ∅) 0 "0a1b2c3d4e" (PyList [])))).2.

(** The same world once write_config has bound [config] to a new
    configuration and the GCS override is about to run; what the override
    leaves when add fails. *)
Definition config_bound : World :=
  (set_agent_config_obj
     (with_config_obj (Some new_Configuration) keys_made_unlabelled)).2.

Definition build_failed : World :=
  (@_build_config_of _ _ collaborators (GCS "bucket" account_path) config_bound).2.

(** A new process of the HTTP plugin. *)
Definition http_process (entries : gmap string File) : World :=
  mkWorld (disk true true entries) 0 1500000000%Z no_session [] [] []
    (new_Self (LocalHTTP "https://rekall.example.org" 8000 "127.0.0.1")
       (args (PySet {["All"]})) "0a1b2c3d4e")
    None.

(** The world between generate_keys and write_config when the server
    configuration on disk is not YAML. *)
Definition keys_loaded_broken_config : World :=
  (generate_keys (in_collect broken_server_config)).2.

(** A world whose session carries inline configuration data, next to a
    configuration file parameter. *)
Definition inline_session : World :=
  with_session
    (mkSession (Some "inline: data") (Some (server_config_path etc)) None false
       (Some "from: environment") None)
    run_1.

End Toy.

(** ** A second instance, whose parsers can fail *)

Module Picky.

(** A crypto module whose parsers reject text of the wrong kind. *)
Definition crypto : CryptoProvider := {|
  RSAPrivateKey := string;
  RSAPublicKey := string;
  X509Certificate := string;
  Entropy := nat;
  generate_key := λ n, ("rsa-" ++ pretty n, S n);
  key_to_primitive := λ k, k;
  key_from_primitive := λ s,
    if String.prefix "rsa-" s then inr s else inl (ProviderError "ValueError");
  cert_to_primitive := λ c, c;
  cert_from_primitive := λ s,
    if String.prefix "ca(" s then inr s else inl (ProviderError "ValueError");
  MakeCACert := λ k, "ca(" ++ k ++ ")";
  MakeCASignedCert := λ cn key cacert cakey,
    "ca(" ++ cakey ++ ") signs " ++ cn ++ " holding " ++ key;
  get_public_key := λ c, c;
  verify := λ c pk,
    if String.prefix pk c then inr tt else inl (ProviderError "CipherError");
  sign := λ k s, "sig(" ++ k ++ ")";
|}.

#[local] Existing Instance crypto.
#[local] Existing Instance Toy.types.

(** Collaborators for it; generate_keys calls none of them. *)
Definition collaborators : Collaborators := {|
  dump_config := λ _, "";
  load_config := λ _, inl (ProviderError "YAMLError");
  manifest_to_json := λ _, "manifest";
  flow_ticket_for_client := λ _ name _ _, name;
  manifest_for_client := λ _, "manifest";
  ServiceAccount_from_json := λ s, inr s;
  GCSServerPolicy := λ bucket _, bucket;
  GCSAgentPolicy := λ loc, loc;
  HTTPServerPolicy := λ url _ _, url;
  unserialize := λ s, inr (Toy.SConfig s);
  NoneObject := Toy.SNoneObject;
  is_None := λ x, match x with Toy.SNone => true | _ => false end;
  manifest_for_server := λ _, inr "manifest";
  to_path := λ l, l;
  location_write_file := λ l s (r : list (string * string)), inr (app r [(l, s)]);
  signed_manifest_to_json := λ _, inr "";
  dump_manifest := λ _, inr "";
|}.

(** a CA private key file that holds no key *)
Definition garbled_ca_key : gmap string File :=
  {[ "ca.private_key.pem" := Toy.file "-----BEGIN GARBAGE-----";
     "ca.cert.pem" := Toy.file "ca(rsa-7)" ]}.

(** A process of the GCS plugin in collect, past the access check. *)
Definition in_collect (entries : gmap string File) : World :=
  mkWorld (Toy.disk true true entries) 0 1500000000%Z Toy.no_session [] [] []
    (mkSelf (GCS "bucket" Toy.account_path) (Toy.args (PyList ["All"]))
       "0a1b2c3d4e" (Some Toy.etc) None None None None)
    None.

End Picky.


(** * Properties *)

(** ** The file system *)


Lemma read_file_inr fs p s :
  read_file fs p = inr s →
  ∃ f, lookup_file fs p = Some f ∧ f_readable f = true ∧ f_data f = s.
Proof.
  unfold read_file. destruct (lookup_file fs p) as [f|]; [|done].
  destruct (f_readable f) eqn:Hr; [|done].
  intros [= <-]. eauto.
Qed.

Lemma read_file_access fs p s : read_file fs p = inr s → access_R fs p = true.
Proof.
  intros (f & Hf & Hr & _)%read_file_inr. unfold access_R. by rewrite Hf.
Qed.

(** A write leaves every other path as it was. *)
Lemma write_file_other fs p s fs' q :
  write_file fs p s = inr fs' → q ≠ p → lookup_file fs' q = lookup_file fs q.
Proof.
  unfold write_file, lookup_file. intros Hw Hne.
  destruct (fs !! p_dir p) as [dir|] eqn:Hd; [|done].
  assert (∀ e, (<[p_dir p := mkDir (d_readable dir) (d_writable dir)
                              (<[p_name p := e]> (d_entries dir))]> fs
                  !! p_dir q) ≫= (λ dir, d_entries dir !! p_name q)
               = (fs !! p_dir q) ≫= (λ dir, d_entries dir !! p_name q)) as Hins.
  { intros e. destruct (decide (p_dir p = p_dir q)) as [Hpq|Hpq].
    - rewrite <- Hpq, lookup_insert_eq, Hd. simpl.
      apply lookup_insert_ne. intros Hn. apply Hne.
      destruct p, q; simpl in *; congruence.
    - by rewrite lookup_insert_ne. }
  destruct (d_entries dir !! p_name p) as [f|].
  - destruct (f_writable f); [|done]. injection Hw as <-. apply Hins.
  - destruct (d_writable dir); [|done]. injection Hw as <-. apply Hins.
Qed.

(** After a write the file holds the data; it is readable when it is new or
    was readable before. *)
Lemma write_file_same fs p s fs' :
  write_file fs p s = inr fs' →
  lookup_file fs' p =
    Some (mkFile s (match lookup_file fs p with
                    | Some old => f_readable old
                    | None => true
                    end) true).
Proof.
  unfold write_file, lookup_file. intros Hw.
  destruct (fs !! p_dir p) as [dir|] eqn:Hd; [|done]. simpl.
  destruct (d_entries dir !! p_name p) as [f|].
  - destruct (f_writable f); [|done]. injection Hw as <-.
    rewrite lookup_insert_eq. simpl. by rewrite lookup_insert_eq.
  - destruct (d_writable dir); [|done]. injection Hw as <-.
    rewrite lookup_insert_eq. simpl. by rewrite lookup_insert_eq.
Qed.

Lemma read_file_write_other fs p s fs' q :
  write_file fs p s = inr fs' → q ≠ p → read_file fs' q = read_file fs q.
Proof.
  intros Hw Hne. unfold read_file. by rewrite (write_file_other _ _ _ _ _ Hw Hne).
Qed.

(** Directory permissions are not changed by a write. *)
Lemma write_file_access_dir fs p s fs' d :
  write_file fs p s = inr fs' → access_dir_R fs' d = access_dir_R fs d.
Proof.
  unfold write_file, access_dir_R. intros Hw.
  destruct (fs !! p_dir p) as [dir|] eqn:Hd; [|done].
  assert (∀ e, match <[p_dir p := mkDir (d_readable dir) (d_writable dir) e]> fs !! d with
               | Some x => d_readable x | None => false end
               = match fs !! d with Some x => d_readable x | None => false end) as Hins.
  { intros e. destruct (decide (p_dir p = d)) as [<-|Hpd].
    - by rewrite lookup_insert_eq, Hd.
    - by rewrite lookup_insert_ne. }
  destruct (d_entries dir !! p_name p) as [f|].
  - destruct (f_writable f); [|done]. injection Hw as <-. apply Hins.
  - destruct (d_writable dir); [|done]. injection Hw as <-. apply Hins.
Qed.

(** When a write succeeds. *)
Lemma write_file_new fs p s dir :
  fs !! p_dir p = Some dir → d_writable dir = true →
  d_entries dir !! p_name p = None →
  ∃ fs', write_file fs p s = inr fs'.
Proof. unfold write_file. intros -> -> ->. eauto. Qed.

Lemma write_file_existing fs p s f :
  lookup_file fs p = Some f → f_writable f = true →
  ∃ fs', write_file fs p s = inr fs'.
Proof.
  unfold write_file, lookup_file.
  destruct (fs !! p_dir p) as [dir|]; [|done]. simpl.
  intros -> ->. eauto.
Qed.


Lemma read_file_missing fs p :
  lookup_file fs p = None → read_file fs p = inl IOError.
Proof. unfold read_file. by intros ->. Qed.


(** ** Running the monad, and what a computation leaves as it is *)

Section Running.
Context `{Collaborators}.

Lemma bind_inr {A B} (m : M A) (k : A → M B) w b w' :
  bind m k w = (inr b, w') → ∃ a w1, m w = (inr a, w1) ∧ k a w1 = (inr b, w').
Proof.
  unfold bind. destruct (m w) as [[e|a] w1]; [done|]. eauto.
Qed.

Lemma bind_run {A B} (m : M A) (k : A → M B) w a w1 :
  m w = (inr a, w1) → bind m k w = k a w1.
Proof. unfold bind. by intros ->. Qed.

Lemma bind_raise {A B} (m : M A) (k : A → M B) w e w1 :
  m w = (inl e, w1) → bind m k w = (inl e, w1).
Proof. unfold bind. by intros ->. Qed.

Section Keeps.
Variable R : World → World → Prop.
Hypothesis R_refl : ∀ w, R w w.
Hypothesis R_trans : ∀ w1 w2 w3, R w1 w2 → R w2 w3 → R w1 w3.

Lemma keeps_ret {A} (a : A) : keeps R (ret a).
Proof. intros w r w' [= _ <-]. apply R_refl. Qed.

Lemma keeps_raise {A} e : keeps R (@raise _ _ A e).
Proof. intros w r w' [= _ <-]. apply R_refl. Qed.

Lemma keeps_lift {A} (x : Exn + A) : keeps R (lift x).
Proof. intros w r w' [= _ <-]. apply R_refl. Qed.

Lemma keeps_gets {A} (f : World → A) : keeps R (gets f).
Proof. intros w r w' [= _ <-]. apply R_refl. Qed.

Lemma keeps_attr {A} name (f : Self → option A) : keeps R (attr name f).
Proof.
  intros w r w'. unfold attr. destruct (f (self w)); intros [= _ <-]; apply R_refl.
Qed.

Lemma keeps_open_read p : keeps R (open_read p).
Proof. intros w r w' [= _ <-]. apply R_refl. Qed.

Lemma keeps_modify f : (∀ w, R w (f w)) → keeps R (modify f).
Proof. intros Hf w r w' [= _ <-]. apply Hf. Qed.

Lemma keeps_bind {A B} (m : M A) (k : A → M B) :
  keeps R m → (∀ a, keeps R (k a)) → keeps R (bind m k).
Proof.
  intros Hm Hk w r w'. unfold bind.
  destruct (m w) as [[e|a] w1] eqn:Hmw.
  - intros [= _ <-]. eapply Hm, Hmw.
  - intros Hkw. eapply R_trans; [eapply Hm, Hmw | eapply Hk, Hkw].
Qed.

Lemma keeps_try {A} (body handler : M A) :
  keeps R body → keeps R handler → keeps R (try_except_IOError body handler).
Proof.
  intros Hb Hh w r w'. unfold try_except_IOError.
  destruct (body w) as [[e|a] w1] eqn:Hbw.
  - destruct e; try (intros [= _ <-]; eapply Hb, Hbw).
    intros Hhw. eapply R_trans; [eapply Hb, Hbw | eapply Hh, Hhw].
  - intros [= _ <-]. eapply Hb, Hbw.
Qed.

Lemma keeps_open_write p s :
  (∀ w f, write_file (fs w) p s = inr f → R w (with_fs f w)) →
  keeps R (open_write p s).
Proof.
  intros Hw w r w'. unfold open_write.
  destruct (write_file (fs w) p s) eqn:Hf; intros [= _ <-]; [apply R_refl|by apply Hw].
Qed.

Lemma keeps_draw_key :
  (∀ w e, R w (with_entropy e w)) → keeps R draw_key.
Proof.
  intros He w r w'. unfold draw_key.
  destruct (generate_key (entropy w)). intros [= _ <-]. apply He.
Qed.

Lemma keeps_upload l s :
  (∀ w r, R w (with_remote r w)) → keeps R (upload l s).
Proof.
  intros Hr w r w'. unfold upload.
  destruct (location_write_file l s (remote w)); intros [= _ <-];
    [apply R_refl|apply Hr].
Qed.

Lemma keeps_the_config : keeps R the_config.
Proof.
  intros w r w'. unfold the_config.
  destruct (config_obj w); intros [= _ <-]; apply R_refl.
Qed.

End Keeps.


Lemma keeps_weaken {A} (R R' : World → World → Prop) (m : M A) :
  (∀ w w', R w w' → R' w w') → keeps R m → keeps R' m.
Proof. intros HR Hm w r w' Hrun. eapply HR, Hm, Hrun. Qed.

Lemma agree_refl {A} (f : World → A) w : agree f w w.
Proof. done. Qed.

Lemma agree_trans {A} (f : World → A) w1 w2 w3 :
  agree f w1 w2 → agree f w2 w3 → agree f w1 w3.
Proof. unfold agree. congruence. Qed.

Lemma unwritten_refl P w : unwritten P w w.
Proof. done. Qed.

Lemma unwritten_trans P w1 w2 w3 :
  unwritten P w1 w2 → unwritten P w2 w3 → unwritten P w1 w3.
Proof.
  intros [Ha Hb] [Hc Hd]. split.
  - intros p Hp. by rewrite Hc, Ha.
  - intros d. by rewrite Hd, Hb.
Qed.

Lemma unwritten_write (P : Path → Prop) p s w f :
  P p → write_file (fs w) p s = inr f → unwritten P w (with_fs f w).
Proof.
  intros Hp Hw. split; simpl.
  - intros q Hq. eapply write_file_other; [done|]. by intros ->.
  - intros d. by eapply write_file_access_dir.
Qed.

Lemma unwritten_agree_fs P w w' : agree fs w w' → unwritten P w w'.
Proof. unfold agree. intros Hfs. split; intros; by rewrite Hfs. Qed.


End Running.

(** One step of a proof that a method keeps a relation: through the
    control structure, down to the primitive effects, which [tac] settles. *)
Ltac keeps_order :=
  first [ apply agree_refl | apply agree_trans
        | apply unwritten_refl | apply unwritten_trans ].

Ltac keeps_step tac :=
  lazymatch goal with
  | |- keeps _ (bind _ _) => apply keeps_bind; [keeps_order | | intros ?]
  | |- keeps _ (try_except_IOError _ _) =>
      apply keeps_try; [keeps_order | | ]
  | |- keeps _ (ret _) => apply keeps_ret; keeps_order
  | |- keeps _ (raise _) => apply keeps_raise; keeps_order
  | |- keeps _ (lift _) => apply keeps_lift; keeps_order
  | |- keeps _ (gets _) => apply keeps_gets; keeps_order
  | |- keeps _ (os_access_R _) => apply keeps_gets; keeps_order
  | |- keeps _ (attr _ _) => apply keeps_attr; keeps_order
  | |- keeps _ (open_read _) => apply keeps_open_read; keeps_order
  | |- keeps _ the_config => apply keeps_the_config; keeps_order
  | |- keeps _ (modify _) => apply keeps_modify; tac
  | |- keeps _ (open_write _ _) => apply keeps_open_write; [keeps_order | tac]
  | |- keeps _ draw_key => apply keeps_draw_key; tac
  | |- keeps _ (upload _ _) => apply keeps_upload; [keeps_order | tac]
  | |- keeps _ (if ?b then _ else _) => destruct b
  | |- keeps _ (match ?x with _ => _ end) => destruct x
  | |- keeps _ _ => tac
  end.

Ltac unfold_effects :=
  unfold yield, print, set_config_dir, set_ca_cert, set_server_cert,
    set_server_private_key, set__config, set_arg_labels, set_config_search_path,
    set_agent_config_obj, set_agent_configuration, assign_server, assign_client,
    config_server, assign_config.

Ltac keeps_auto tac := unfold_effects; repeat keeps_step tac.

(** ** What each method leaves as it is *)

Ltac keeps_agree := intros; reflexivity.

(** One agreement from others in the context. *)
Ltac agree_from := unfold agree in *; intros; cbn beta in *; congruence.

Ltac keeps_unwritten :=
  first [ by (intros; eapply unwritten_write; [|eassumption]; assumption)
        | by (intros; apply unwritten_agree_fs) ].

Section Frames.
Context `{Collaborators}.

Lemma generate_keys_ca_unwritten (P : Path → Prop) kp cp :
  P kp → P cp → keeps (unwritten P) (generate_keys_ca kp cp).
Proof. intros. unfold generate_keys_ca. keeps_auto keeps_unwritten. Qed.

Lemma generate_keys_server_unwritten (P : Path → Prop) kp cp k :
  P kp → P cp → keeps (unwritten P) (generate_keys_server kp cp k).
Proof. intros. unfold generate_keys_server. keeps_auto keeps_unwritten. Qed.

Lemma generate_keys_ca_config kp cp :
  keeps (agree (λ w, (config_obj w, plugin_of w))) (generate_keys_ca kp cp).
Proof. unfold generate_keys_ca. keeps_auto keeps_agree. Qed.

Lemma generate_keys_server_config kp cp k :
  keeps (agree (λ w, (ca_cert (self w), config_obj w, plugin_of w)))
    (generate_keys_server kp cp k).
Proof. unfold generate_keys_server. keeps_auto keeps_agree. Qed.

Lemma generate_keys_verify_keeps {A} (f : World → A) :
  keeps (agree f) generate_keys_verify.
Proof. unfold generate_keys_verify. keeps_auto keeps_agree. Qed.

Lemma _build_config_keeps :
  keeps (agree (λ w, (fs w, keys_of w, plugin_of w))) _build_config.
Proof. unfold _build_config. keeps_auto keeps_agree. Qed.

Lemma _build_config_of_keeps v :
  keeps (agree (λ w, (fs w, keys_of w, plugin_of w))) (_build_config_of v).
Proof.
  destruct v; unfold _build_config_of; keeps_auto keeps_agree;
    apply _build_config_keeps.
Qed.

Lemma AgentConfigHook_calculate_keeps :
  keeps (agree (λ w, (fs w, keys_of w, config_obj w, plugin_of w, yielded w)))
    AgentConfigHook_calculate.
Proof. unfold AgentConfigHook_calculate. keeps_auto keeps_agree. Qed.

Lemma write_config_check_keeps p :
  keeps (agree (λ w, (fs w, keys_of w, config_obj w, plugin_of w, yielded w)))
    (write_config_check p).
Proof.
  unfold write_config_check. keeps_auto keeps_agree.
  eapply keeps_weaken; [|apply AgentConfigHook_calculate_keeps]. agree_from.
Qed.

Lemma write_manifest_of_keeps v :
  keeps (agree (λ w, (fs w, keys_of w, config_obj w, plugin_of w)))
    (write_manifest_of v).
Proof.
  destruct v; unfold write_manifest_of, write_manifest; keeps_auto keeps_agree.
Qed.

Lemma write_config_server_keys p :
  keeps (agree (λ w, (keys_of w, plugin_of w))) (write_config_server p).
Proof.
  unfold write_config_server. keeps_auto keeps_agree.
  eapply keeps_weaken; [|apply _build_config_of_keeps]. agree_from.
Qed.

Lemma write_config_server_unwritten (P : Path → Prop) p :
  P p → keeps (unwritten P) (write_config_server p).
Proof.
  intros. unfold write_config_server. keeps_auto keeps_unwritten.
  eapply keeps_weaken; [|apply _build_config_of_keeps].
  intros. apply unwritten_agree_fs. agree_from.
Qed.

Lemma write_config_client_keys p :
  keeps (agree (λ w, (keys_of w, config_obj w, plugin_of w))) (write_config_client p).
Proof. unfold write_config_client. keeps_auto keeps_agree. Qed.


End Frames.

(** ** generate_keys, block by block *)

Ltac unfold_monad :=
  unfold bind, try_except_IOError, attr, open_read, open_write, lift, gets, ret,
    raise, yield, draw_key, set_ca_cert, set_server_cert, set_server_private_key,
    modify.

Section GenerateKeys.
Context `{Collaborators}.

Lemma attr_some {A} name (f : Self → option A) w a :
  f (self w) = Some a → attr name f w = (inr a, w).
Proof. unfold attr. by intros ->. Qed.

(** Both CA files open and parse: they are reused, nothing is written and
    no key is drawn. *)
Lemma generate_keys_ca_reuse w kp cp pk pc cak cac :
  read_file (fs w) kp = inr pk → key_from_primitive pk = inr cak →
  read_file (fs w) cp = inr pc → cert_from_primitive pc = inr cac →
  ∃ w', generate_keys_ca kp cp w = (inr cak, w') ∧
        ca_cert (self w') = Some cac ∧
        yielded w' = (yielded w ++ ["Reusing existing CA keys in " +:+ path_str cp])%list ∧
        agree (λ w, (fs w, entropy w, server_cert (self w),
                     server_private_key (self w), config_obj w, plugin_of w)) w w'.
Proof.
  intros R1 R2 R3 R4. eexists. unfold generate_keys_ca. unfold_monad.
  cbn. rewrite R1. cbn. rewrite R2. cbn. rewrite R3. cbn. rewrite R4. cbn.
  done.
Qed.

(** The except branch of the CA keys: one key is drawn; what is written
    depends on the two writes. *)
Lemma generate_keys_ca_fresh w kp cp r w' :
  pair_missing key_from_primitive (fs w) kp cp →
  generate_keys_ca kp cp w = (r, w') →
  let k := (generate_key (entropy w)).1 in
  entropy w' = (generate_key (entropy w)).2 ∧
  yielded w' = (yielded w ++ ["Generating new CA private key into "
                                +:+ path_str kp +:+ " and " +:+ path_str cp])%list ∧
  agree (λ w, (server_cert (self w), server_private_key (self w),
               config_obj w, plugin_of w)) w w' ∧
  match write_file (fs w) kp (key_to_primitive k) with
  | inl e1 => r = inl e1 ∧ fs w' = fs w ∧ ca_cert (self w') = ca_cert (self w)
  | inr f1 =>
      ca_cert (self w') = Some (MakeCACert k) ∧
      match write_file f1 cp (cert_to_primitive (MakeCACert k)) with
      | inl e2 => r = inl e2 ∧ fs w' = f1
      | inr f2 => r = inr k ∧ fs w' = f2
      end
  end.
Proof.
  intros Hmiss. unfold generate_keys_ca. unfold_monad. cbn.
  assert (match read_file (fs w) kp with
          | inl e => (inl e, w)
          | inr pem =>
              match key_from_primitive pem with
              | inl e => (inl e, w)
              | inr k =>
                  match read_file (fs w) cp with
                  | inl e => (inl e, w)
                  | inr pem' => (inr (k, pem'), w)
                  end
              end
          end = (inl IOError, w)) as Hbody.
  { destruct Hmiss as [->|(pem & k & -> & -> & ->)]; done. }
  destruct (read_file (fs w) kp) as [e|pem]; cbn.
  2: destruct (key_from_primitive pem) as [e|k0]; cbn.
  3: destruct (read_file (fs w) cp) as [e|pem']; cbn; [|done].
  all: injection Hbody as ->.
  all: destruct (generate_key (entropy w)) as [k e']; cbn.
  all: destruct (write_file (fs w) kp (key_to_primitive k)) as [e1|f1]; cbn;
         [by intros [= <- <-]|].
  all: destruct (write_file f1 cp (cert_to_primitive (MakeCACert k))) as [e2|f2];
         cbn; by intros [= <- <-].
Qed.

(** Both server files open and parse: they are reused, whatever the CA
    branch did. *)
Lemma generate_keys_server_reuse w kp cp cak pk pc sk sc :
  read_file (fs w) kp = inr pk → key_from_primitive pk = inr sk →
  read_file (fs w) cp = inr pc → cert_from_primitive pc = inr sc →
  ∃ w', generate_keys_server kp cp cak w = (inr tt, w') ∧
        server_private_key (self w') = Some sk ∧
        server_cert (self w') = Some sc ∧
        yielded w' =
          (yielded w ++ ["Reusing existing server keys in " +:+ path_str cp])%list ∧
        agree (λ w, (fs w, entropy w, ca_cert (self w), config_obj w, plugin_of w))
          w w'.
Proof.
  intros R1 R2 R3 R4. eexists. unfold generate_keys_server. unfold_monad.
  cbn. rewrite R1. cbn. rewrite R2. cbn. rewrite R3. cbn. rewrite R4. cbn.
  done.
Qed.

(** The except branch of the server keys: a key is drawn and a certificate
    is made for it with the CA key at hand. *)
Lemma generate_keys_server_fresh w kp cp cak cac r w' :
  pair_missing key_from_primitive (fs w) kp cp →
  ca_cert (self w) = Some cac →
  generate_keys_server kp cp cak w = (r, w') →
  let k := (generate_key (entropy w)).1 in
  let cert := MakeCASignedCert "Rekall Agent Server" k cac cak in
  entropy w' = (generate_key (entropy w)).2 ∧
  yielded w' = (yielded w ++ ["Generating new Server private keys into "
                                +:+ path_str kp +:+ " and " +:+ path_str cp])%list ∧
  server_private_key (self w') = Some k ∧
  agree (λ w, (ca_cert (self w), config_obj w, plugin_of w)) w w' ∧
  match write_file (fs w) kp (key_to_primitive k) with
  | inl e1 => r = inl e1 ∧ fs w' = fs w
  | inr f1 =>
      server_cert (self w') = Some cert ∧
      match write_file f1 cp (cert_to_primitive cert) with
      | inl e2 => r = inl e2 ∧ fs w' = f1
      | inr f2 => r = inr tt ∧ fs w' = f2
      end
  end.
Proof.
  intros Hmiss Hca. unfold generate_keys_server. unfold_monad. cbn.
  destruct Hmiss as [R1|(pem & k0 & R1 & R2 & R3)].
  1: rewrite R1; cbn.
  2: rewrite R1; cbn; rewrite R2; cbn; rewrite R3; cbn.
  all: destruct (generate_key (entropy w)) as [k e']; cbn.
  all: destruct (write_file (fs w) kp (key_to_primitive k)) as [e1|f1]; cbn;
         [by intros [= <- <-]|].
  all: rewrite Hca; cbn.
  all: destruct (write_file f1 cp
                   (cert_to_primitive
                      (MakeCASignedCert "Rekall Agent Server" k cac cak)))
         as [e2|f2]; cbn; intros [= <- <-]; unfold agree, plugin_of; cbn;
         by rewrite Hca.
Qed.

(** generate_keys returns only through the final check. *)
Lemma generate_keys_returns w w' :
  generate_keys w = (inr tt, w') →
  ∃ sc cac, server_cert (self w') = Some sc ∧ ca_cert (self w') = Some cac ∧
            verify sc (get_public_key cac) = inr tt.
Proof.
  unfold generate_keys. intros Hrun.
  apply bind_inr in Hrun as (d & w1 & _ & Hrun).
  apply bind_inr in Hrun as (cak & w2 & _ & Hrun).
  apply bind_inr in Hrun as ([] & w3 & _ & Hrun).
  unfold generate_keys_verify, bind, attr, lift in Hrun.
  destruct (server_cert (self w3)) as [sc|] eqn:Hsc; [|done].
  destruct (ca_cert (self w3)) as [cac|] eqn:Hcac; [|done].
  injection Hrun as Hv <-. eauto.
Qed.

(** What generate_keys writes and what it leaves. *)
Lemma generate_keys_frame w d r w' :
  config_dir (self w) = Some d →
  generate_keys w = (r, w') →
  unwritten (is_key_file d) w w' ∧
  agree (λ w, (config_obj w, plugin_of w)) w w'.
Proof.
  intros Hd. unfold generate_keys.
  rewrite (bind_run _ _ _ _ _ (attr_some _ _ _ _ Hd)).
  intros Hrun. split.
  - revert Hrun. apply keeps_bind; [keeps_order| |intros cak].
    { apply generate_keys_ca_unwritten; unfold is_key_file; set_solver. }
    apply keeps_bind; [keeps_order| |intros _].
    { apply generate_keys_server_unwritten; unfold is_key_file; set_solver. }
    eapply keeps_weaken; [|apply (generate_keys_verify_keeps fs)].
    apply unwritten_agree_fs.
  - revert Hrun. apply keeps_bind; [keeps_order| |intros cak].
    { apply generate_keys_ca_config. }
    apply keeps_bind; [keeps_order| |intros _].
    { eapply keeps_weaken; [|apply generate_keys_server_config]. agree_from. }
    apply generate_keys_verify_keeps.
Qed.

End GenerateKeys.

(** ** The whole of generate_keys, and collect around it *)

Section Bootstrap.
Context `{Collaborators}.

(** All four files open and parse: the outcome of generate_keys is the
    outcome of the final check on what was loaded. *)
Lemma generate_keys_reuse w d pk pc psk psc cak cac sk sc :
  config_dir (self w) = Some d →
  read_file (fs w) (ca_key_path d) = inr pk → key_from_primitive pk = inr cak →
  read_file (fs w) (ca_cert_path d) = inr pc → cert_from_primitive pc = inr cac →
  read_file (fs w) (server_key_path d) = inr psk → key_from_primitive psk = inr sk →
  read_file (fs w) (server_cert_path d) = inr psc → cert_from_primitive psc = inr sc →
  ∃ w', generate_keys w = (verify sc (get_public_key cac), w') ∧
        ca_cert (self w') = Some cac ∧ server_cert (self w') = Some sc ∧
        server_private_key (self w') = Some sk ∧
        yielded w' =
          (yielded w ++
           ["Reusing existing CA keys in " +:+ path_str (ca_cert_path d);
            "Reusing existing server keys in " +:+ path_str (server_cert_path d)])%list ∧
        agree (λ w, (fs w, entropy w, config_obj w, plugin_of w)) w w'.
Proof.
  intros Hd R1 R2 R3 R4 R5 R6 R7 R8.
  destruct (generate_keys_ca_reuse w _ _ _ _ _ _ R1 R2 R3 R4)
    as (w1 & Hca & Hcac & Hy1 & Hag1).
  assert (fs w1 = fs w) as Hfs1 by agree_from.
  rewrite <- Hfs1 in R5, R7.
  destruct (generate_keys_server_reuse w1 _ _ cak _ _ _ _ R5 R6 R7 R8)
    as (w2 & Hsrv & Hsk & Hsc & Hy2 & Hag2).
  exists w2. split.
  - unfold generate_keys.
    rewrite (bind_run _ _ _ _ _ (attr_some _ _ _ _ Hd)).
    rewrite (bind_run _ _ _ _ _ Hca).
    rewrite (bind_run _ _ _ _ _ Hsrv).
    unfold generate_keys_verify.
    rewrite (bind_run _ _ _ _ _ (attr_some _ _ _ _ Hsc)).
    assert (ca_cert (self w2) = Some cac) as Hcac2 by (rewrite <- Hcac; agree_from).
    by rewrite (bind_run _ _ _ _ _ (attr_some _ _ _ _ Hcac2)).
  - repeat split; try done.
    + rewrite <- Hcac. agree_from.
    + rewrite Hy2, Hy1. by rewrite <- app_assoc.
    + agree_from.
Qed.

Lemma started_fs w : fs (started w) = fs w.
Proof. done. Qed.

Lemma started_config_dir w :
  config_dir (self (started w)) = Some (arg_config_dir (plugin_args (self w))).
Proof. done. Qed.

(** collect, when the access check passes and when it does not. *)
Lemma collect_readable w :
  access_dir_R (fs w) (arg_config_dir (plugin_args (self w))) = true →
  collect w = collect_methods (started w).
Proof.
  intros Hacc. unfold collect, collect_methods, started.
  unfold bind, gets, set_config_dir, modify, attr. cbn. by rewrite Hacc.
Qed.

Lemma collect_unreadable w :
  access_dir_R (fs w) (arg_config_dir (plugin_args (self w))) = false →
  collect w =
    (inl (PluginError ("Unable to write to config directory "
                         ++ arg_config_dir (plugin_args (self w)))),
     started w).
Proof.
  intros Hacc. unfold collect, started.
  unfold bind, gets, set_config_dir, modify, attr. cbn. by rewrite Hacc.
Qed.

(** write_config writes the two configuration documents and nothing
    else, and leaves the keys alone. *)
Lemma write_config_keys :
  keeps (agree (λ w, (keys_of w, plugin_of w))) write_config.
Proof.
  unfold write_config. keeps_auto keeps_agree.
  - eapply keeps_weaken; [|apply write_config_server_keys]. agree_from.
  - eapply keeps_weaken; [|apply write_config_client_keys]. agree_from.
  - eapply keeps_weaken; [|apply write_config_check_keeps]. agree_from.
Qed.


(** What follows generate_keys in collect leaves the keys alone. *)
Lemma after_generate_keys_keys :
  keeps (agree (λ w, (keys_of w, plugin_of w)))
    (write_config ;;;
     (let* v := gets (λ w, variant (self w)) in write_manifest_of v) ;;;
     yield "Done!").
Proof.
  keeps_auto keeps_agree.
  - apply write_config_keys.
  - eapply keeps_weaken; [|apply write_manifest_of_keeps]. agree_from.
Qed.

(** The key files are not configuration documents. *)
Lemma config_file_not_key_file d p : is_config_file d p → ¬ is_key_file d p.
Proof.
  unfold is_config_file, is_key_file, server_config_path, client_config_path,
    ca_key_path, ca_cert_path, server_key_path, server_cert_path.
  rewrite !elem_of_cons, !elem_of_nil. intros [->|[->|[]]]; intros Hk;
    repeat (destruct Hk as [Hk|Hk]; [by inversion Hk|]); done.
Qed.

(** ** _build_config *)

Lemma gets_inr {A} (f : World → A) w a w1 :
  gets f w = (inr a, w1) → a = f w ∧ w1 = w.
Proof. by intros [= <- <-]. Qed.

Lemma the_config_inr w c w1 :
  the_config w = (inr c, w1) → config_obj w = Some c ∧ w1 = w.
Proof.
  unfold the_config. destruct (config_obj w); [|done]. by intros [= <- <-].
Qed.

Lemma assign_config_inr f w w1 :
  assign_config f w = (inr tt, w1) →
  ∃ c, config_obj w = Some c ∧ w1 = with_config_obj (Some (f c)) w.
Proof.
  unfold assign_config. intros Hrun.
  apply bind_inr in Hrun as (c & w0 & [Hc ->]%the_config_inr & Hrun).
  injection Hrun as <-. eauto.
Qed.

Lemma config_server_inr w p w1 :
  config_server w = (inr p, w1) →
  w1 = w ∧ ∃ c, config_obj w = Some c ∧ server c = Some p.
Proof.
  unfold config_server. intros Hrun.
  apply bind_inr in Hrun as (c & w0 & [Hc ->]%the_config_inr & Hrun).
  destruct (server c) as [q|] eqn:Hs; [|done]. injection Hrun as <- <-. eauto.
Qed.

Lemma assign_server_inr f w w1 :
  assign_server f w = (inr tt, w1) →
  ∃ c p, config_obj w = Some c ∧ server c = Some p ∧
         w1 = with_config_obj
                (Some (mkConfiguration (Some (f p)) (client c) (ca_certificate c)
                         (manifest c) (signed_manifest c))) w.
Proof.
  unfold assign_server. intros Hrun.
  apply bind_inr in Hrun as (p & w0 & (-> & c & Hc & Hs)%config_server_inr & Hrun).
  apply assign_config_inr in Hrun as (c' & Hc' & ->).
  assert (c' = c) as -> by congruence. eauto.
Qed.

Lemma assign_client_inr f w w1 :
  assign_client f w = (inr tt, w1) →
  ∃ c p, config_obj w = Some c ∧ client c = Some p ∧
         w1 = with_config_obj
                (Some (mkConfiguration (server c) (Some (f p)) (ca_certificate c)
                         (manifest c) (signed_manifest c))) w.
Proof.
  unfold assign_client. intros Hrun.
  apply bind_inr in Hrun as (c & w0 & [Hc ->]%the_config_inr & Hrun).
  destruct (client c) as [p|] eqn:Hp; [|done].
  apply assign_config_inr in Hrun as (c' & Hc' & ->).
  assert (c' = c) as -> by congruence. eauto.
Qed.

(** What the configuration holds when _build_config returns. *)
Lemma _build_config_returns w w' :
  _build_config w = (inr tt, w') →
  ∃ c p srv l,
    config_obj w' = Some c ∧
    ca_certificate c = ca_cert (self w) ∧
    server c = Some srv ∧ certificate srv = server_cert (self w) ∧
    private_key srv = server_private_key (self w) ∧
    client c = Some p ∧ secret p = Some (self_secret (self w)) ∧
    labels p = Some l ∧ py_in "All" l = true.
Proof.
  unfold _build_config. intros Hrun.
  apply bind_inr in Hrun as (cacert & ? & [-> ->]%gets_inr & Hrun).
  apply bind_inr in Hrun as ([] & w1 & (c1 & Hc1 & Hw1)%assign_config_inr & Hrun).
  apply bind_inr in Hrun as (l0 & ? & [-> ->]%gets_inr & Hrun).
  apply bind_inr in Hrun as (l & w2 & Hl & Hrun).
  assert (py_in "All" l = true ∧ config_obj w2 = config_obj w1 ∧
          agree (λ w, (keys_of w, self_secret (self w))) w1 w2) as (Hin & Hc2 & Hag).
  { revert Hl.
    destruct (py_in "All" (arg_labels (plugin_args (self w1)))) eqn:Hin;
      cbn [negb].
    - by intros [= <- <-].
    - intros Hl.
      apply bind_inr in Hl as (added & ? & Hadd & Hl).
      injection Hadd as Hadd <-.
      apply bind_inr in Hl as ([] & ? & Hset & Hl).
      injection Hset as <-. injection Hl as <- <-.
      split; [|done].
      destruct (arg_labels (plugin_args (self w1))) as [ll|ss]; [done|].
      injection Hadd as <-. apply bool_decide_eq_true. set_solver. }
  rewrite Hw1 in Hc2. cbn [config_obj with_config_obj] in Hc2.
  assert (agree (λ w, (keys_of w, self_secret (self w))) w w2) as Hag'
    by (rewrite Hw1 in Hag; exact Hag).
  clear Hag Hw1 Hl w1.
  unfold agree, keys_of in Hag'. injection Hag' as Hsec Hkey Hcert Hca He.
  apply bind_inr in Hrun as (cert & ? & [-> ->]%gets_inr & Hrun).
  apply bind_inr in Hrun as ([] & w3 & (c3 & p3 & Hc3 & Hs3 & ->)%assign_server_inr & Hrun).
  rewrite Hc2 in Hc3. injection Hc3 as <-. cbn [server] in Hs3.
  apply bind_inr in Hrun as (key & ? & [-> ->]%gets_inr & Hrun).
  apply bind_inr in Hrun as ([] & w4 & (c4 & p4 & Hc4 & Hs4 & ->)%assign_server_inr & Hrun).
  injection Hc4 as <-. injection Hs4 as <-.
  apply bind_inr in Hrun as ([] & w5 & (c5 & p5 & Hc5 & Hp5 & ->)%assign_client_inr & Hrun).
  injection Hc5 as <-. cbn [client] in Hp5.
  apply bind_inr in Hrun as (sec & ? & [-> ->]%gets_inr & Hrun).
  apply bind_inr in Hrun as ([] & w6 & (c6 & p6 & Hc6 & Hp6 & ->)%assign_client_inr & Hrun).
  injection Hc6 as <-. injection Hp6 as <-.
  apply bind_inr in Hrun as (wb & ? & [-> ->]%gets_inr & Hrun).
  apply bind_inr in Hrun as ([] & w7 & (c7 & p7 & Hc7 & Hp7 & ->)%assign_client_inr & Hrun).
  injection Hc7 as <-. injection Hp7 as <-.
  apply bind_inr in Hrun as (srv & ? & (-> & c8 & Hc8 & Hs8)%config_server_inr & Hrun).
  injection Hc8 as <-. injection Hs8 as <-.
  apply bind_inr in Hrun as (now & ? & [-> ->]%gets_inr & Hrun).
  apply bind_inr in Hrun as ([] & w9 & (c9 & Hc9 & ->)%assign_config_inr & Hrun).
  injection Hc9 as <-.
  apply bind_inr in Hrun as (srv & ? & (-> & c10 & Hc10 & Hs10)%config_server_inr & Hrun).
  injection Hc10 as <-. injection Hs10 as <-.
  apply bind_inr in Hrun as ([] & w11 & (c11 & Hc11 & ->)%assign_config_inr & Hrun).
  injection Hc11 as <-.
  apply bind_inr in Hrun as (srv & ? & (-> & c12 & Hc12 & Hs12)%config_server_inr & Hrun).
  injection Hc12 as <-. injection Hs12 as <-.
  apply bind_inr in Hrun as (k & w13 & Hk & Hrun).
  apply assign_config_inr in Hrun as (c14 & Hc14 & ->).
  cbn [private_key self with_config_obj] in Hk.
  destruct (server_private_key (self w2)) as [k2|] eqn:Hk2; [|done].
  injection Hk as <- <-. injection Hc14 as <-.
  eexists _, _, _, l. cbn.
  repeat split; cbn; try done; congruence.
Qed.

(** A list of labels without "All": the call of [add] raises. *)
Lemma _build_config_list_raises w c l :
  py_in "All" (PyList l) = false →
  (_build_config (with_config_obj (Some c) (with_labels (PyList l) w))).1
    = inl (AttributeError "'list' object has no attribute 'add'").
Proof.
  intros Hin. unfold _build_config. unfold_effects. unfold the_config.
  unfold_monad. cbn -[py_in]. by rewrite Hin.
Qed.

(** The same for the plugins' overrides; the HTTP one never returns. *)
Lemma _build_config_of_returns v w w' :
  _build_config_of v w = (inr tt, w') →
  ∃ c p srv l,
    config_obj w' = Some c ∧
    ca_certificate c = ca_cert (self w) ∧
    server c = Some srv ∧ certificate srv = server_cert (self w) ∧
    private_key srv = server_private_key (self w) ∧
    client c = Some p ∧ secret p = Some (self_secret (self w)) ∧
    labels p = Some l ∧ py_in "All" l = true.
Proof.
  destruct v as [bucket account|url port address]; unfold _build_config_of.
  - intros Hrun.
    apply bind_inr in Hrun as (json & w1 & H1' & Hrun).
    apply bind_inr in Hrun as (sa & w2 & H2' & Hrun).
    apply bind_inr in Hrun as ([] & w3 & H3' & Hrun).
    apply bind_inr in Hrun as (srv & w4 & H4' & Hrun).
    apply bind_inr in Hrun as ([] & w5 & H5' & Hrun).
    assert (self w5 = self w) as <-; [|by apply _build_config_returns].
    assert (keeps (agree self)
              (let* json := open_read account in
               let* service_account := lift (ServiceAccount_from_json json) in
               assign_config (λ c, mkConfiguration
                 (Some (mkServerPolicy (GCSServerPolicy bucket service_account)
                          None None))
                 (client c) (ca_certificate c) (manifest c) (signed_manifest c)) ;;;
               let* srv := config_server in
               assign_config (λ c, mkConfiguration (server c)
                 (Some (mkClientPolicy (GCSAgentPolicy (manifest_for_client srv))
                          None None None))
                 (ca_certificate c) (manifest c) (signed_manifest c)))) as K
      by keeps_auto keeps_agree.
    apply (K w (inr tt) w5).
    rewrite (bind_run _ _ _ _ _ H1'), (bind_run _ _ _ _ _ H2'),
      (bind_run _ _ _ _ _ H3'), (bind_run _ _ _ _ _ H4'). done.
  - intros Hrun.
    apply bind_inr in Hrun as (cert & w1 & _ & Hrun).
    apply bind_inr in Hrun as (key & w2 & _ & Hrun).
    apply bind_inr in Hrun as ([] & w3 & _ & Hrun). done.
Qed.

(** ** write_config, block by block *)


(** The existing server configuration is readable: whatever happens, the
    block writes no file, and it returns only with what the file loads
    to. *)
Lemma write_config_server_readable w p r w' :
  access_R (fs w) p = true →
  write_config_server p w = (r, w') →
  fs w' = fs w ∧
  (r = inr tt →
   ∃ text c, read_file (fs w) p = inr text ∧ load_config text = inr c ∧
             config_obj w' = Some c).
Proof.
  intros Hacc. unfold write_config_server, os_access_R. unfold_monad. cbn.
  rewrite Hacc. cbn.
  destruct (read_file (fs w) p) as [e|text]; cbn.
  { intros [= <- <-]. split; [done|]. intros [=]. }
  destruct (load_config text) as [e|c] eqn:Hload; cbn; intros [= <- <-];
    (split; [done|]).
  - intros [=].
  - intros _. by exists text, c.
Qed.

(** No readable server configuration: the block returns only after the
    plugin's _build_config has returned and the new document is
    written. *)
Lemma write_config_server_fresh w p w' :
  access_R (fs w) p = false →
  write_config_server p w = (inr tt, w') →
  ∃ w0 w1 c,
    w0 = (set_agent_config_obj (with_config_obj (Some new_Configuration) w)).2 ∧
    _build_config_of (variant (self w)) w0 = (inr tt, w1) ∧
    config_obj w1 = Some c ∧ config_obj w' = Some c ∧
    write_file (fs w1) p (dump_config c) = inr (fs w') ∧
    agree (λ w, (keys_of w, plugin_of w)) w1 w'.
Proof.
  intros Hacc. unfold write_config_server, os_access_R.
  unfold bind at 1. unfold gets at 1. rewrite Hacc.
  unfold bind at 1. unfold modify at 1.
  unfold bind at 1. unfold set_agent_config_obj at 1, modify at 1.
  unfold bind at 1. unfold gets at 1. cbn [self with_session with_config_obj].
  intros Hrun.
  apply bind_inr in Hrun as ([] & w1 & Hbuild & Hrun).
  apply bind_inr in Hrun as ([] & w2 & Hy & Hrun).
  apply bind_inr in Hrun as (c & w3 & Hc & Hrun).
  injection Hy as <-.
  unfold the_config in Hc. cbn in Hc.
  destruct (config_obj w1) as [c1|] eqn:Hc1; [|done]. injection Hc as <- <-.
  unfold open_write in Hrun. cbn in Hrun.
  destruct (write_file (fs w1) p (dump_config c1)) as [e|f] eqn:Hw; [done|].
  injection Hrun as <-.
  eexists _, w1, c1. split; [reflexivity|]. cbn. by rewrite Hc1.
Qed.

(** The client document block: what it writes is the warning followed by
    the dump of the client part of [config]. *)
Lemma write_config_client_spec w p r w' :
  write_config_client p w = (r, w') →
  agree (λ w, (keys_of w, config_obj w, plugin_of w)) w w' ∧
  match config_obj w with
  | None => fs w' = fs w ∧ r = inl (AttributeError "config")
  | Some c =>
      yielded w' = (yielded w ++ ["Writing client config file " +:+ path_str p])%list ∧
      match write_file (fs w) p
              (client_config_warning ++ dump_config (client_config_of c)) with
      | inl e => fs w' = fs w ∧ r = inl e
      | inr f => fs w' = f ∧ r = inr tt
      end
  end.
Proof.
  unfold write_config_client, the_config. unfold_monad. cbn.
  destruct (config_obj w) as [c|] eqn:Hc; cbn.
  2: { by intros [= <- <-]. }
  destruct (write_file (fs w) p
              (client_config_warning ++ dump_config (client_config_of c)))
    as [e|f]; cbn; intros [= <- <-]; by rewrite ?Hc.
Qed.

End Bootstrap.

(** ** A run against an empty directory, and a run against what it left *)


Section Idempotence.
Context `{Collaborators}.


Lemma generate_keys_verify_same r w w' :
  generate_keys_verify w = (r, w') → w' = w.
Proof. apply (generate_keys_verify_keeps (λ w, w)). Qed.

(** What follows write_config in collect writes no file and leaves the
    keys and the configuration alone. *)
Lemma after_write_config_keeps :
  keeps (agree (λ w, (fs w, keys_of w, config_obj w, plugin_of w)))
    ((let* v := gets (λ w, variant (self w)) in write_manifest_of v) ;;;
     yield "Done!").
Proof. keeps_auto keeps_agree. apply write_manifest_of_keeps. Qed.


End Idempotence.

(** ** The client document, and what it depends on *)

(** Whether a write succeeds does not depend on the data. *)
Lemma write_file_any_data fs p s1 s2 fs1 :
  write_file fs p s1 = inr fs1 → ∃ fs2, write_file fs p s2 = inr fs2.
Proof.
  unfold write_file. destruct (fs !! p_dir p) as [dir|]; [|done].
  destruct (d_entries dir !! p_name p) as [f|].
  - destruct (f_writable f); [eauto|done].
  - destruct (d_writable dir); [eauto|done].
Qed.

Lemma entry_after_spec fs p s :
  entry_after fs p s =
    match fs !! p_dir p with
    | None => None
    | Some dir =>
        match d_entries dir !! p_name p with
        | Some f => if f_writable f then Some (mkFile s (f_readable f) true) else Some f
        | None => if d_writable dir then Some (mkFile s true true) else None
        end
    end.
Proof.
  unfold entry_after.
  destruct (write_file fs p s) as [e|fs'] eqn:Hw.
  - unfold write_file in Hw. unfold lookup_file.
    destruct (fs !! p_dir p) as [dir|]; [|done]. simpl.
    destruct (d_entries dir !! p_name p) as [f|].
    + by destruct (f_writable f).
    + by destruct (d_writable dir).
  - rewrite (write_file_same _ _ _ _ Hw).
    unfold write_file in Hw. unfold lookup_file.
    destruct (fs !! p_dir p) as [dir|]; [|done]. simpl.
    destruct (d_entries dir !! p_name p) as [f|].
    + by destruct (f_writable f).
    + by destruct (d_writable dir).
Qed.

(** A write to another path does not change what a write to this one
    leaves. *)
Lemma entry_after_other fs q s0 fs1 p s :
  write_file fs q s0 = inr fs1 → p ≠ q →
  entry_after fs1 p s = entry_after fs p s.
Proof.
  intros Hw Hne. rewrite !entry_after_spec.
  unfold write_file in Hw.
  destruct (fs !! p_dir q) as [dir|] eqn:Hd; [|done].
  assert (∀ e, match <[p_dir q := mkDir (d_readable dir) (d_writable dir)
                                    (<[p_name q := e]> (d_entries dir))]> fs !! p_dir p with
               | None => None
               | Some dir =>
                   match d_entries dir !! p_name p with
                   | Some f => if f_writable f then Some (mkFile s (f_readable f) true)
                               else Some f
                   | None => if d_writable dir then Some (mkFile s true true) else None
                   end
               end =
               match fs !! p_dir p with
               | None => None
               | Some dir =>
                   match d_entries dir !! p_name p with
                   | Some f => if f_writable f then Some (mkFile s (f_readable f) true)
                               else Some f
                   | None => if d_writable dir then Some (mkFile s true true) else None
                   end
               end) as Hins.
  { intros e. destruct (decide (p_dir q = p_dir p)) as [Hqp|Hqp].
    - rewrite <- Hqp, lookup_insert_eq, Hd. simpl.
      rewrite lookup_insert_ne; [done|]. intros Hn. apply Hne.
      destruct p, q; simpl in *; congruence.
    - by rewrite lookup_insert_ne. }
  destruct (d_entries dir !! p_name q) as [f|].
  - destruct (f_writable f); [|done]. injection Hw as <-. apply Hins.
  - destruct (d_writable dir); [|done]. injection Hw as <-. apply Hins.
Qed.

Section BuildConfig.
Context `{Collaborators}.

(** The overrides leave everything but the configuration and the labels
    argument as it is. *)
Lemma _build_config_of_outside v :
  keeps (agree (λ w, (fs w, keys_of w, plugin_of w, session w, remote w,
                      yielded w, stdout w, _config (self w))))
    (_build_config_of v).
Proof.
  destruct v; unfold _build_config_of, _build_config; keeps_auto keeps_agree.
Qed.

(** The configuration the base method leaves when it returns, field by
    field. *)
Lemma _build_config_result w w' :
  _build_config w = (inr tt, w') →
  ∃ c srv0 p0 k,
    config_obj w = Some c ∧ server c = Some srv0 ∧ client c = Some p0 ∧
    server_private_key (self w) = Some k ∧
    let l := labels_with_All (arg_labels (plugin_args (self w))) in
    let srv := mkServerPolicy (sp_data srv0) (server_cert (self w)) (Some k) in
    let m := manifest_of srv (clock w) in
    py_in "All" l = true ∧
    arg_labels (plugin_args (self w')) = l ∧
    config_obj w' =
      Some (mkConfiguration
              (Some srv)
              (Some (mkClientPolicy (cp_data p0) (Some l)
                       (Some (self_secret (self w)))
                       (Some (arg_client_writeback_path (plugin_args (self w))))))
              (ca_cert (self w))
              (Some m)
              (Some (mkSignedManifest (manifest_to_json m) (server_cert (self w))
                       (Some (sign k (manifest_to_json m)))))).
Proof.
  unfold _build_config. intros Hrun.
  apply bind_inr in Hrun as (cacert & ? & [-> ->]%gets_inr & Hrun).
  apply bind_inr in Hrun as ([] & w1 & (c1 & Hc1 & Hw1)%assign_config_inr & Hrun).
  apply bind_inr in Hrun as (l0 & ? & [-> ->]%gets_inr & Hrun).
  apply bind_inr in Hrun as (l & w2 & Hl & Hrun).
  assert (py_in "All" l = true ∧ config_obj w2 = config_obj w1 ∧
          l = labels_with_All (arg_labels (plugin_args (self w1))) ∧
          arg_labels (plugin_args (self w2)) = l ∧
          agree (λ w, (keys_of w, self_secret (self w), clock w,
                       arg_client_writeback_path (plugin_args (self w)))) w1 w2)
    as (Hin & Hc2 & Hlab & Harg & Hag).
  { revert Hl.
    destruct (py_in "All" (arg_labels (plugin_args (self w1)))) eqn:Hin;
      cbn [negb].
    - intros [= <- <-]. repeat split; try done.
      destruct (arg_labels (plugin_args (self w1))) as [ll|ss]; [done|].
      simpl in *. by rewrite Hin.
    - intros Hl.
      apply bind_inr in Hl as (added & ? & Hadd & Hl).
      injection Hadd as Hadd <-.
      apply bind_inr in Hl as ([] & ? & Hset & Hl).
      injection Hset as <-. injection Hl as <- <-.
      destruct (arg_labels (plugin_args (self w1))) as [ll|ss] eqn:Hargs; [done|].
      injection Hadd as <-. simpl in Hin. simpl. rewrite Hin.
      repeat split; try done.
      apply bool_decide_eq_true. set_solver. }
  rewrite Hw1 in Hc2, Hlab. cbn [config_obj with_config_obj] in Hc2.
  cbn [self with_config_obj] in Hlab.
  assert (agree (λ w, (keys_of w, self_secret (self w), clock w,
                       arg_client_writeback_path (plugin_args (self w)))) w w2)
    as Hag' by (rewrite Hw1 in Hag; exact Hag).
  clear Hag Hw1 Hl w1.
  unfold agree, keys_of in Hag'. injection Hag' as E1 E2 E3 E4 E5 E6 E7.
  apply bind_inr in Hrun as (cert & ? & [-> ->]%gets_inr & Hrun).
  apply bind_inr in Hrun as ([] & w3 & (c3 & p3 & Hc3 & Hs3 & ->)%assign_server_inr & Hrun).
  rewrite Hc2 in Hc3. injection Hc3 as <-. cbn [server] in Hs3.
  apply bind_inr in Hrun as (key & ? & [-> ->]%gets_inr & Hrun).
  apply bind_inr in Hrun as ([] & w4 & (c4 & p4 & Hc4 & Hs4 & ->)%assign_server_inr & Hrun).
  injection Hc4 as <-. injection Hs4 as <-.
  apply bind_inr in Hrun as ([] & w5 & (c5 & p5 & Hc5 & Hp5 & ->)%assign_client_inr & Hrun).
  injection Hc5 as <-. cbn [client] in Hp5.
  apply bind_inr in Hrun as (sec & ? & [-> ->]%gets_inr & Hrun).
  apply bind_inr in Hrun as ([] & w6 & (c6 & p6 & Hc6 & Hp6 & ->)%assign_client_inr & Hrun).
  injection Hc6 as <-. injection Hp6 as <-.
  apply bind_inr in Hrun as (wb & ? & [-> ->]%gets_inr & Hrun).
  apply bind_inr in Hrun as ([] & w7 & (c7 & p7 & Hc7 & Hp7 & ->)%assign_client_inr & Hrun).
  injection Hc7 as <-. injection Hp7 as <-.
  apply bind_inr in Hrun as (srv & ? & (-> & c8 & Hc8 & Hs8)%config_server_inr & Hrun).
  injection Hc8 as <-. injection Hs8 as <-.
  apply bind_inr in Hrun as (now & ? & [-> ->]%gets_inr & Hrun).
  apply bind_inr in Hrun as ([] & w9 & (c9 & Hc9 & ->)%assign_config_inr & Hrun).
  injection Hc9 as <-.
  apply bind_inr in Hrun as (srv & ? & (-> & c10 & Hc10 & Hs10)%config_server_inr & Hrun).
  injection Hc10 as <-. injection Hs10 as <-.
  apply bind_inr in Hrun as ([] & w11 & (c11 & Hc11 & ->)%assign_config_inr & Hrun).
  injection Hc11 as <-.
  apply bind_inr in Hrun as (srv & ? & (-> & c12 & Hc12 & Hs12)%config_server_inr & Hrun).
  injection Hc12 as <-. injection Hs12 as <-.
  apply bind_inr in Hrun as (k & w13 & Hk & Hrun).
  apply assign_config_inr in Hrun as (c14 & Hc14 & ->).
  cbn [private_key self with_config_obj] in Hk.
  destruct (server_private_key (self w2)) as [k2|] eqn:Hk2; [|done].
  injection Hk as <- <-. injection Hc14 as <-.
  exists c1, p3, p5, k2.
  split; [done|]. split; [done|]. split; [done|]. split; [done|].
  cbn zeta. rewrite <- Hlab.
  split; [done|]. split; [done|].
  cbn. unfold manifest_of. cbn. rewrite ?E1, ?E2, ?E3, ?E4, ?E5, ?E6, ?E7. done.
Qed.

(** What the GCS override has assembled when it returns. *)
Lemma _build_config_of_GCS_returns bucket account w w' :
  _build_config_of (GCS bucket account) w = (inr tt, w') →
  ∃ json sa k,
    read_file (fs w) account = inr json ∧ ServiceAccount_from_json json = inr sa ∧
    server_private_key (self w) = Some k ∧
    let l := labels_with_All (arg_labels (plugin_args (self w))) in
    let srv := mkServerPolicy (GCSServerPolicy bucket sa) (server_cert (self w))
                 (Some k) in
    let m := manifest_of srv (clock w) in
    py_in "All" l = true ∧
    config_obj w' =
      Some (mkConfiguration
              (Some srv)
              (Some (mkClientPolicy
                       (GCSAgentPolicy
                          (manifest_for_client
                             (mkServerPolicy (GCSServerPolicy bucket sa) None None)))
                       (Some l) (Some (self_secret (self w)))
                       (Some (arg_client_writeback_path (plugin_args (self w))))))
              (ca_cert (self w))
              (Some m)
              (Some (mkSignedManifest (manifest_to_json m) (server_cert (self w))
                       (Some (sign k (manifest_to_json m)))))).
Proof.
  unfold _build_config_of. intros Hrun.
  apply bind_inr in Hrun as (json & w1 & Hread & Hrun).
  injection Hread as Hread <-.
  apply bind_inr in Hrun as (sa & w2 & Hsa & Hrun).
  injection Hsa as Hsa <-.
  apply bind_inr in Hrun as ([] & w3 & (c3 & Hc3 & ->)%assign_config_inr & Hrun).
  apply bind_inr in Hrun as (srv & ? & (-> & c4 & Hc4 & Hs4)%config_server_inr & Hrun).
  injection Hc4 as <-. injection Hs4 as <-.
  apply bind_inr in Hrun as ([] & w5 & (c5 & Hc5 & ->)%assign_config_inr & Hrun).
  injection Hc5 as <-.
  apply _build_config_result in Hrun
    as (c & srv0 & p0 & k & Hc & Hsrv & Hp & Hk & Hin & _ & Hcfg).
  injection Hc as <-. injection Hsrv as <-. injection Hp as <-.
  exists json, sa, k. repeat split; try done.
Qed.

(** The HTTP override raises NameError on every configuration. *)
Lemma _build_config_of_http w url port address :
  is_Some (config_obj w) →
  ∃ w1, _build_config_of (LocalHTTP url port address) w
        = (inl (NameError "http_location"), w1).
Proof.
  intros [c Hc]. eexists. unfold _build_config_of, assign_config, the_config.
  unfold_monad. cbn. rewrite Hc. done.
Qed.

(** Running one statement of _build_config. *)
Lemma bind_gets {A B} (f : World → A) (k : A → M B) w :
  bind (gets f) k w = k (f w) w.
Proof. reflexivity. Qed.

Lemma bind_assign_config {B} f (k : unit → M B) w c :
  config_obj w = Some c →
  bind (assign_config f) k w = k tt (with_config_obj (Some (f c)) w).
Proof.
  intros Hc. unfold assign_config, the_config, modify, bind. by rewrite Hc.
Qed.

Lemma bind_config_server {B} (k : ServerPolicy → M B) w c p :
  config_obj w = Some c → server c = Some p →
  bind config_server k w = k p w.
Proof.
  intros Hc Hs. unfold config_server, the_config, ret, bind. by rewrite Hc, Hs.
Qed.

Lemma bind_assign_server {B} f (k : unit → M B) w c p :
  config_obj w = Some c → server c = Some p →
  bind (assign_server f) k w =
    k tt (with_config_obj
            (Some (mkConfiguration (Some (f p)) (client c) (ca_certificate c)
                     (manifest c) (signed_manifest c))) w).
Proof.
  intros Hc Hs. unfold assign_server.
  unfold bind at 1. rewrite (bind_config_server _ _ _ _ Hc Hs).
  unfold assign_config, the_config, modify, bind. by rewrite Hc.
Qed.

Lemma bind_assign_client {B} f (k : unit → M B) w c p :
  config_obj w = Some c → client c = Some p →
  bind (assign_client f) k w =
    k tt (with_config_obj
            (Some (mkConfiguration (server c) (Some (f p)) (ca_certificate c)
                     (manifest c) (signed_manifest c))) w).
Proof.
  intros Hc Hp. unfold assign_client, assign_config, the_config, modify, bind.
  rewrite Hc, Hp. by rewrite Hc.
Qed.

(** The base method returns when the policies are assigned, the server
    key is at hand and [labels] is a set or holds "All". *)
Lemma _build_config_runs w c srv p k :
  config_obj w = Some c → server c = Some srv → client c = Some p →
  server_private_key (self w) = Some k →
  py_in "All" (labels_with_All (arg_labels (plugin_args (self w)))) = true →
  ∃ w', _build_config w = (inr tt, w').
Proof.
  intros Hc Hs Hp Hk Hin.
  enough ((_build_config w).1 = inr tt) as Hrun
    by (destruct (_build_config w) as [[?|[]] w']; [done|by exists w']).
  unfold _build_config.
  do 3
    (first [ rewrite bind_gets
           | erewrite bind_assign_config by (simpl; first [eassumption|reflexivity])
           | erewrite bind_assign_server by (simpl; first [eassumption|reflexivity])
           | erewrite bind_assign_client by (simpl; first [eassumption|reflexivity])
           | erewrite bind_config_server by (simpl; first [eassumption|reflexivity]) ];
     cbn [server client ca_certificate manifest signed_manifest
          sp_data certificate private_key cp_data labels secret writeback_path
          config_obj with_config_obj self clock]).
  set (w1 := with_config_obj _ w).
  assert (∃ l w2,
            (if negb (py_in "All" (arg_labels (plugin_args (self w))))
             then (let* added := lift (py_add "All" (arg_labels (plugin_args (self w)))) in
                   set_arg_labels added ;;; ret added)
             else ret (arg_labels (plugin_args (self w)))) w1 = (inr l, w2) ∧
            config_obj w2 = config_obj w1 ∧
            server_private_key (self w2) = Some k) as (l & w2 & Hl & Hc2 & Hk2).
  { destruct (arg_labels (plugin_args (self w))) as [ll|ss] eqn:Hlab.
    - cbn -[py_in] in Hin. rewrite Hin. by eexists _, _.
    - destruct (py_in "All" (PySet ss)); by eexists _, _. }
  rewrite (bind_run _ _ _ _ _ Hl). subst w1. cbn [config_obj with_config_obj] in Hc2.
  clear Hl.
  do 15
    (first [ rewrite bind_gets
           | erewrite bind_assign_config by (simpl; first [eassumption|reflexivity])
           | erewrite bind_assign_server by (simpl; first [eassumption|reflexivity])
           | erewrite bind_assign_client by (simpl; first [eassumption|reflexivity])
           | erewrite bind_config_server by (simpl; first [eassumption|reflexivity]) ];
     cbn [server client ca_certificate manifest signed_manifest
          sp_data certificate private_key cp_data labels secret writeback_path
          config_obj with_config_obj self clock]).
  rewrite Hk2. rewrite (bind_run (ret k) _ _ k _ eq_refl).
  unfold assign_config, the_config, bind, modify. reflexivity.
Qed.

Lemma _build_config_of_GCS_runs bucket account w c0 json sa k :
  config_obj w = Some c0 →
  read_file (fs w) account = inr json → ServiceAccount_from_json json = inr sa →
  server_private_key (self w) = Some k →
  py_in "All" (labels_with_All (arg_labels (plugin_args (self w)))) = true →
  ∃ w', _build_config_of (GCS bucket account) w = (inr tt, w').
Proof.
  intros Hc Hread Hsa Hk Hin.
  enough ((_build_config_of (GCS bucket account) w).1 = inr tt) as Hrun
    by (destruct (_build_config_of (GCS bucket account) w) as [[?|[]] w'];
        [done|by exists w']).
  unfold _build_config_of.
  rewrite (bind_run (open_read account) _ w json w) by (unfold open_read; by rewrite Hread).
  rewrite (bind_run (lift _) _ w sa w) by (unfold lift; by rewrite Hsa).
  do 3
    (first [ rewrite bind_gets
           | erewrite bind_assign_config by (simpl; first [eassumption|reflexivity])
           | erewrite bind_assign_server by (simpl; first [eassumption|reflexivity])
           | erewrite bind_assign_client by (simpl; first [eassumption|reflexivity])
           | erewrite bind_config_server by (simpl; first [eassumption|reflexivity]) ];
     cbn [server client ca_certificate manifest signed_manifest
          sp_data certificate private_key cp_data labels secret writeback_path
          config_obj with_config_obj self clock]).
  match goal with
  | |- (_build_config ?w5).1 = _ =>
      destruct (_build_config_runs w5 _ _ _ k eq_refl eq_refl eq_refl Hk Hin)
        as [w' ->]
  end.
  reflexivity.
Qed.

End BuildConfig.

Section ClientDocument.
Context `{Collaborators}.

(** The if branch of write_config, as a function of what the file holds. *)
Lemma write_config_server_existing w p :
  access_R (fs w) p = true →
  write_config_server p w =
    let wy := with_yielded
                (yielded w ++ ["Server config at " +:+ path_str p
                                 +:+ " exists. Remove to regenerate."]) w in
    match read_file (fs w) p with
    | inl e => (inl e, wy)
    | inr text =>
        match load_config text with
        | inl e => (inl e, wy)
        | inr c => (inr tt, with_config_obj (Some c) wy)
        end
    end.
Proof.
  intros Hacc. unfold write_config_server, os_access_R. unfold_monad. cbn.
  rewrite Hacc. cbn.
  destruct (read_file (fs w) p) as [e|text]; cbn; [done|].
  by destruct (load_config text).
Qed.

(** The first statements of the else branch of write_config. *)
Lemma write_config_server_build w p :
  access_R (fs w) p = false →
  write_config_server p w =
    (_build_config_of (variant (self w)) ;;;
     yield ("Writing server config file " ++ path_str p) ;;;
     let* config := the_config in
     open_write p (dump_config config))
      (set_agent_config_obj (with_config_obj (Some new_Configuration) w)).2.
Proof.
  intros Hacc. unfold write_config_server, os_access_R.
  unfold bind at 1. unfold gets at 1. rewrite Hacc.
  unfold bind at 1. unfold modify at 1.
  unfold bind at 1. unfold set_agent_config_obj at 1, modify at 1.
  unfold bind at 1. unfold gets at 1. done.
Qed.

(** The last statements of the else branch: the new document is
    written. *)
Lemma write_server_document w p c :
  config_obj w = Some c →
  (yield ("Writing server config file " ++ path_str p) ;;;
   let* config := the_config in
   open_write p (dump_config config)) w =
    let wy := with_yielded (yielded w ++ ["Writing server config file " +:+ path_str p]) w in
    match write_file (fs w) p (dump_config c) with
    | inl e => (inl e, wy)
    | inr f => (inr tt, with_fs f wy)
    end.
Proof.
  intros Hc. unfold the_config. unfold_monad. cbn. rewrite Hc. cbn.
  by destruct (write_file (fs w) p (dump_config c)).
Qed.

(** When the plugin's _build_config raises, write_config raises the same
    error and has written nothing. *)
Lemma write_config_failed_build w d e w1 :
  config_dir (self w) = Some d →
  access_R (fs w) (server_config_path d) = false →
  _build_config_of (variant (self w))
    (set_agent_config_obj (with_config_obj (Some new_Configuration) w)).2
    = (inl e, w1) →
  write_config w = (inl e, w1) ∧
  fs w1 = fs w ∧ yielded w1 = yielded w ∧ entropy w1 = entropy w.
Proof.
  intros Hd Hacc Hbuild. split.
  - unfold write_config.
    rewrite (bind_run _ _ _ _ _ (attr_some _ _ _ _ Hd)).
    fold (server_config_path d). apply bind_raise.
    rewrite write_config_server_build by done. by apply bind_raise.
  - pose proof (_build_config_of_outside _ _ _ _ Hbuild) as Hag.
    unfold agree, keys_of in Hag. cbn in Hag. repeat split; congruence.
Qed.

(** The client file after write_config, from the outcome of the
    statement that binds [config]. *)
Lemma client_file_after_write_config w d r1 w1 :
  config_dir (self w) = Some d →
  write_config_server (server_config_path d) w = (r1, w1) →
  lookup_file (fs (write_config w).2) (client_config_path d) =
    match r1, config_obj w1 with
    | inr _, Some c =>
        entry_after (fs w1) (client_config_path d)
          (client_config_warning +:+ dump_config (client_config_of c))
    | _, _ => lookup_file (fs w1) (client_config_path d)
    end.
Proof.
  intros Hd Hsrv. unfold write_config.
  rewrite (bind_run _ _ _ _ _ (attr_some _ _ _ _ Hd)).
  fold (server_config_path d) (client_config_path d).
  destruct r1 as [e1|[]].
  { by rewrite (bind_raise _ _ _ _ _ Hsrv). }
  rewrite (bind_run _ _ _ _ _ Hsrv).
  destruct (write_config_client (client_config_path d) w1) as [r2 w2] eqn:Hcli.
  destruct (write_config_client_spec _ _ _ _ Hcli) as [Hag2 Hspec].
  destruct (config_obj w1) as [c|] eqn:Hc.
  2: { destruct Hspec as [Hfs ->]. rewrite (bind_raise _ _ _ _ _ Hcli).
       simpl. by rewrite Hfs. }
  destruct Hspec as [_ Hspec]. unfold entry_after.
  destruct (write_file (fs w1) (client_config_path d)
              (client_config_warning ++ dump_config (client_config_of c)))
    as [e|f] eqn:Hw; destruct Hspec as [Hfs ->].
  { rewrite (bind_raise _ _ _ _ _ Hcli). simpl. by rewrite Hfs. }
  rewrite (bind_run _ _ _ _ _ Hcli).
  destruct (write_config_check (server_config_path d) w2) as [r3 w3] eqn:Hchk.
  pose proof (write_config_check_keeps _ _ _ _ Hchk) as Hag3.
  simpl. assert (fs w3 = f) as -> by (rewrite <- Hfs; agree_from). done.
Qed.

(** The client file after a write_config that finds no server
    configuration, under the GCS plugin: it depends on the server key and
    certificate in [self] only through whether a key is there. *)
Lemma client_file_after_fresh_gcs w d bucket account k sc :
  config_dir (self w) = Some d →
  access_R (fs w) (server_config_path d) = false →
  variant (self w) = GCS bucket account →
  lookup_file (fs (write_config (with_server_pair k sc w)).2) (client_config_path d) =
    match read_file (fs w) account with
    | inl _ => lookup_file (fs w) (client_config_path d)
    | inr json =>
        match ServiceAccount_from_json json with
        | inl _ => lookup_file (fs w) (client_config_path d)
        | inr sa =>
            let l := labels_with_All (arg_labels (plugin_args (self w))) in
            if py_in "All" l
            then
              match write_file (fs w) (server_config_path d) "" with
              | inl _ => lookup_file (fs w) (client_config_path d)
              | inr _ =>
                  entry_after (fs w) (client_config_path d)
                    (client_config_warning +:+
                     dump_config
                       (mkConfiguration None
                          (Some (mkClientPolicy
                                   (GCSAgentPolicy
                                      (manifest_for_client
                                         (mkServerPolicy (GCSServerPolicy bucket sa)
                                            None None)))
                                   (Some l) (Some (self_secret (self w)))
                                   (Some (arg_client_writeback_path
                                            (plugin_args (self w))))))
                          (ca_cert (self w)) None None))
              end
            else lookup_file (fs w) (client_config_path d)
        end
    end.
Proof.
  intros Hd Hacc Hv.
  set (wk := with_server_pair k sc w).
  assert (config_dir (self wk) = Some d) as Hdk by exact Hd.
  assert (access_R (fs wk) (server_config_path d) = false) as Hacck by exact Hacc.
  destruct (write_config_server (server_config_path d) wk) as [r1 w1] eqn:Hsrv.
  rewrite (client_file_after_write_config _ _ _ _ Hdk Hsrv).
  rewrite write_config_server_build in Hsrv by done.
  change (variant (self wk)) with (variant (self w)) in Hsrv. rewrite Hv in Hsrv.
  set (w0 := (set_agent_config_obj (with_config_obj (Some new_Configuration) wk)).2)
    in *.
  destruct (_build_config_of (GCS bucket account) w0) as [rb wb] eqn:Hbuild.
  pose proof (_build_config_of_keeps _ _ _ _ Hbuild) as Hagb.
  assert (fs wb = fs w) as Hfsb by (change (fs wb = fs w0); agree_from).
  destruct rb as [eb|[]].
  - (* the override raises *)
    rewrite (bind_raise _ _ _ _ _ Hbuild) in Hsrv. injection Hsrv as <- <-.
    rewrite Hfsb.
    destruct (read_file (fs w) account) as [e|json] eqn:Hread; [done|].
    destruct (ServiceAccount_from_json json) as [e|sa] eqn:Hsa; [done|].
    cbv zeta.
    destruct (py_in "All" (labels_with_All (arg_labels (plugin_args (self w)))))
      eqn:Hin; [|done].
    destruct (_build_config_of_GCS_runs bucket account w0 new_Configuration json sa k
                eq_refl Hread Hsa eq_refl Hin) as [w' Hruns].
    congruence.
  - (* the override returns *)
    rewrite (bind_run _ _ _ _ _ Hbuild) in Hsrv.
    destruct (_build_config_of_GCS_returns _ _ _ _ Hbuild)
      as (json & sa & k' & Hread & Hsa & Hk' & Hin & Hcfg).
    change (read_file (fs w) account = inr json) in Hread.
    rewrite Hread, Hsa. cbv zeta.
    change (arg_labels (plugin_args (self w0))) with (arg_labels (plugin_args (self w)))
      in Hin, Hcfg.
    rewrite Hin.
    rewrite (write_server_document _ _ _ Hcfg) in Hsrv. cbv zeta in Hsrv.
    rewrite Hfsb in Hsrv.
    match type of Hsrv with
    | context [write_file (fs w) (server_config_path d) ?text] =>
        destruct (write_file (fs w) (server_config_path d) text) as [e|f] eqn:Hw
    end.
    + injection Hsrv as <- <-.
      destruct (write_file (fs w) (server_config_path d) "") as [e'|f'] eqn:Hw'.
      * simpl. by rewrite Hfsb.
      * match type of Hw with
        | write_file _ _ ?text = _ =>
            destruct (write_file_any_data _ _ _ text _ Hw') as [f'' Hw'']
        end.
        congruence.
    + injection Hsrv as <- <-.
      destruct (write_file_any_data _ _ _ "" _ Hw) as [f' ->].
      cbn [config_obj with_fs with_yielded fs]. rewrite Hcfg.
      rewrite (entry_after_other _ _ _ _ _ _ Hw) by done.
      done.
Qed.

(** The same when the server configuration exists: the client file is
    derived from what that file loads to. *)
Lemma client_file_after_existing w d k sc :
  config_dir (self w) = Some d →
  access_R (fs w) (server_config_path d) = true →
  lookup_file (fs (write_config (with_server_pair k sc w)).2) (client_config_path d) =
    match read_file (fs w) (server_config_path d) with
    | inl _ => lookup_file (fs w) (client_config_path d)
    | inr text =>
        match load_config text with
        | inl _ => lookup_file (fs w) (client_config_path d)
        | inr c =>
            entry_after (fs w) (client_config_path d)
              (client_config_warning +:+ dump_config (client_config_of c))
        end
    end.
Proof.
  intros Hd Hacc.
  set (wk := with_server_pair k sc w).
  assert (config_dir (self wk) = Some d) as Hdk by exact Hd.
  assert (access_R (fs wk) (server_config_path d) = true) as Hacck by exact Hacc.
  destruct (write_config_server (server_config_path d) wk) as [r1 w1] eqn:Hsrv.
  rewrite (client_file_after_write_config _ _ _ _ Hdk Hsrv).
  rewrite write_config_server_existing in Hsrv by done. cbv zeta in Hsrv.
  change (fs wk) with (fs w) in Hsrv.
  destruct (read_file (fs w) (server_config_path d)) as [e|text].
  { by injection Hsrv as <- <-. }
  destruct (load_config text) as [e|c]; by injection Hsrv as <- <-.
Qed.

(** Under the HTTP plugin no new configuration is ever built. *)
Lemma client_file_after_fresh_http w d url port address k sc :
  config_dir (self w) = Some d →
  access_R (fs w) (server_config_path d) = false →
  variant (self w) = LocalHTTP url port address →
  lookup_file (fs (write_config (with_server_pair k sc w)).2) (client_config_path d)
    = lookup_file (fs w) (client_config_path d).
Proof.
  intros Hd Hacc Hv.
  set (wk := with_server_pair k sc w).
  assert (config_dir (self wk) = Some d) as Hdk by exact Hd.
  assert (access_R (fs wk) (server_config_path d) = false) as Hacck by exact Hacc.
  destruct (_build_config_of_http
              (set_agent_config_obj (with_config_obj (Some new_Configuration) wk)).2
              url port address) as [w1 Hbuild]; [by eexists|].
  assert (variant (self wk) = LocalHTTP url port address) as Hvk by exact Hv.
  rewrite <- Hvk in Hbuild.
  destruct (write_config_failed_build _ _ _ _ Hdk Hacck Hbuild) as (-> & Hfs & _).
  simpl. by rewrite Hfs.
Qed.

End ClientDocument.

(** * The properties of the specification *)

Section Claims.
Context `{Collaborators}.

(** C7. Every run of generate_keys that completes without raising leaves a
    server certificate and a CA certificate in [self] such that verifying
    the server certificate against the CA certificate's public key
    succeeds: the method returns only through that check, which raises
    when it fails. *)
Theorem C7_generate_keys_completes_only_verified w w' :
  generate_keys w = (inr tt, w') →
  ∃ sc cac, server_cert (self w') = Some sc ∧ ca_cert (self w') = Some cac ∧
            verify sc (get_public_key cac) = inr tt.
Proof. apply generate_keys_returns. Qed.

(** C10. On the reuse path of generate_keys (the CA key and certificate and
    the server key and certificate files all open and parse) the loaded
    server certificate is verified against the loaded CA certificate's
    public key before the method completes: the outcome of generate_keys is
    the outcome of that verification.  When it raises, collect raises the
    same error, no file has been written and no key has been drawn. *)
Theorem C10_reuse_path_is_verified
  (f : gmap string Directory) d pk pc psk psc cak cac sk sc :
  read_file f (ca_key_path d) = inr pk → key_from_primitive pk = inr cak →
  read_file f (ca_cert_path d) = inr pc → cert_from_primitive pc = inr cac →
  read_file f (server_key_path d) = inr psk → key_from_primitive psk = inr sk →
  read_file f (server_cert_path d) = inr psc → cert_from_primitive psc = inr sc →
  (∀ w, fs w = f → config_dir (self w) = Some d →
        (generate_keys w).1 = verify sc (get_public_key cac) ∧
        fs (generate_keys w).2 = f ∧
        entropy (generate_keys w).2 = entropy w) ∧
  (∀ w e, fs w = f → arg_config_dir (plugin_args (self w)) = d →
          access_dir_R f d = true →
          verify sc (get_public_key cac) = inl e →
          (collect w).1 = inl e ∧ fs (collect w).2 = f ∧
          entropy (collect w).2 = entropy w).
Proof.
  intros R1 R2 R3 R4 R5 R6 R7 R8.
  assert (∀ w, fs w = f → config_dir (self w) = Some d →
            (generate_keys w).1 = verify sc (get_public_key cac) ∧
            fs (generate_keys w).2 = f ∧
            entropy (generate_keys w).2 = entropy w) as Hgen.
  { intros w <- Hd.
    destruct (generate_keys_reuse w d _ _ _ _ _ _ _ _ Hd R1 R2 R3 R4 R5 R6 R7 R8)
      as (w' & -> & _ & _ & _ & _ & Hag).
    simpl. split; [done|]. split; agree_from. }
  split; [done|].
  intros w e Hfs Hd Hacc Hv.
  rewrite collect_readable by (by rewrite Hfs, Hd).
  destruct (Hgen (started w)) as (Hr & Hfs' & He).
  { by rewrite started_fs. }
  { by rewrite started_config_dir, Hd. }
  unfold collect_methods.
  destruct (generate_keys (started w)) as [r wg] eqn:Hrun. simpl in *.
  rewrite Hv in Hr. subst r.
  by rewrite (bind_raise _ _ _ _ _ Hrun).
Qed.

(** C3, as amended. Whenever collect ends, in whatever way, with a server
    certificate in [self] that does not verify against the public key of
    the CA certificate in [self] - newly generated or reused alike - the
    run has raised, and neither the server nor the client configuration
    document has been written: the check is the last step of
    generate_keys on both paths and precedes write_config. *)
Theorem C3_unverified_certificate_aborts_before_config w r w' sc cac e :
  collect w = (r, w') →
  server_cert (self w') = Some sc → ca_cert (self w') = Some cac →
  verify sc (get_public_key cac) = inl e →
  let d := arg_config_dir (plugin_args (self w)) in
  (∃ e', r = inl e') ∧
  lookup_file (fs w') (server_config_path d) = lookup_file (fs w) (server_config_path d) ∧
  lookup_file (fs w') (client_config_path d) = lookup_file (fs w) (client_config_path d).
Proof.
  intros Hrun Hsc Hcac Hv d.
  destruct (access_dir_R (fs w) d) eqn:Hacc.
  2: { rewrite collect_unreadable in Hrun by done.
       injection Hrun as <- <-. eauto. }
  rewrite collect_readable in Hrun by done. unfold collect_methods in Hrun.
  destruct (generate_keys (started w)) as [[eg|[]] wg] eqn:Hgen.
  - rewrite (bind_raise _ _ _ _ _ Hgen) in Hrun. injection Hrun as <- <-.
    split; [eauto|].
    destruct (generate_keys_frame _ d _ _ (started_config_dir w) Hgen) as [[Hun _] _].
    rewrite started_fs in Hun.
    split; apply Hun, config_file_not_key_file; unfold is_config_file; set_solver.
  - rewrite (bind_run _ _ _ _ _ Hgen) in Hrun.
    apply generate_keys_returns in Hgen as (sc0 & cac0 & Hsc0 & Hcac0 & Hv0).
    pose proof (after_generate_keys_keys _ _ _ Hrun) as Hag.
    assert (server_cert (self w') = server_cert (self wg)) as E1
      by (unfold keys_of in Hag; agree_from).
    assert (ca_cert (self w') = ca_cert (self wg)) as E2
      by (unfold keys_of in Hag; agree_from).
    congruence.
Qed.

(** C4, as amended. In a run where the CA key pair is freshly generated
    (its try statement takes the except branch, and the new key and
    certificate are written), a server private key and certificate that
    are both readable are NOT regenerated: they are loaded and kept as they
    are, only one key is drawn in the run, the server files are left as
    they were, and the loaded certificate is then checked against the new
    CA certificate's public key, the outcome of generate_keys being the
    outcome of that check. *)
Theorem C4_fresh_ca_keeps_readable_server_pair w d psk psc sk sc f1 f2 :
  config_dir (self w) = Some d →
  pair_missing key_from_primitive (fs w) (ca_key_path d) (ca_cert_path d) →
  write_file (fs w) (ca_key_path d)
    (key_to_primitive (generate_key (entropy w)).1) = inr f1 →
  write_file f1 (ca_cert_path d)
    (cert_to_primitive (MakeCACert (generate_key (entropy w)).1)) = inr f2 →
  read_file (fs w) (server_key_path d) = inr psk → key_from_primitive psk = inr sk →
  read_file (fs w) (server_cert_path d) = inr psc → cert_from_primitive psc = inr sc →
  let k := (generate_key (entropy w)).1 in
  let w' := (generate_keys w).2 in
  (generate_keys w).1 = verify sc (get_public_key (MakeCACert k)) ∧
  ca_cert (self w') = Some (MakeCACert k) ∧
  server_private_key (self w') = Some sk ∧
  server_cert (self w') = Some sc ∧
  entropy w' = (generate_key (entropy w)).2 ∧
  fs w' = f2 ∧
  read_file (fs w') (server_key_path d) = inr psk ∧
  read_file (fs w') (server_cert_path d) = inr psc.
Proof.
  intros Hd Hmiss W1 W2 R5 R6 R7 R8 k w'. subst k w'.
  set (k := (generate_key (entropy w)).1) in *.
  destruct (generate_keys_ca (ca_key_path d) (ca_cert_path d) w) as [r1 w1] eqn:Hca.
  destruct (generate_keys_ca_fresh _ _ _ _ _ Hmiss Hca) as (He & _ & Hag1 & Hw).
  fold k in Hw. rewrite W1 in Hw. destruct Hw as [Hcac Hw]. rewrite W2 in Hw.
  destruct Hw as [-> Hfs1].
  assert (read_file (fs w1) (server_key_path d) = inr psk) as R5'.
  { rewrite Hfs1, (read_file_write_other _ _ _ _ _ W2),
      (read_file_write_other _ _ _ _ _ W1); done. }
  assert (read_file (fs w1) (server_cert_path d) = inr psc) as R7'.
  { rewrite Hfs1, (read_file_write_other _ _ _ _ _ W2),
      (read_file_write_other _ _ _ _ _ W1); done. }
  destruct (generate_keys_server_reuse w1 _ _ k _ _ _ _ R5' R6 R7' R8)
    as (w2 & Hsrv & Hsk & Hsc & _ & Hag2).
  assert (ca_cert (self w2) = Some (MakeCACert k)) as Hcac2
    by (rewrite <- Hcac; agree_from).
  assert (generate_keys w = (verify sc (get_public_key (MakeCACert k)), w2)) as ->.
  { unfold generate_keys.
    rewrite (bind_run _ _ _ _ _ (attr_some _ _ _ _ Hd)).
    unfold ca_key_path, ca_cert_path in Hca. rewrite (bind_run _ _ _ _ _ Hca).
    unfold server_key_path, server_cert_path in Hsrv.
    rewrite (bind_run _ _ _ _ _ Hsrv).
    unfold generate_keys_verify.
    rewrite (bind_run _ _ _ _ _ (attr_some _ _ _ _ Hsc)).
    by rewrite (bind_run _ _ _ _ _ (attr_some _ _ _ _ Hcac2)). }
  simpl. assert (fs w2 = fs w1) as Hfs2 by agree_from.
  repeat split; try done.
  - rewrite <- He. agree_from.
  - by rewrite Hfs2.
  - by rewrite Hfs2.
  - by rewrite Hfs2.
Qed.

(** C2, as amended. In a writable directory that holds a (writable) CA
    certificate file but no CA private key file, generate_keys does not
    stop on the inconsistency: it draws a new CA key, writes it to the
    private key file and overwrites the existing CA certificate with the
    new self-signed certificate; this is what the files hold when the
    method ends, and the new certificate is the one in [self]. *)
Theorem C2_ca_cert_without_key_is_replaced w d dir old :
  config_dir (self w) = Some d →
  fs w !! d = Some dir → d_writable dir = true →
  d_entries dir !! ca_private_key_filename = None →
  d_entries dir !! ca_cert_filename = Some old → f_writable old = true →
  let k := (generate_key (entropy w)).1 in
  let w' := (generate_keys w).2 in
  lookup_file (fs w') (ca_key_path d) = Some (mkFile (key_to_primitive k) true true) ∧
  lookup_file (fs w') (ca_cert_path d) =
    Some (mkFile (cert_to_primitive (MakeCACert k)) (f_readable old) true) ∧
  ca_cert (self w') = Some (MakeCACert k).
Proof.
  intros Hd Hdir Hdw Hkey Hcert Hcw k w'. subst k w'.
  set (k := (generate_key (entropy w)).1) in *.
  assert (lookup_file (fs w) (ca_key_path d) = None) as Lk
    by (unfold lookup_file; simpl; by rewrite Hdir).
  assert (lookup_file (fs w) (ca_cert_path d) = Some old) as Lc
    by (unfold lookup_file; simpl; by rewrite Hdir).
  destruct (write_file_new (fs w) (ca_key_path d) (key_to_primitive k) dir)
    as [f1 W1]; [done..|].
  assert (ca_cert_path d ≠ ca_key_path d) as Hne by done.
  pose proof (write_file_other _ _ _ _ _ W1 Hne) as Lc1. rewrite Lc in Lc1.
  destruct (write_file_existing f1 (ca_cert_path d)
              (cert_to_primitive (MakeCACert k)) old) as [f2 W2]; [done..|].
  destruct (generate_keys_ca (ca_key_path d) (ca_cert_path d) w) as [r1 w1] eqn:Hca.
  destruct (generate_keys_ca_fresh _ _ _ _ _
              (or_introl (read_file_missing _ _ Lk)) Hca) as (_ & _ & _ & Hw).
  fold k in Hw. rewrite W1 in Hw. destruct Hw as [Hcac Hw]. rewrite W2 in Hw.
  destruct Hw as [-> Hfs1].
  unfold generate_keys.
  rewrite (bind_run _ _ _ _ _ (attr_some _ _ _ _ Hd)).
  unfold ca_key_path, ca_cert_path in Hca. rewrite (bind_run _ _ _ _ _ Hca).
  fold (ca_key_path d) (ca_cert_path d) in *.
  match goal with
  | |- context [bind ?m ?k w1] => destruct (bind m k w1) as [r2 w2] eqn:Hrest
  end.
  assert (unwritten (λ p, p = server_key_path d ∨ p = server_cert_path d) w1 w2
          ∧ agree (λ w, ca_cert (self w)) w1 w2) as [[Hun _] Hag].
  { split; revert Hrest.
    - apply keeps_bind; [keeps_order| |intros _].
      + apply generate_keys_server_unwritten; auto.
      + eapply keeps_weaken; [|apply (generate_keys_verify_keeps fs)].
        apply unwritten_agree_fs.
    - apply keeps_bind; [keeps_order| |intros _].
      + eapply keeps_weaken; [|apply generate_keys_server_config]. agree_from.
      + apply generate_keys_verify_keeps. }
  simpl. rewrite !Hun, Hfs1 by (by intros [?|?]).
  split; [|split].
  - rewrite (write_file_other _ _ _ _ _ W2) by done.
    by rewrite (write_file_same _ _ _ _ W1), Lk.
  - by rewrite (write_file_same _ _ _ _ W2), Lc1.
  - rewrite <- Hcac. agree_from.
Qed.

(** C5. The claim fails on the code, by a slip in the code: for the list
    arguments [] and ["foo"], _build_config does not complete.  The label
    "All" is not in the list, so [labels.add("All")] is evaluated, and a
    Python list has no method [add]: AttributeError is raised, on every
    configuration and in every world. *)
Theorem C5_list_without_All_raises_AttributeError (w : World) (c : Configuration) :
  (_build_config (with_config_obj (Some c) (with_labels (PyList []) w))).1
    = inl (AttributeError "'list' object has no attribute 'add'") ∧
  (_build_config (with_config_obj (Some c) (with_labels (PyList ["foo"]) w))).1
    = inl (AttributeError "'list' object has no attribute 'add'").
Proof.
  split; apply _build_config_list_raises; by vm_compute.
Qed.

(** C6. The client configuration document that write_config writes is the
    warning followed by the dump of a configuration in which only the
    client policy and the CA certificate are set: whenever write_config
    has written the document, this is what it holds, for the
    configuration [config] is bound to.  That configuration is what the
    existing server configuration file loads to, or the one built in this
    run; in the latter the client policy is the GCS agent policy for the
    manifest location with the labels, the class secret and the writeback
    path of the plugin, and the CA certificate is [self.ca_cert]: no
    field of it is taken from the server private key or the server
    certificate.  The server policy (and with it the server private key
    and certificate), the manifest and the signed manifest are unset in
    what is dumped.  So the client file that write_config leaves is the
    same whichever server private key and server certificate [self]
    holds, and putting any other server policy, manifest or signed
    manifest into the configuration leaves the dumped text the same. *)
Theorem C6_client_document_holds_client_part_only w d :
  config_dir (self w) = Some d →
  let w' := (write_config w).2 in
  (lookup_file (fs w') (client_config_path d) = lookup_file (fs w) (client_config_path d) ∨
   ∃ c f, config_obj w' = Some c ∧
          lookup_file (fs w') (client_config_path d) = Some f ∧
          f_data f = client_config_warning ++
                     dump_config (mkConfiguration None (client c) (ca_certificate c)
                                    None None) ∧
          (access_R (fs w) (server_config_path d) = true →
           ∃ text, read_file (fs w) (server_config_path d) = inr text ∧
                   load_config text = inr c) ∧
          (access_R (fs w) (server_config_path d) = false →
           ∃ bucket account json sa,
             variant (self w) = GCS bucket account ∧
             read_file (fs w) account = inr json ∧
             ServiceAccount_from_json json = inr sa ∧
             client c =
               Some (mkClientPolicy
                       (GCSAgentPolicy
                          (manifest_for_client
                             (mkServerPolicy (GCSServerPolicy bucket sa) None None)))
                       (Some (labels_with_All (arg_labels (plugin_args (self w)))))
                       (Some (self_secret (self w)))
                       (Some (arg_client_writeback_path (plugin_args (self w))))) ∧
             ca_certificate c = ca_cert (self w))) ∧
  (∀ k1 c1 k2 c2,
     lookup_file (fs (write_config (with_server_pair k1 c1 w)).2) (client_config_path d)
     = lookup_file (fs (write_config (with_server_pair k2 c2 w)).2)
         (client_config_path d)) ∧
  (∀ c srv m sm,
     dump_config (client_config_of
                    (mkConfiguration srv (client c) (ca_certificate c) m sm))
     = dump_config (client_config_of c)).
Proof.
  intros Hd w'. subst w'. split; [|split; [|done]].
  2: { intros k1 c1 k2 c2.
       destruct (access_R (fs w) (server_config_path d)) eqn:Hacc.
       - by rewrite !client_file_after_existing.
       - destruct (variant (self w)) as [bucket account|url port address] eqn:Hv.
         + by rewrite !(client_file_after_fresh_gcs _ _ bucket account).
         + by rewrite !(client_file_after_fresh_http _ _ url port address). }
  unfold write_config. rewrite (bind_run _ _ _ _ _ (attr_some _ _ _ _ Hd)).
  fold (server_config_path d) (client_config_path d).
  destruct (write_config_server (server_config_path d) w) as [r1 w1] eqn:Hsrv.
  assert (lookup_file (fs w1) (client_config_path d)
          = lookup_file (fs w) (client_config_path d)) as Hsame.
  { apply (write_config_server_unwritten (λ p, p = server_config_path d) _ eq_refl
             _ _ _ Hsrv). done. }
  destruct r1 as [e1|[]].
  { rewrite (bind_raise _ _ _ _ _ Hsrv). by left. }
  rewrite (bind_run _ _ _ _ _ Hsrv).
  destruct (write_config_client (client_config_path d) w1) as [r2 w2] eqn:Hcli.
  destruct (write_config_client_spec _ _ _ _ Hcli) as [Hag2 Hspec].
  destruct (config_obj w1) as [c|] eqn:Hc.
  2: { destruct Hspec as [Hfs ->]. rewrite (bind_raise _ _ _ _ _ Hcli).
       left. simpl. by rewrite Hfs. }
  destruct Hspec as [_ Hspec].
  destruct (write_file (fs w1) (client_config_path d)
              (client_config_warning ++ dump_config (client_config_of c)))
    as [e|f] eqn:Hw; destruct Hspec as [Hfs ->].
  { rewrite (bind_raise _ _ _ _ _ Hcli). left. simpl. by rewrite Hfs. }
  rewrite (bind_run _ _ _ _ _ Hcli).
  destruct (write_config_check (server_config_path d) w2) as [r3 w3] eqn:Hchk.
  pose proof (write_config_check_keeps _ _ _ _ Hchk) as Hag3.
  right. simpl. eexists c, _.
  assert (fs w3 = f) as -> by (rewrite <- Hfs; agree_from).
  split; [|split; [|split; [|split]]].
  - assert (config_obj w3 = config_obj w1) as -> by agree_from. done.
  - apply (write_file_same _ _ _ _ Hw).
  - done.
  - intros Hacc.
    destruct (write_config_server_readable _ _ _ _ Hacc Hsrv) as [_ Hload].
    destruct (Hload eq_refl) as (text & c0 & Hread & Hl & Hc0).
    exists text. split; [done|]. congruence.
  - intros Hacc.
    destruct (write_config_server_fresh _ _ _ Hacc Hsrv)
      as (wx & wy & c' & Hwx & Hbuild & Hcy & Hc1 & _).
    assert (c' = c) as -> by congruence.
    destruct (variant (self w)) as [bucket account|url port address] eqn:Hv.
    2: { destruct (_build_config_of_http wx url port address) as [wz Hz];
           [rewrite Hwx; by eexists|]. congruence. }
    destruct (_build_config_of_GCS_returns _ _ _ _ Hbuild)
      as (json & sa & k & Hread & Hsa & _ & _ & Hcfg).
    rewrite Hcy in Hcfg. injection Hcfg as ->.
    exists bucket, account, json, sa. rewrite Hwx in Hread.
    split; [done|]. split; [exact Hread|]. split; [done|].
    rewrite Hwx. done.
Qed.

(** C9, as amended. Once write_config has bound [config] without an error
    - the existing server configuration has loaded, or a new one has been
    built and written - and the client file can be written, the client
    configuration document is written: it holds the do-not-edit warning
    followed by the dump of the client part of [config], and the row
    [Writing client config file ...] is yielded.  This includes the runs in
    which the server configuration file exists and is reused: there the
    server file is left as it was and the client document is derived from
    what that file loads to. *)
Theorem C9_client_document_written_once_config_is_bound w d w1 c f :
  config_dir (self w) = Some d →
  write_config_server (server_config_path d) w = (inr tt, w1) →
  config_obj w1 = Some c →
  write_file (fs w1) (client_config_path d)
    (client_config_warning ++ dump_config (client_config_of c)) = inr f →
  let w' := (write_config w).2 in
  (∃ g, lookup_file (fs w') (client_config_path d) = Some g ∧
        f_data g = client_config_warning ++ dump_config (client_config_of c)) ∧
  ("Writing client config file " +:+ path_str (client_config_path d)) ∈ yielded w' ∧
  (access_R (fs w) (server_config_path d) = true →
   lookup_file (fs w') (server_config_path d) = lookup_file (fs w) (server_config_path d) ∧
   ∃ text, read_file (fs w) (server_config_path d) = inr text ∧
           load_config text = inr c).
Proof.
  intros Hd Hsrv Hc Hw w'. subst w'.
  unfold write_config. rewrite (bind_run _ _ _ _ _ (attr_some _ _ _ _ Hd)).
  fold (server_config_path d) (client_config_path d).
  rewrite (bind_run _ _ _ _ _ Hsrv).
  destruct (write_config_client (client_config_path d) w1) as [r2 w2] eqn:Hcli.
  destruct (write_config_client_spec _ _ _ _ Hcli) as [Hag2 Hspec].
  rewrite Hc, Hw in Hspec. destruct Hspec as (Hy & Hfs & ->).
  rewrite (bind_run _ _ _ _ _ Hcli).
  destruct (write_config_check (server_config_path d) w2) as [r3 w3] eqn:Hchk.
  pose proof (write_config_check_keeps _ _ _ _ Hchk) as Hag3.
  simpl.
  assert (fs w3 = f) as -> by (rewrite <- Hfs; agree_from).
  assert (yielded w3 = yielded w2) as -> by agree_from.
  split; [|split].
  - eexists. split; [apply (write_file_same _ _ _ _ Hw)|done].
  - rewrite Hy. set_solver.
  - intros Hacc.
    destruct (write_config_server_readable _ _ _ _ Hacc Hsrv) as [Hfs1 Hload].
    destruct (Hload eq_refl) as (text & c0 & Hread & Hl & Hc0).
    assert (c0 = c) as -> by congruence.
    split; [|eauto].
    rewrite (write_file_other _ _ _ _ _ Hw) by done. by rewrite Hfs1.
Qed.


End Claims.

(** * The properties on concrete directories *)

Section Examples.
Import Toy.
#[local] Existing Instance crypto.
#[local] Existing Instance types.
#[local] Existing Instance collaborators.

(** C7 on a run of generate_keys against an empty directory. *)
Lemma C7_witness :
  generate_keys (in_collect ∅) = (inr tt, (generate_keys (in_collect ∅)).2) ∧
  ∃ sc cac,
    server_cert (self (generate_keys (in_collect ∅)).2) = Some sc ∧
    ca_cert (self (generate_keys (in_collect ∅)).2) = Some cac ∧
    verify sc (get_public_key cac) = inr tt.
Proof.
  assert (generate_keys (in_collect ∅) = (inr tt, (generate_keys (in_collect ∅)).2))
    as Hrun by (vm_compute; reflexivity).
  split; [exact Hrun|].
  exact (C7_generate_keys_completes_only_verified _ _ Hrun).
Defined.

(** C10 on a directory whose server certificate was signed by another CA:
    the run raises the error of the check and touches nothing. *)
Lemma C10_witness :
  (collect (process foreign_server_cert)).1 = inl (ProviderError "CipherError") ∧
  fs (collect (process foreign_server_cert)).2 = disk true true foreign_server_cert ∧
  entropy (collect (process foreign_server_cert)).2 = entropy (process foreign_server_cert).
Proof.
  refine (proj2 (C10_reuse_path_is_verified (disk true true foreign_server_cert) etc
                   "rsa-7" "ca(rsa-7)" "rsa-9" stale_cert
                   (key "rsa-7") (cert "ca(rsa-7)") (key "rsa-9") (cert stale_cert)
                   _ _ _ _ _ _ _ _)
            (process foreign_server_cert) _ _ _ _ _);
    vm_compute; reflexivity.
Defined.


(** C2: a directory with a CA certificate and no CA private key. The run
    does not fail: it completes, with a new CA key written and the
    certificate overwritten. *)
Lemma C2_counterexample :
  lookup_file (fs (process lone_ca_cert)) (ca_cert_path etc) = Some (file "ca(rsa-old)") ∧
  lookup_file (fs (process lone_ca_cert)) (ca_key_path etc) = None ∧
  (collect (process lone_ca_cert)).1 = inr tt ∧
  entropy (collect (process lone_ca_cert)).2 = 2 ∧
  lookup_file (fs (collect (process lone_ca_cert)).2) (ca_key_path etc)
    = Some (file "rsa-0") ∧
  lookup_file (fs (collect (process lone_ca_cert)).2) (ca_cert_path etc)
    = Some (file "ca(rsa-0)").
Proof. vm_compute. repeat split. Qed.

(** The amended C2 on the same directory. *)
Lemma C2_witness :
  lookup_file (fs (generate_keys (in_collect lone_ca_cert)).2) (ca_key_path etc)
    = Some (file "rsa-0") ∧
  lookup_file (fs (generate_keys (in_collect lone_ca_cert)).2) (ca_cert_path etc)
    = Some (file "ca(rsa-0)") ∧
  ca_cert (self (generate_keys (in_collect lone_ca_cert)).2) = Some (cert "ca(rsa-0)").
Proof.
  assert (fs (in_collect lone_ca_cert) !! etc = Some (mkDir true true lone_ca_cert))
    as Hdir by (vm_compute; reflexivity).
  assert (lone_ca_cert !! ca_private_key_filename = None) as Hkey
    by (vm_compute; reflexivity).
  assert (lone_ca_cert !! ca_cert_filename = Some (file "ca(rsa-old)")) as Hcert
    by (vm_compute; reflexivity).
  exact (C2_ca_cert_without_key_is_replaced (in_collect lone_ca_cert) etc
           (mkDir true true lone_ca_cert) (file "ca(rsa-old)")
           eq_refl Hdir eq_refl Hkey Hcert eq_refl).
Defined.

(** C3: the check is made on the reuse path too (first directory: all four
    files are reused and the run raises the error of the check), and it
    comes after the server files are written (second directory: the new
    server certificate does not verify, the run raises, and the new server
    key and certificate are on disk). *)
Lemma C3_counterexample :
  ((collect (process foreign_server_cert)).1 = inl (ProviderError "CipherError") ∧
   yielded (collect (process foreign_server_cert)).2 =
     ["Reusing existing CA keys in /etc/rekall/ca.cert.pem";
      "Reusing existing server keys in /etc/rekall/server.certificate.pem"]) ∧
  ((collect (process mismatched_ca)).1 = inl (ProviderError "CipherError") ∧
   lookup_file (fs (process mismatched_ca)) (server_key_path etc) = None ∧
   lookup_file (fs (process mismatched_ca)) (server_cert_path etc) = None ∧
   lookup_file (fs (collect (process mismatched_ca)).2) (server_key_path etc)
     = Some (file "rsa-0") ∧
   lookup_file (fs (collect (process mismatched_ca)).2) (server_cert_path etc)
     = Some (file "ca(rsa-7) signs Rekall Agent Server holding rsa-0")).
Proof. vm_compute. repeat split. Qed.

(** The amended C3 on the second directory. *)
Lemma C3_witness :
  (∃ e', (collect (process mismatched_ca)).1 = inl e') ∧
  lookup_file (fs (collect (process mismatched_ca)).2) (server_config_path etc)
    = lookup_file (fs (process mismatched_ca)) (server_config_path etc) ∧
  lookup_file (fs (collect (process mismatched_ca)).2) (client_config_path etc)
    = lookup_file (fs (process mismatched_ca)) (client_config_path etc).
Proof.
  assert (collect (process mismatched_ca)
          = ((collect (process mismatched_ca)).1, (collect (process mismatched_ca)).2))
    as Hrun by (by destruct (collect (process mismatched_ca))).
  assert (server_cert (self (collect (process mismatched_ca)).2)
          = Some (cert "ca(rsa-7) signs Rekall Agent Server holding rsa-0")) as Hsc
    by (vm_compute; reflexivity).
  assert (ca_cert (self (collect (process mismatched_ca)).2) = Some (cert "ca(rsa-3)"))
    as Hcac by (vm_compute; reflexivity).
  assert (verify (cert "ca(rsa-7) signs Rekall Agent Server holding rsa-0")
            (get_public_key (cert "ca(rsa-3)")) = inl (ProviderError "CipherError"))
    as Hver by (vm_compute; reflexivity).
  exact (C3_unverified_certificate_aborts_before_config _ _ _ _ _ _ Hrun Hsc Hcac Hver).
Defined.

(** C4: a stale server pair and no CA. The CA is generated, the server
    pair is not: it is loaded as it is, one key is drawn in the whole run,
    and the run ends in the error of the check. *)
Lemma C4_counterexample :
  lookup_file (fs (process stale_server_pair)) (ca_key_path etc) = None ∧
  yielded (collect (process stale_server_pair)).2 =
    ["Generating new CA private key into /etc/rekall/ca.private_key.pem and /etc/rekall/ca.cert.pem";
     "Reusing existing server keys in /etc/rekall/server.certificate.pem"] ∧
  entropy (collect (process stale_server_pair)).2 = 1 ∧
  server_private_key (self (collect (process stale_server_pair)).2) = Some (key "rsa-9") ∧
  server_cert (self (collect (process stale_server_pair)).2) = Some (cert stale_cert) ∧
  lookup_file (fs (collect (process stale_server_pair)).2) (server_cert_path etc)
    = Some (file stale_cert) ∧
  (collect (process stale_server_pair)).1 = inl (ProviderError "CipherError").
Proof. vm_compute. repeat split. Qed.

(** The amended C4 on the same directory. *)
Lemma C4_witness :
  (generate_keys (in_collect stale_server_pair)).1 = inl (ProviderError "CipherError") ∧
  ca_cert (self (generate_keys (in_collect stale_server_pair)).2) = Some (cert "ca(rsa-0)") ∧
  server_private_key (self (generate_keys (in_collect stale_server_pair)).2)
    = Some (key "rsa-9") ∧
  server_cert (self (generate_keys (in_collect stale_server_pair)).2)
    = Some (cert stale_cert) ∧
  entropy (generate_keys (in_collect stale_server_pair)).2 = 1.
Proof.
  assert (pair_missing key_from_primitive (fs (in_collect stale_server_pair))
            (ca_key_path etc) (ca_cert_path etc)) as Hmiss
    by (left; vm_compute; reflexivity).
  pose (f1 := written (write_file (fs (in_collect stale_server_pair))
                         (ca_key_path etc) "rsa-0")).
  pose (f2 := written (write_file f1 (ca_cert_path etc) "ca(rsa-0)")).
  assert (write_file (fs (in_collect stale_server_pair)) (ca_key_path etc)
            (key_to_primitive (generate_key (entropy (in_collect stale_server_pair))).1)
          = inr f1) as W1 by (vm_compute; reflexivity).
  assert (write_file f1 (ca_cert_path etc)
            (cert_to_primitive
               (MakeCACert (generate_key (entropy (in_collect stale_server_pair))).1))
          = inr f2) as W2 by (vm_compute; reflexivity).
  assert (read_file (fs (in_collect stale_server_pair)) (server_key_path etc)
          = inr "rsa-9") as R1 by (vm_compute; reflexivity).
  assert (read_file (fs (in_collect stale_server_pair)) (server_cert_path etc)
          = inr stale_cert) as R2 by (vm_compute; reflexivity).
  destruct (C4_fresh_ca_keeps_readable_server_pair (in_collect stale_server_pair) etc
              "rsa-9" stale_cert (key "rsa-9") (cert stale_cert) f1 f2
              eq_refl Hmiss W1 W2 R1 eq_refl R2 eq_refl)
    as (T1 & T2 & T3 & T4 & T5 & _).
  split; [rewrite T1; vm_compute; reflexivity|].
  split; [rewrite T2; vm_compute; reflexivity|].
  split; [exact T3|]. split; [exact T4|].
  rewrite T5. vm_compute. reflexivity.
Defined.

(** C6 on the first write_config of a bootstrap: the client document is
    written, and it is the same file for two other server key pairs. *)
Lemma C6_witness :
  lookup_file (fs (write_config keys_made).2) (client_config_path etc)
    ≠ lookup_file (fs keys_made) (client_config_path etc) ∧
  lookup_file
    (fs (write_config (with_server_pair (key "rsa-5") (cert "ca(rsa-0) x") keys_made)).2)
    (client_config_path etc)
  = lookup_file
      (fs (write_config (with_server_pair (key "rsa-8") (cert "ca(rsa-0) y") keys_made)).2)
      (client_config_path etc) ∧
  (lookup_file (fs (write_config keys_made).2) (client_config_path etc)
     = lookup_file (fs keys_made) (client_config_path etc) ∨
   ∃ c f, config_obj (write_config keys_made).2 = Some c ∧
          lookup_file (fs (write_config keys_made).2) (client_config_path etc) = Some f ∧
          f_data f = client_config_warning ++
                     dump_config (mkConfiguration None (client c) (ca_certificate c)
                                    None None) ∧
          (access_R (fs keys_made) (server_config_path etc) = true →
           ∃ text, read_file (fs keys_made) (server_config_path etc) = inr text ∧
                   load_config text = inr c) ∧
          (access_R (fs keys_made) (server_config_path etc) = false →
           ∃ bucket account json sa,
             variant (self keys_made) = GCS bucket account ∧
             read_file (fs keys_made) account = inr json ∧
             ServiceAccount_from_json json = inr sa ∧
             client c =
               Some (mkClientPolicy
                       (GCSAgentPolicy
                          (manifest_for_client
                             (mkServerPolicy (GCSServerPolicy bucket sa) None None)))
                       (Some (labels_with_All (arg_labels (plugin_args (self keys_made)))))
                       (Some (self_secret (self keys_made)))
                       (Some (arg_client_writeback_path (plugin_args (self keys_made))))) ∧
             ca_certificate c = ca_cert (self keys_made))) ∧
  (∀ k1 c1 k2 c2,
     lookup_file (fs (write_config (with_server_pair k1 c1 keys_made)).2)
       (client_config_path etc)
     = lookup_file (fs (write_config (with_server_pair k2 c2 keys_made)).2)
         (client_config_path etc)) ∧
  (∀ c srv m sm,
     dump_config (client_config_of
                    (mkConfiguration srv (client c) (ca_certificate c) m sm))
     = dump_config (client_config_of c)).
Proof.
  assert (config_dir (self keys_made) = Some etc) as Hd by (vm_compute; reflexivity).
  assert (lookup_file (fs (write_config keys_made).2) (client_config_path etc)
          ≠ lookup_file (fs keys_made) (client_config_path etc)) as Hwritten
    by (vm_compute; discriminate).
  split; [exact Hwritten|].
  split; [|exact (C6_client_document_holds_client_part_only keys_made etc Hd)].
  exact (proj1 (proj2 (C6_client_document_holds_client_part_only keys_made etc Hd))
           (key "rsa-5") (cert "ca(rsa-0) x") (key "rsa-8") (cert "ca(rsa-0) y")).
Defined.

(** C9: good keys and a server configuration that does not load. The run
    reaches write_config, which raises; no client document is written. *)
Lemma C9_counterexample :
  yielded (collect (process broken_server_config)).2 =
    ["Reusing existing CA keys in /etc/rekall/ca.cert.pem";
     "Reusing existing server keys in /etc/rekall/server.certificate.pem";
     "Server config at /etc/rekall/server.config.yaml exists. Remove to regenerate."] ∧
  (collect (process broken_server_config)).1 = inl (ProviderError "YAMLError") ∧
  lookup_file (fs (collect (process broken_server_config)).2) (client_config_path etc)
    = None.
Proof. vm_compute. repeat split. Qed.

(** The amended C9 on the first write_config of a bootstrap. *)
Lemma C9_witness :
  ∃ g, lookup_file (fs (write_config keys_made).2) (client_config_path etc) = Some g ∧
       f_data g = client_config_warning ++ dump_config (client_config_of first_config).
Proof.
  assert (config_dir (self keys_made) = Some etc) as Hd by (vm_compute; reflexivity).
  pose (w1 := (write_config_server (server_config_path etc) keys_made).2).
  assert (write_config_server (server_config_path etc) keys_made = (inr tt, w1))
    as Hsrv by (vm_compute; reflexivity).
  assert (config_obj w1 = Some first_config) as Hc by (vm_compute; reflexivity).
  pose (f := written (write_file (fs w1) (client_config_path etc)
                        (client_config_warning ++
                         dump_config (client_config_of first_config)))).
  assert (write_file (fs w1) (client_config_path etc)
            (client_config_warning ++ dump_config (client_config_of first_config))
          = inr f) as Hw by (vm_compute; reflexivity).
  exact (proj1 (C9_client_document_written_once_config_is_bound
                  keys_made etc w1 first_config f Hd Hsrv Hc Hw)).
Defined.

(** C8. The claim fails on the code, by a slip in the code: collect tests
    the directory with os.R_OK and not os.W_OK (its error message says
    [Unable to write to config directory]).  In a readable, empty directory
    that is not writable the check passes; generate_keys yields its first
    row and draws the CA key, and only then does the first write raise
    IOError - after key generation has begun, and not as the PluginError of
    the check. *)
Theorem C8_unwritable_directory_fails_after_key_generation :
  access_dir_R (disk true false ∅) etc = true ∧
  (collect (start (disk true false ∅) 0 "0a1b2c3d4e" (PyList ["All"]))).1
    = inl IOError ∧
  yielded (collect (start (disk true false ∅) 0 "0a1b2c3d4e" (PyList ["All"]))).2 =
    ["Generating new CA private key into /etc/rekall/ca.private_key.pem and /etc/rekall/ca.cert.pem"] ∧
  entropy (collect (start (disk true false ∅) 0 "0a1b2c3d4e" (PyList ["All"]))).2 = 1.
Proof. vm_compute. repeat split. Qed.

End Examples.

(** * Further properties of the code *)

(** ** generate_keys *)

Section MoreGenerateKeys.
Context `{Collaborators}.

Lemma generate_keys_beside :
  keeps (agree beside_keys) generate_keys.
Proof.
  unfold generate_keys, generate_keys_ca, generate_keys_server, generate_keys_verify.
  cbv zeta. keeps_auto keeps_agree.
Qed.


(** X2. Only IOError sends generate_keys to the branch that generates keys.
    When the CA private key file can be read but does not parse, or the
    key parses and the CA certificate file can be read but does not
    parse, and the parser raises anything but IOError, generate_keys
    raises that error and nothing has happened: no row is yielded, no key
    is drawn, no file is written. *)
Theorem X2_generate_keys_unparsable_ca_file_aborts w d pem e :
  config_dir (self w) = Some d →
  e ≠ IOError →
  (read_file (fs w) (ca_key_path d) = inr pem ∧ key_from_primitive pem = inl e) ∨
  (∃ pk k, read_file (fs w) (ca_key_path d) = inr pk ∧ key_from_primitive pk = inr k ∧
           read_file (fs w) (ca_cert_path d) = inr pem ∧
           cert_from_primitive pem = inl e) →
  generate_keys w = (inl e, w).
Proof.
  intros Hd He Hbad. unfold generate_keys.
  rewrite (bind_run _ _ _ _ _ (attr_some _ _ _ _ Hd)).
  apply bind_raise. fold (ca_key_path d) (ca_cert_path d).
  unfold generate_keys_ca. unfold_monad. cbn.
  destruct Hbad as [[R1 R2]|(pk & k & R1 & R2 & R3 & R4)].
  - rewrite R1. cbn. rewrite R2. cbn. by destruct e.
  - rewrite R1. cbn. rewrite R2. cbn. rewrite R3. cbn. rewrite R4. cbn.
    by destruct e.
Qed.

(** X3. With the CA key and certificate on disk and the server pair missing
    (the server key file cannot be opened, or it can and the certificate
    file cannot), a generate_keys that returns has drawn one key, the new
    server key; the new server certificate is made for it with the loaded
    CA certificate and signed with the loaded CA private key, and it has
    passed the final check against the loaded CA certificate.  The two CA
    files are as they were and the two server files hold the new key and
    certificate. *)
Theorem X3_generate_keys_rederives_server_pair w d pk pc cak cac w' :
  config_dir (self w) = Some d →
  read_file (fs w) (ca_key_path d) = inr pk → key_from_primitive pk = inr cak →
  read_file (fs w) (ca_cert_path d) = inr pc → cert_from_primitive pc = inr cac →
  pair_missing key_from_primitive (fs w) (server_key_path d) (server_cert_path d) →
  generate_keys w = (inr tt, w') →
  let sk := (generate_key (entropy w)).1 in
  let sc := MakeCASignedCert "Rekall Agent Server" sk cac cak in
  ca_cert (self w') = Some cac ∧
  server_private_key (self w') = Some sk ∧
  server_cert (self w') = Some sc ∧
  verify sc (get_public_key cac) = inr tt ∧
  entropy w' = (generate_key (entropy w)).2 ∧
  lookup_file (fs w') (ca_key_path d) = lookup_file (fs w) (ca_key_path d) ∧
  lookup_file (fs w') (ca_cert_path d) = lookup_file (fs w) (ca_cert_path d) ∧
  (∃ f, lookup_file (fs w') (server_key_path d) = Some f ∧
        f_data f = key_to_primitive sk) ∧
  (∃ f, lookup_file (fs w') (server_cert_path d) = Some f ∧
        f_data f = cert_to_primitive sc).
Proof.
  intros Hd R1 R2 R3 R4 Hmiss Hrun sk sc.
  destruct (generate_keys_ca_reuse w _ _ _ _ _ _ R1 R2 R3 R4)
    as (w1 & Hca & Hcac & _ & Hag1).
  assert (fs w1 = fs w) as Hfs1 by agree_from.
  assert (entropy w1 = entropy w) as He1 by agree_from.
  unfold generate_keys in Hrun.
  rewrite (bind_run _ _ _ _ _ (attr_some _ _ _ _ Hd)) in Hrun.
  fold (ca_key_path d) (ca_cert_path d) (server_key_path d) (server_cert_path d)
    in Hrun.
  rewrite (bind_run _ _ _ _ _ Hca) in Hrun.
  apply bind_inr in Hrun as ([] & w2 & Hsrv & Hver).
  pose proof (generate_keys_verify_same _ _ _ Hver) as ->.
  rewrite <- Hfs1 in Hmiss.
  destruct (generate_keys_server_fresh _ _ _ _ _ _ _ Hmiss Hcac Hsrv)
    as (He2 & _ & Hsk & Hag2 & Hw).
  rewrite He1 in He2, Hsk, Hw. fold sk in Hsk, Hw. rewrite Hfs1 in Hw.
  destruct (write_file (fs w) (server_key_path d) (key_to_primitive sk))
    as [?|f1] eqn:W1; [by destruct Hw as [? _]|].
  destruct Hw as [Hsc Hw]. fold sc in Hsc, Hw.
  destruct (write_file f1 (server_cert_path d) (cert_to_primitive sc))
    as [?|f2] eqn:W2; [by destruct Hw as [? _]|].
  destruct Hw as [_ Hfs2].
  assert (ca_cert (self w2) = Some cac) as Hcac2 by (rewrite <- Hcac; agree_from).
  split; [done|]. split; [done|]. split; [done|].
  split.
  { unfold generate_keys_verify in Hver.
    rewrite (bind_run _ _ _ _ _ (attr_some _ _ _ _ Hsc)),
      (bind_run _ _ _ _ _ (attr_some _ _ _ _ Hcac2)) in Hver.
    by injection Hver. }
  split; [done|]. rewrite Hfs2.
  split; [|split; [|split]].
  - rewrite (write_file_other _ _ _ _ _ W2), (write_file_other _ _ _ _ _ W1); done.
  - rewrite (write_file_other _ _ _ _ _ W2), (write_file_other _ _ _ _ _ W1); done.
  - eexists. rewrite (write_file_other _ _ _ _ _ W2) by done.
    rewrite (write_file_same _ _ _ _ W1). done.
  - eexists. rewrite (write_file_same _ _ _ _ W2). done.
Qed.

(** X4. Whenever the try statement for the CA keys takes its except branch
    - the private key file cannot be opened, or it can and the certificate
    file cannot - and generate_keys returns, the CA certificate in [self]
    is the self-signed certificate of the key newly drawn, both CA files
    hold the new key and certificate (a private key that was readable
    before is overwritten), and the server certificate in [self] has
    passed the check against the new CA certificate. *)
Theorem X4_generate_keys_incomplete_ca_pair_is_regenerated w d w' :
  config_dir (self w) = Some d →
  pair_missing key_from_primitive (fs w) (ca_key_path d) (ca_cert_path d) →
  generate_keys w = (inr tt, w') →
  let k := (generate_key (entropy w)).1 in
  ca_cert (self w') = Some (MakeCACert k) ∧
  (∃ f, lookup_file (fs w') (ca_key_path d) = Some f ∧
        f_data f = key_to_primitive k) ∧
  (∃ f, lookup_file (fs w') (ca_cert_path d) = Some f ∧
        f_data f = cert_to_primitive (MakeCACert k)) ∧
  ∃ sc, server_cert (self w') = Some sc ∧
        verify sc (get_public_key (MakeCACert k)) = inr tt.
Proof.
  intros Hd Hmiss Hrun k.
  destruct (generate_keys_returns _ _ Hrun) as (sc & cac & Hsc & Hcac & Hver).
  unfold generate_keys in Hrun.
  rewrite (bind_run _ _ _ _ _ (attr_some _ _ _ _ Hd)) in Hrun.
  fold (ca_key_path d) (ca_cert_path d) (server_key_path d) (server_cert_path d)
    in Hrun.
  apply bind_inr in Hrun as (cak & w1 & Hca & Hrun).
  destruct (generate_keys_ca_fresh _ _ _ _ _ Hmiss Hca) as (_ & _ & _ & Hw).
  fold k in Hw.
  destruct (write_file (fs w) (ca_key_path d) (key_to_primitive k))
    as [?|f1] eqn:W1; [by destruct Hw as [? _]|].
  destruct Hw as [Hcac1 Hw].
  destruct (write_file f1 (ca_cert_path d) (cert_to_primitive (MakeCACert k)))
    as [?|f2] eqn:W2; [by destruct Hw as [? _]|].
  destruct Hw as [_ Hfs1].
  assert (unwritten (λ p, p = server_key_path d ∨ p = server_cert_path d) w1 w'
          ∧ agree (λ w, ca_cert (self w)) w1 w') as [[Hun _] Hag].
  { split; revert Hrun.
    - apply keeps_bind; [keeps_order| |intros _].
      + apply generate_keys_server_unwritten; auto.
      + eapply keeps_weaken; [|apply (generate_keys_verify_keeps fs)].
        apply unwritten_agree_fs.
    - apply keeps_bind; [keeps_order| |intros _].
      + eapply keeps_weaken; [|apply generate_keys_server_config]. agree_from.
      + apply generate_keys_verify_keeps. }
  assert (ca_cert (self w') = Some (MakeCACert k)) as Hcac'
    by (rewrite <- Hcac1; agree_from).
  split; [done|].
  rewrite !Hun, Hfs1 by (by intros [?|?]).
  split; [|split].
  - eexists. rewrite (write_file_other _ _ _ _ _ W2) by done.
    by rewrite (write_file_same _ _ _ _ W1).
  - eexists. by rewrite (write_file_same _ _ _ _ W2).
  - exists sc. split; [done|]. congruence.
Qed.

End MoreGenerateKeys.

(** ** _build_config and write_config *)

Section MoreWriteConfig.
Context `{Collaborators}.

(** X5. When _build_config returns, the configuration holds, field by
    field: the CA certificate of [self]; the server policy with the
    server certificate and private key of [self]; the client policy with
    the labels (which hold "All"; a set has gained it in place), the
    class secret and the writeback path argument; the manifest with one
    startup action whose ticket expires a year from now; and a signed
    manifest whose data is the JSON of that manifest, whose certificate is
    the server certificate and whose signature is the server private
    key's signature over exactly that data. *)
Theorem X5_build_config_result w w' :
  _build_config w = (inr tt, w') →
  ∃ c srv0 p0 k,
    config_obj w = Some c ∧ server c = Some srv0 ∧ client c = Some p0 ∧
    server_private_key (self w) = Some k ∧
    let l := labels_with_All (arg_labels (plugin_args (self w))) in
    let srv := mkServerPolicy (sp_data srv0) (server_cert (self w)) (Some k) in
    let m := manifest_of srv (clock w) in
    py_in "All" l = true ∧
    arg_labels (plugin_args (self w')) = l ∧
    config_obj w' =
      Some (mkConfiguration
              (Some srv)
              (Some (mkClientPolicy (cp_data p0) (Some l)
                       (Some (self_secret (self w)))
                       (Some (arg_client_writeback_path (plugin_args (self w))))))
              (ca_cert (self w))
              (Some m)
              (Some (mkSignedManifest (manifest_to_json m) (server_cert (self w))
                       (Some (sign k (manifest_to_json m)))))).
Proof. apply _build_config_result. Qed.


(** X7. In a directory without a readable server configuration, when the
    plugin's _build_config raises (the service account file cannot be
    read, the labels are a list without "All", the plugin is the HTTP
    one), write_config raises the same error before its first row: no file
    is written and no key is drawn. *)
Theorem X7_write_config_failed_build_writes_nothing w d e w1 :
  config_dir (self w) = Some d →
  access_R (fs w) (server_config_path d) = false →
  _build_config_of (variant (self w))
    (set_agent_config_obj (with_config_obj (Some new_Configuration) w)).2
    = (inl e, w1) →
  write_config w = (inl e, w1) ∧
  fs w1 = fs w ∧ yielded w1 = yielded w ∧ entropy w1 = entropy w.
Proof. apply write_config_failed_build. Qed.

(** X8. When the server configuration file can be read and does not load,
    write_config raises the loader's error right after the row that
    announces the existing file: nothing else has changed, so neither
    document is rewritten and no new configuration is built. *)
Theorem X8_write_config_unloadable_server_config w d text e :
  config_dir (self w) = Some d →
  read_file (fs w) (server_config_path d) = inr text →
  load_config text = inl e →
  write_config w =
    (inl e,
     with_yielded
       (yielded w ++ ["Server config at " +:+ path_str (server_config_path d)
                        +:+ " exists. Remove to regenerate."]) w).
Proof.
  intros Hd R1 R2. unfold write_config.
  rewrite (bind_run _ _ _ _ _ (attr_some _ _ _ _ Hd)).
  fold (server_config_path d). apply bind_raise.
  unfold write_config_server, os_access_R. unfold_monad. cbn.
  rewrite (read_file_access _ _ _ R1). cbn. rewrite R1. cbn. rewrite R2. done.
Qed.

Lemma write_config_remote :
  keeps (agree (λ w, (remote w, stdout w, variant (self w)))) write_config.
Proof.
  unfold write_config, write_config_server, write_config_client, write_config_check,
    AgentConfigHook_calculate.
  keeps_auto keeps_agree.
  eapply keeps_weaken; [|apply _build_config_of_outside].
  unfold plugin_of. agree_from.
Qed.


End MoreWriteConfig.

(** ** AgentConfigHook.calculate *)

Section Hook.
Context `{Collaborators}.

Lemma truthy_Some s : truthy (Some s) = true → s ≠ "".
Proof. unfold truthy. by case_bool_decide. Qed.

Lemma AgentConfigHook_calculate_inline w :
  truthy (inline_config_data (session w)) = true →
  ∃ s, inline_config_data (session w) = Some s ∧ s ≠ "" ∧
       AgentConfigHook_calculate w = (unserialize s, w).
Proof.
  unfold inline_config_data, AgentConfigHook_calculate. unfold_monad. cbn.
  destruct (truthy (agent_config_data (session w))) eqn:T1; cbn.
  - intros _. rewrite T1. cbn.
    destruct (agent_config_data (session w)) as [s|] eqn:E; [|done].
    exists s. rewrite T1. split; [done|]. split; [by apply truthy_Some|done].
  - intros T2. rewrite T2. cbn.
    destruct (REKALL_AGENT_CONFIG (session w)) as [s|] eqn:E; [|done].
    exists s. rewrite T2. split; [done|]. split; [by apply truthy_Some|done].
Qed.

Lemma AgentConfigHook_calculate_file w :
  truthy (inline_config_data (session w)) = false →
  AgentConfigHook_calculate w =
    match config_file_of (session w) with
    | Some p =>
        if truthy_path (Some p)
        then
          let w1 := if bool_decide (config_search_path (session w) = None)
                    then (set_config_search_path [os_path_dirname p] w).2
                    else w in
          match read_file (fs w) p with
          | inl e => (inl e, w1)
          | inr s => (if bool_decide (s = "") then inr NoneObject else unserialize s,
                      w1)
          end
        else (inr NoneObject, w)
    | None => (inr NoneObject, w)
    end.
Proof.
  unfold inline_config_data, config_file_of, AgentConfigHook_calculate.
  unfold_monad. cbn.
  destruct (truthy (agent_config_data (session w))) eqn:T1; cbn; [congruence|].
  intros T2. rewrite T2. cbn.
  destruct (if truthy_path (agent_configuration (session w))
            then agent_configuration (session w)
            else REKALL_AGENT_CONFIG_FILE (session w)) as [p|] eqn:Hp; cbn.
  2: { rewrite T2. by destruct (REKALL_AGENT_CONFIG (session w)). }
  destruct (negb (bool_decide (path_str p = ""))) eqn:Tp; cbn.
  2: { rewrite T2. by destruct (REKALL_AGENT_CONFIG (session w)). }
  unfold set_config_search_path, modify.
  destruct (bool_decide (config_search_path (session w) = None)); cbn.
  all: destruct (read_file (fs w) p) as [e|s]; cbn; [done|].
  all: by destruct (bool_decide (s = "")).
Qed.

Lemma AgentConfigHook_calculate_source w r w' :
  AgentConfigHook_calculate w = (r, w') →
  match r with
  | inr cfg => cfg = NoneObject ∨ ∃ s, config_source w s ∧ unserialize s = inr cfg
  | inl e =>
      (∃ s, config_source w s ∧ unserialize s = inl e) ∨
      (truthy (inline_config_data (session w)) = false ∧
       ∃ p, config_file_of (session w) = Some p ∧ read_file (fs w) p = inl e)
  end.
Proof.
  destruct (truthy (inline_config_data (session w))) eqn:T.
  - destruct (AgentConfigHook_calculate_inline w T) as (s & Hs & Hne & ->).
    intros [= <- <-].
    assert (config_source w s) as Hsrc by (split; [done|by left]).
    destruct (unserialize s) eqn:Hu; eauto.
  - rewrite (AgentConfigHook_calculate_file w T).
    destruct (config_file_of (session w)) as [p|] eqn:Hp.
    2: { intros [= <- <-]. by left. }
    destruct (truthy_path (Some p)).
    2: { intros [= <- <-]. by left. }
    cbv zeta.
    destruct (read_file (fs w) p) as [e|s] eqn:Hread.
    { intros [= <- <-]. right. eauto. }
    case_bool_decide as Hs.
    { intros [= <- <-]. by left. }
    intros [= <- <-].
    assert (config_source w s) as Hsrc by (split; [done|right; eauto]).
    destruct (unserialize s) eqn:Hu; eauto.
Qed.


(** X10. AgentConfigHook.calculate takes its text from the session parameter
    agent_config_data when that is non-empty, else from the environment
    variable REKALL_AGENT_CONFIG when that is non-empty; in both cases the
    result is the serializer's result on that text, no file is opened and
    nothing in the session changes, whatever agent_configuration and
    REKALL_AGENT_CONFIG_FILE name. *)
Theorem X10_hook_inline_data_shadows_the_file w :
  truthy (inline_config_data (session w)) = true →
  ∃ s, inline_config_data (session w) = Some s ∧ s ≠ "" ∧
       AgentConfigHook_calculate w = (unserialize s, w) ∧
       (truthy (agent_config_data (session w)) = true →
        agent_config_data (session w) = Some s).
Proof.
  intros T. destruct (AgentConfigHook_calculate_inline w T) as (s & Hs & Hne & Hrun).
  exists s. repeat split; try done.
  intros T1. unfold inline_config_data in Hs. by rewrite T1 in Hs.
Qed.


(** X12. What AgentConfigHook.calculate returns is the NoneObject or the
    serializer's result on a non-empty text that is the inline data or,
    without inline data, the content of the configured file; what it
    raises is the serializer's error on such a text or the error of
    reading the configured file. *)
Theorem X12_hook_result_comes_from_the_configured_source w r w' :
  AgentConfigHook_calculate w = (r, w') →
  match r with
  | inr cfg => cfg = NoneObject ∨ ∃ s, config_source w s ∧ unserialize s = inr cfg
  | inl e =>
      (∃ s, config_source w s ∧ unserialize s = inl e) ∨
      (truthy (inline_config_data (session w)) = false ∧
       ∃ p, config_file_of (session w) = Some p ∧ read_file (fs w) p = inl e)
  end.
Proof. apply AgentConfigHook_calculate_source. Qed.

End Hook.

(** ** write_manifest and collect *)

(** The steps of [keeps_step] for a relation whose reflexivity and
    transitivity the tactic [order] proves. *)
Ltac keeps_step_in order tac :=
  lazymatch goal with
  | |- keeps _ (bind _ _) => apply keeps_bind; [order | | intros ?]
  | |- keeps _ (try_except_IOError _ _) => apply keeps_try; [order | | ]
  | |- keeps _ (ret _) => apply keeps_ret; order
  | |- keeps _ (raise _) => apply keeps_raise; order
  | |- keeps _ (lift _) => apply keeps_lift; order
  | |- keeps _ (gets _) => apply keeps_gets; order
  | |- keeps _ (os_access_R _) => apply keeps_gets; order
  | |- keeps _ (attr _ _) => apply keeps_attr; order
  | |- keeps _ (open_read _) => apply keeps_open_read; order
  | |- keeps _ the_config => apply keeps_the_config; order
  | |- keeps _ (modify _) => apply keeps_modify; tac
  | |- keeps _ (open_write _ _) => apply keeps_open_write; [order | tac]
  | |- keeps _ draw_key => apply keeps_draw_key; tac
  | |- keeps _ (upload _ _) => apply keeps_upload; [order | tac]
  | |- keeps _ (if ?b then _ else _) => destruct b
  | |- keeps _ (match ?x with _ => _ end) => destruct x
  | |- keeps _ _ => tac
  end.

Section MoreCollect.
Context `{Collaborators}.

Lemma write_manifest_of_local v :
  keeps (agree (λ w, (fs w, entropy w, self w, session w, config_obj w, clock w)))
    (write_manifest_of v).
Proof.
  destruct v; unfold write_manifest_of, write_manifest; keeps_auto keeps_agree.
Qed.

(** X13. write_manifest, of either plugin, writes no file, draws no key and
    leaves [self], the session and the configuration object as they were.
    The HTTP override does nothing at all.  Before write_config has bound
    [self._config], the GCS one raises AttributeError and has uploaded
    nothing. *)
Theorem X13_write_manifest_changes_nothing_local v w r w' :
  write_manifest_of v w = (r, w') →
  fs w' = fs w ∧ entropy w' = entropy w ∧ self w' = self w ∧
  session w' = session w ∧ config_obj w' = config_obj w ∧
  (∀ url port address, v = LocalHTTP url port address → r = inr tt ∧ w' = w) ∧
  (_config (self w) = None → ∀ bucket account, v = GCS bucket account →
     r = inl (AttributeError "_config") ∧ remote w' = remote w).
Proof.
  intros Hrun. pose proof (write_manifest_of_local _ _ _ _ Hrun) as Hag.
  split; [agree_from|]. split; [agree_from|]. split; [agree_from|].
  split; [agree_from|]. split; [agree_from|]. split.
  - intros url port address ->. by injection Hrun as <- <-.
  - intros Hnone bucket account ->. revert Hrun.
    unfold write_manifest_of, write_manifest. unfold_monad. cbn. rewrite Hnone.
    by intros [= <- <-].
Qed.

(** X14. When the configuration directory is not readable - also when it
    does not exist - collect raises PluginError with the message
    [Unable to write to config directory ...] and nothing else has
    happened: no file or directory is created, no key is drawn, no row is
    yielded, nothing is uploaded. *)
Theorem X14_collect_unreadable_directory_does_nothing w :
  access_dir_R (fs w) (arg_config_dir (plugin_args (self w))) = false →
  let d := arg_config_dir (plugin_args (self w)) in
  (collect w).1 = inl (PluginError ("Unable to write to config directory " +:+ d)) ∧
  fs (collect w).2 = fs w ∧ entropy (collect w).2 = entropy w ∧
  yielded (collect w).2 = yielded w ∧ remote (collect w).2 = remote w ∧
  config_obj (collect w).2 = config_obj w ∧ session (collect w).2 = session w ∧
  config_dir (self (collect w).2) = Some d.
Proof. intros Hacc d. by rewrite collect_unreadable. Qed.

Lemma yields_only_refl P w : yields_only P w w.
Proof. exists []. by rewrite app_nil_r. Qed.

Lemma yields_only_trans P w1 w2 w3 :
  yields_only P w1 w2 → yields_only P w2 w3 → yields_only P w1 w3.
Proof.
  intros (l1 & E1 & F1) (l2 & E2 & F2). exists (l1 ++ l2)%list.
  split; [by rewrite E2, E1, app_assoc|by apply Forall_app].
Qed.

Lemma yields_only_same P w w' : yielded w' = yielded w → yields_only P w w'.
Proof. intros E. exists []. by rewrite app_nil_r. Qed.

Lemma yields_only_row P w msg :
  P msg → yields_only P w (with_yielded (yielded w ++ [msg]) w).
Proof. intros HP. exists [msg]. split; [done|by repeat constructor]. Qed.

Lemma generate_keys_rows :
  keeps (yields_only (λ m, m ≠ "Done!")) generate_keys.
Proof.
  unfold generate_keys, generate_keys_ca, generate_keys_server, generate_keys_verify.
  cbv zeta. unfold_effects;
    repeat keeps_step_in
      ltac:(first [apply yields_only_refl | apply yields_only_trans])
      ltac:(intros;
            first [ by apply yields_only_same
                  | by (apply yields_only_row; cbn; intros ?; simplify_eq) ]).
Qed.

Lemma write_config_rows :
  keeps (yields_only (λ m, m ≠ "Done!")) write_config.
Proof.
  unfold write_config, write_config_server, write_config_client, write_config_check,
    AgentConfigHook_calculate.
  cbv zeta. unfold_effects;
    repeat keeps_step_in
      ltac:(first [apply yields_only_refl | apply yields_only_trans])
      ltac:(intros;
            first [ by apply yields_only_same
                  | by (apply yields_only_row; cbn; intros ?; simplify_eq) ]).
  eapply keeps_weaken; [|apply _build_config_of_outside].
  intros. apply yields_only_same. agree_from.
Qed.

Lemma write_manifest_of_rows v :
  keeps (yields_only (λ m, m ≠ "Done!")) (write_manifest_of v).
Proof.
  destruct v; unfold write_manifest_of, write_manifest; unfold_effects;
    repeat keeps_step_in
      ltac:(first [apply yields_only_refl | apply yields_only_trans])
      ltac:(intros;
            first [ by apply yields_only_same
                  | by (apply yields_only_row; cbn; intros ?; simplify_eq) ]).
Qed.

Lemma Done_last_bind {A B} (m : M A) (k : A → M B) :
  keeps (yields_only (λ m, m ≠ "Done!")) m → (∀ a, Done_last (k a)) →
  Done_last (bind m k).
Proof.
  intros Hm Hk w r w'. unfold bind.
  destruct (m w) as [[e|a] w1] eqn:Hmw.
  - intros [= <- <-]. destruct (Hm _ _ _ Hmw) as (l & E & F).
    exists l. split; [done|]. intros Hin.
    by apply (proj1 (Forall_forall _ _) F _ Hin).
  - intros Hkw. destruct (Hm _ _ _ Hmw) as (l1 & E1 & F1).
    destruct (Hk a _ _ _ Hkw) as (l2 & E2 & Hr).
    assert ("Done!" ∉ l1) as N1
      by (intros Hin; by apply (proj1 (Forall_forall _ _) F1 _ Hin)).
    exists (l1 ++ l2)%list. split; [by rewrite E2, E1, app_assoc|].
    destruct r as [e|b].
    + rewrite elem_of_app. tauto.
    + destruct Hr as (l0 & -> & N0). exists (l1 ++ l0)%list.
      split; [by rewrite app_assoc|]. rewrite elem_of_app. tauto.
Qed.

Lemma Done_last_yield : Done_last (yield "Done!").
Proof.
  intros w r w' [= <- <-]. exists ["Done!"]. split; [done|].
  exists []. split; [done|]. apply not_elem_of_nil.
Qed.

(** X15. collect yields the row [Done!] exactly when it returns, and then as
    its last row: the rows of a run that raises do not contain it, and
    the rows of a run that returns contain it once, at the end. *)
Theorem X15_collect_yields_Done_last_iff_it_returns w r w' :
  collect w = (r, w') →
  ∃ l, yielded w' = (yielded w ++ l)%list ∧
       match r with
       | inr _ => ∃ l0, l = (l0 ++ ["Done!"])%list ∧ "Done!" ∉ l0
       | inl _ => "Done!" ∉ l
       end.
Proof.
  revert w r w'. change (Done_last collect). unfold collect.
  repeat (apply Done_last_bind; [|intros ?]);
    try apply Done_last_yield.
  all: try (unfold_effects;
    repeat keeps_step_in
      ltac:(first [apply yields_only_refl | apply yields_only_trans])
      ltac:(intros;
            first [ by apply yields_only_same
                  | by (apply yields_only_row; cbn; intros ?; simplify_eq) ]); fail).
  - apply generate_keys_rows.
  - apply write_config_rows.
  - unfold_effects;
    repeat keeps_step_in
      ltac:(first [apply yields_only_refl | apply yields_only_trans])
      ltac:(intros;
            first [ by apply yields_only_same
                  | by (apply yields_only_row; cbn; intros ?; simplify_eq) ]).
    apply write_manifest_of_rows.
Qed.

(** What write_manifest uploads. *)
Lemma write_manifest_upload w r w' :
  write_manifest w = (r, w') →
  self w' = self w ∧
  (remote w' = remote w ∨
   ∃ cfg loc json,
     _config (self w) = Some cfg ∧ manifest_for_server cfg = inr loc ∧
     signed_manifest_to_json cfg = inr json ∧
     location_write_file loc json (remote w) = inr (remote w')).
Proof.
  unfold write_manifest, upload, print. unfold_monad. cbn.
  destruct (_config (self w)) as [cfg|] eqn:Hcfg; cbn.
  2: { intros [= <- <-]. by split; [|left]. }
  destruct (manifest_for_server cfg) as [e|loc] eqn:Hloc; cbn.
  { intros [= <- <-]. by split; [|left]. }
  destruct (signed_manifest_to_json cfg) as [e|json] eqn:Hjson; cbn.
  { intros [= <- <-]. by split; [|left]. }
  destruct (location_write_file loc json (remote w)) as [e|rem] eqn:Hup; cbn.
  { intros [= <- <-]. by split; [|left]. }
  destruct (dump_manifest cfg) as [e|dumped]; cbn; intros [= <- <-];
    (split; [done|right]); by exists cfg, loc, json.
Qed.

(** X16. The only thing a run of collect ever uploads is the signed
    manifest of [self._config], as JSON, to the location
    [manifest_for_server] gives, and only under the GCS plugin: in every
    other case (the HTTP plugin, a run that raises before or in
    write_manifest) the upload location is as it was. *)
Theorem X16_collect_uploads_only_the_signed_manifest w r w' :
  collect w = (r, w') →
  remote w' = remote w ∨
  ∃ bucket account cfg loc json,
    variant (self w) = GCS bucket account ∧
    _config (self w') = Some cfg ∧ manifest_for_server cfg = inr loc ∧
    signed_manifest_to_json cfg = inr json ∧
    location_write_file loc json (remote w) = inr (remote w').
Proof.
  intros Hrun.
  destruct (access_dir_R (fs w) (arg_config_dir (plugin_args (self w)))) eqn:Hacc.
  2: { rewrite collect_unreadable in Hrun by done. injection Hrun as <- <-. by left. }
  rewrite collect_readable in Hrun by done. unfold collect_methods in Hrun.
  destruct (generate_keys (started w)) as [rg wg] eqn:Hgen.
  pose proof (generate_keys_beside _ _ _ Hgen) as Hag1. unfold beside_keys in Hag1.
  assert (remote wg = remote w ∧ variant (self wg) = variant (self w)) as [Hr1 Hv1].
  { change (remote wg = remote (started w) ∧
            variant (self wg) = variant (self (started w))).
    split; agree_from. }
  destruct rg as [eg|[]].
  { rewrite (bind_raise _ _ _ _ _ Hgen) in Hrun. injection Hrun as <- <-. by left. }
  rewrite (bind_run _ _ _ _ _ Hgen) in Hrun.
  destruct (write_config wg) as [rc wc] eqn:Hwc.
  pose proof (write_config_remote _ _ _ Hwc) as Hag2.
  assert (remote wc = remote w ∧ variant (self wc) = variant (self w)) as [Hr2 Hv2]
    by (rewrite <- Hr1, <- Hv1; split; agree_from).
  destruct rc as [ec|[]].
  { rewrite (bind_raise _ _ _ _ _ Hwc) in Hrun. injection Hrun as <- <-. by left. }
  rewrite (bind_run _ _ _ _ _ Hwc) in Hrun.
  unfold bind at 1 2 in Hrun. unfold gets at 1 in Hrun.
  rewrite Hv2 in Hrun.
  destruct (variant (self w)) as [bucket account|url port address] eqn:Hv.
  - unfold write_manifest_of in Hrun.
    destruct (write_manifest wc) as [rm wm] eqn:Hwm.
    destruct (write_manifest_upload _ _ _ Hwm) as [Hself Hup].
    assert (remote w' = remote wm ∧ self w' = self wm) as [Hr3 Hs3].
    { destruct rm as [em|[]]; [by injection Hrun as <- <-|].
      unfold yield, modify in Hrun. by injection Hrun as <- <-. }
    rewrite Hr3, Hs3, Hself.
    destruct Hup as [->|(cfg & loc & json & ? & ? & ? & Hup)]; [by left|right].
    rewrite Hr2 in Hup. by exists bucket, account, cfg, loc, json.
  - left. unfold write_manifest_of, ret, yield, modify in Hrun.
    by injection Hrun as <- <-.
Qed.

(** X17. Under the HTTP plugin, collect never completes in a directory
    without a readable server configuration: its _build_config names
    [http_location], which the module does not import.  The run raises,
    neither configuration document is written and nothing is uploaded. *)
Theorem X17_http_plugin_never_bootstraps w r w' url port address :
  variant (self w) = LocalHTTP url port address →
  access_R (fs w) (server_config_path (arg_config_dir (plugin_args (self w)))) = false →
  collect w = (r, w') →
  let d := arg_config_dir (plugin_args (self w)) in
  (∃ e, r = inl e) ∧
  lookup_file (fs w') (server_config_path d) = lookup_file (fs w) (server_config_path d) ∧
  lookup_file (fs w') (client_config_path d) = lookup_file (fs w) (client_config_path d) ∧
  remote w' = remote w.
Proof.
  intros Hv Hnone Hrun d.
  destruct (access_dir_R (fs w) d) eqn:Hacc.
  2: { rewrite collect_unreadable in Hrun by done.
       injection Hrun as <- <-. eauto. }
  rewrite collect_readable in Hrun by done. unfold collect_methods in Hrun.
  destruct (generate_keys (started w)) as [rg wg] eqn:Hgen.
  destruct (generate_keys_frame _ d _ _ (started_config_dir w) Hgen) as [[Hun _] Hagp].
  pose proof (generate_keys_beside _ _ _ Hgen) as Hag. unfold beside_keys in Hag.
  rewrite started_fs in Hun.
  assert (∀ p, is_config_file d p → lookup_file (fs wg) p = lookup_file (fs w) p)
    as Hcfg by (intros p Hp; by apply Hun, config_file_not_key_file).
  assert (remote wg = remote w) as Hrem
    by (change (remote wg = remote (started w)); agree_from).
  destruct rg as [eg|[]].
  - rewrite (bind_raise _ _ _ _ _ Hgen) in Hrun. injection Hrun as <- <-.
    split; [eauto|]. split; [|split]; [apply Hcfg..|done];
      unfold is_config_file; set_solver.
  - rewrite (bind_run _ _ _ _ _ Hgen) in Hrun.
    assert (config_dir (self wg) = Some d) as Hdg
      by (transitivity (config_dir (self (started w)));
          [agree_from|apply started_config_dir]).
    assert (variant (self wg) = LocalHTTP url port address) as Hvg
      by (rewrite <- Hv; change (variant (self wg) = variant (self (started w)));
          agree_from).
    assert (access_R (fs wg) (server_config_path d) = false) as Haccg.
    { unfold access_R. rewrite Hcfg by (unfold is_config_file; set_solver).
      exact Hnone. }
    destruct (_build_config_of_http
                (set_agent_config_obj (with_config_obj (Some new_Configuration) wg)).2
                url port address) as [w1 Hbuild]; [by eexists|].
    rewrite <- Hvg in Hbuild.
    destruct (write_config_failed_build _ _ _ _ Hdg Haccg Hbuild)
      as (Hwc & Hfs & _).
    rewrite (bind_raise _ _ _ _ _ Hwc) in Hrun. injection Hrun as <- <-.
    pose proof (_build_config_of_outside _ _ _ _ Hbuild) as Hagb.
    split; [eauto|]. rewrite Hfs.
    split; [|split]; [apply Hcfg..|]; [unfold is_config_file; set_solver..|].
    rewrite <- Hrem. unfold agree in Hagb. cbn in Hagb. congruence.
Qed.

(** X18. When collect completes in a directory without a readable server
    configuration, the configuration it has built carries the server
    certificate, the server private key and the CA certificate that
    [self] holds, and that server certificate has passed the check
    against that CA certificate; the client policy carries the class
    secret and labels that hold "All"; the server document holds the dump
    of this configuration and the client document the warning followed by
    the dump of its client part. *)
Theorem X18_fresh_bootstrap_configuration_is_verified w w' :
  access_R (fs w) (server_config_path (arg_config_dir (plugin_args (self w)))) = false →
  collect w = (inr tt, w') →
  let d := arg_config_dir (plugin_args (self w)) in
  ∃ c srv p sc cac l,
    config_obj w' = Some c ∧
    server c = Some srv ∧ client c = Some p ∧
    certificate srv = Some sc ∧ server_cert (self w') = Some sc ∧
    private_key srv = server_private_key (self w') ∧
    ca_certificate c = Some cac ∧ ca_cert (self w') = Some cac ∧
    verify sc (get_public_key cac) = inr tt ∧
    secret p = Some (self_secret (self w)) ∧
    labels p = Some l ∧ py_in "All" l = true ∧
    (∃ f, lookup_file (fs w') (server_config_path d) = Some f ∧
          f_data f = dump_config c) ∧
    (∃ f, lookup_file (fs w') (client_config_path d) = Some f ∧
          f_data f = client_config_warning +:+ dump_config (client_config_of c)).
Proof.
  intros Hnone Hrun d.
  destruct (access_dir_R (fs w) d) eqn:Hacc.
  2: { rewrite collect_unreadable in Hrun by done. done. }
  rewrite collect_readable in Hrun by done. unfold collect_methods in Hrun.
  apply bind_inr in Hrun as ([] & wg & Hgen & Hrun).
  destruct (generate_keys_frame _ d _ _ (started_config_dir w) Hgen) as [[Hun _] Hagp].
  rewrite started_fs in Hun.
  destruct (generate_keys_returns _ _ Hgen) as (sc & cac & Hsc & Hcac & Hver).
  apply bind_inr in Hrun as ([] & wc & Hwc & Hrun).
  pose proof (after_write_config_keeps _ _ _ Hrun) as Hag6. clear Hrun.
  assert (config_dir (self wg) = Some d) as Hdg.
  { transitivity (config_dir (self (started w))); [|apply started_config_dir].
    unfold plugin_of in Hagp. agree_from. }
  assert (self_secret (self wg) = self_secret (self w)) as Hsecg.
  { change (self_secret (self wg) = self_secret (self (started w))).
    unfold plugin_of in Hagp. agree_from. }
  unfold write_config in Hwc.
  rewrite (bind_run _ _ _ _ _ (attr_some _ _ _ _ Hdg)) in Hwc.
  fold (server_config_path d) (client_config_path d) in Hwc.
  apply bind_inr in Hwc as ([] & wa & Hsrvc & Hwc).
  apply bind_inr in Hwc as ([] & wb & Hcli & Hchk).
  pose proof (write_config_check_keeps _ _ _ _ Hchk) as Hag5. clear Hchk.
  assert (access_R (fs wg) (server_config_path d) = false) as Hacc0.
  { unfold access_R. rewrite Hun; [exact Hnone|].
    apply config_file_not_key_file. unfold is_config_file. set_solver. }
  destruct (write_config_server_fresh _ _ _ Hacc0 Hsrvc)
    as (wx & wy & c & Hwx & Hbuild & Hcy & Hca' & W5 & Hag3).
  destruct (_build_config_of_returns _ _ _ Hbuild)
    as (c' & p & srv & l & Hc' & Hcca & Hsrv & Hscert & Hskey & Hp & Hsec & Hl & Hin).
  assert (c' = c) as -> by congruence.
  assert (self wx = self wg) as Hsx by (by rewrite Hwx).
  rewrite Hsx in Hcca, Hscert, Hskey, Hsec.
  destruct (write_config_client_spec _ _ _ _ Hcli) as [Hag4 Hspec].
  rewrite Hca' in Hspec. destruct Hspec as [_ Hspec].
  destruct (write_file (fs wa) (client_config_path d)
              (client_config_warning ++ dump_config (client_config_of c)))
    as [?|f6] eqn:W6; [by destruct Hspec as [_ ?]|].
  destruct Hspec as [Hfs6 _].
  pose proof (_build_config_of_keeps _ _ _ _ Hbuild) as Hagb.
  assert (keys_of w' = keys_of wg) as Hkeys.
  { transitivity (keys_of wx); [|by rewrite Hwx]. agree_from. }
  unfold keys_of in Hkeys. injection Hkeys as Hk1 Hk2 Hk3 Hk4.
  assert (fs w' = f6) as Hfinal by (rewrite <- Hfs6; agree_from).
  exists c, srv, p, sc, cac, l.
  split; [rewrite <- Hca'; agree_from|].
  split; [done|]. split; [done|].
  split; [congruence|]. split; [congruence|]. split; [congruence|].
  split; [congruence|]. split; [congruence|]. split; [done|].
  split; [congruence|]. split; [done|]. split; [done|].
  rewrite Hfinal. split.
  - eexists. rewrite (write_file_other _ _ _ _ _ W6) by done.
    by rewrite (write_file_same _ _ _ _ W5).
  - eexists. by rewrite (write_file_same _ _ _ _ W6).
Qed.

End MoreCollect.

(** * The further properties on concrete directories *)

Section MoreExamples.
Import Toy.
#[local] Existing Instance crypto.
#[local] Existing Instance types.
#[local] Existing Instance collaborators.


(** X3 on a directory that holds the CA pair and no server pair. *)
Lemma X3_witness :
  server_cert (self (generate_keys (in_collect ca_pair_only)).2)
    = Some (cert "ca(rsa-7) signs Rekall Agent Server holding rsa-0") ∧
  lookup_file (fs (generate_keys (in_collect ca_pair_only)).2) (ca_key_path etc)
    = Some (file "rsa-7").
Proof.
  assert (generate_keys (in_collect ca_pair_only)
          = (inr tt, (generate_keys (in_collect ca_pair_only)).2)) as Hrun
    by (vm_compute; reflexivity).
  assert (read_file (fs (in_collect ca_pair_only)) (ca_key_path etc) = inr "rsa-7")
    as R1 by (vm_compute; reflexivity).
  assert (read_file (fs (in_collect ca_pair_only)) (ca_cert_path etc) = inr "ca(rsa-7)")
    as R2 by (vm_compute; reflexivity).
  assert (pair_missing key_from_primitive (fs (in_collect ca_pair_only))
            (server_key_path etc) (server_cert_path etc)) as Hmiss
    by (left; vm_compute; reflexivity).
  destruct (X3_generate_keys_rederives_server_pair (in_collect ca_pair_only) etc
              "rsa-7" "ca(rsa-7)" (key "rsa-7") (cert "ca(rsa-7)") _
              eq_refl R1 eq_refl R2 eq_refl Hmiss Hrun)
    as (_ & _ & T1 & _ & _ & T2 & _).
  split; [rewrite T1; vm_compute; reflexivity|].
  rewrite T2. vm_compute. reflexivity.
Defined.

(** X4 on a directory that holds a CA private key and no CA certificate. *)
Lemma X4_witness :
  ca_cert (self (generate_keys (in_collect lone_ca_key)).2) = Some (cert "ca(rsa-0)") ∧
  ∃ f, lookup_file (fs (generate_keys (in_collect lone_ca_key)).2) (ca_key_path etc)
         = Some f ∧ f_data f = "rsa-0".
Proof.
  assert (generate_keys (in_collect lone_ca_key)
          = (inr tt, (generate_keys (in_collect lone_ca_key)).2)) as Hrun
    by (vm_compute; reflexivity).
  assert (pair_missing key_from_primitive (fs (in_collect lone_ca_key))
            (ca_key_path etc) (ca_cert_path etc)) as Hmiss.
  { right. exists "rsa-old", (key "rsa-old").
    split; [|split]; vm_compute; reflexivity. }
  destruct (X4_generate_keys_incomplete_ca_pair_is_regenerated
              (in_collect lone_ca_key) etc _ eq_refl Hmiss Hrun)
    as (T1 & T2 & _).
  split; [exact T1|exact T2].
Defined.

(** X5 on the first _build_config of a bootstrap. *)
Lemma X5_witness :
  ∃ c srv0 p0 k,
    config_obj policies_assigned = Some c ∧ server c = Some srv0 ∧
    client c = Some p0 ∧ server_private_key (self policies_assigned) = Some k ∧
    let l := labels_with_All (arg_labels (plugin_args (self policies_assigned))) in
    let srv := mkServerPolicy (sp_data srv0) (server_cert (self policies_assigned))
                 (Some k) in
    let m := manifest_of srv (clock policies_assigned) in
    py_in "All" l = true ∧
    arg_labels (plugin_args (self (_build_config policies_assigned).2)) = l ∧
    config_obj (_build_config policies_assigned).2 =
      Some (mkConfiguration
              (Some srv)
              (Some (mkClientPolicy (cp_data p0) (Some l)
                       (Some (self_secret (self policies_assigned)))
                       (Some (arg_client_writeback_path
                                (plugin_args (self policies_assigned))))))
              (ca_cert (self policies_assigned))
              (Some m)
              (Some (mkSignedManifest (manifest_to_json m)
                       (server_cert (self policies_assigned))
                       (Some (sign k (manifest_to_json m)))))).
Proof.
  assert (_build_config policies_assigned
          = (inr tt, (_build_config policies_assigned).2)) as Hrun
    by (vm_compute; reflexivity).
  exact (X5_build_config_result _ _ Hrun).
Defined.


(** X7 on a first run whose labels are the empty list. *)
Lemma X7_witness :
  write_config keys_made_unlabelled
    = (inl (AttributeError "'list' object has no attribute 'add'"), build_failed) ∧
  fs build_failed = fs keys_made_unlabelled ∧
  yielded build_failed = yielded keys_made_unlabelled ∧
  entropy build_failed = entropy keys_made_unlabelled.
Proof.
  assert (_build_config_of (variant (self keys_made_unlabelled))
            (set_agent_config_obj
               (with_config_obj (Some new_Configuration) keys_made_unlabelled)).2
          = (inl (AttributeError "'list' object has no attribute 'add'"),
             build_failed)) as Hbuild
    by (vm_compute; reflexivity).
  assert (config_dir (self keys_made_unlabelled) = Some etc) as Hd
    by (vm_compute; reflexivity).
  assert (access_R (fs keys_made_unlabelled) (server_config_path etc) = false) as Hacc
    by (vm_compute; reflexivity).
  exact (X7_write_config_failed_build_writes_nothing _ _ _ _ Hd Hacc Hbuild).
Defined.

(** X8 on good keys next to a server configuration that is not YAML. *)
Lemma X8_witness :
  (write_config keys_loaded_broken_config).1 = inl (ProviderError "YAMLError") ∧
  fs (write_config keys_loaded_broken_config).2 = fs keys_loaded_broken_config.
Proof.
  assert (config_dir (self keys_loaded_broken_config) = Some etc) as Hd
    by (vm_compute; reflexivity).
  assert (read_file (fs keys_loaded_broken_config) (server_config_path etc) = inr "{{{")
    as Hread by (vm_compute; reflexivity).
  assert (load_config "{{{" = inl (ProviderError "YAMLError")) as Hload
    by (vm_compute; reflexivity).
  rewrite (X8_write_config_unloadable_server_config _ _ _ _ Hd Hread Hload).
  split; reflexivity.
Defined.


(** X10 on a session that carries inline data, an environment variable
    and a configuration file parameter. *)
Lemma X10_witness :
  AgentConfigHook_calculate inline_session
    = (inr (SConfig "inline: data"), inline_session).
Proof.
  assert (truthy (inline_config_data (session inline_session)) = true) as T
    by (vm_compute; reflexivity).
  destruct (X10_hook_inline_data_shadows_the_file inline_session T)
    as (s & Hs & _ & Hrun & _).
  assert (s = "inline: data") as -> by (vm_compute in Hs; congruence).
  exact Hrun.
Defined.


(** X12 on the same reload. *)
Lemma X12_witness :
  SConfig (dump first_config) = NoneObject ∨
  ∃ s, config_source run_1 s ∧ unserialize s = inr (SConfig (dump first_config)).
Proof.
  assert (AgentConfigHook_calculate run_1 = (inr (SConfig (dump first_config)), run_1))
    as Hrun by (vm_compute; reflexivity).
  exact (X12_hook_result_comes_from_the_configured_source _ _ _ Hrun).
Defined.

(** X13 on write_manifest called before write_config. *)
Lemma X13_witness :
  fs (write_manifest_of (GCS "bucket" account_path) keys_made).2 = fs keys_made ∧
  (write_manifest_of (GCS "bucket" account_path) keys_made).1
    = inl (AttributeError "_config").
Proof.
  destruct (X13_write_manifest_changes_nothing_local (GCS "bucket" account_path)
              keys_made _ _ (surjective_pairing _)) as (T1 & _ & _ & _ & _ & _ & T2).
  split; [exact T1|].
  assert (_config (self keys_made) = None) as Hnone by (vm_compute; reflexivity).
  exact (proj1 (T2 Hnone _ _ eq_refl)).
Defined.

(** X14 on a process whose configuration directory does not exist. *)
Lemma X14_witness :
  (collect nowhere).1
    = inl (PluginError "Unable to write to config directory /etc/rekall") ∧
  fs (collect nowhere).2 = ∅ ∧ yielded (collect nowhere).2 = [].
Proof.
  assert (access_dir_R (fs nowhere) (arg_config_dir (plugin_args (self nowhere)))
          = false) as Hacc by (vm_compute; reflexivity).
  destruct (X14_collect_unreadable_directory_does_nothing nowhere Hacc)
    as (T1 & T2 & _ & T3 & _).
  split; [exact T1|]. split; [exact T2|exact T3].
Defined.

(** X15 on a first run against an empty directory. *)
Lemma X15_witness :
  ∃ l, yielded run_1 = (yielded (process ∅) ++ l)%list ∧
       ∃ l0, l = (l0 ++ ["Done!"])%list ∧ "Done!" ∉ l0.
Proof.
  assert (collect (process ∅) = (inr tt, run_1)) as Hrun by (vm_compute; reflexivity).
  exact (X15_collect_yields_Done_last_iff_it_returns _ _ _ Hrun).
Defined.

(** X16 on a first run. *)
Lemma X16_witness :
  remote run_1 = remote (process ∅) ∨
  ∃ bucket account cfg loc json,
    variant (self (process ∅)) = GCS bucket account ∧
    _config (self run_1) = Some cfg ∧ manifest_for_server cfg = inr loc ∧
    signed_manifest_to_json cfg = inr json ∧
    location_write_file loc json (remote (process ∅)) = inr (remote run_1).
Proof.
  assert (collect (process ∅) = (inr tt, run_1)) as Hrun by (vm_compute; reflexivity).
  exact (X16_collect_uploads_only_the_signed_manifest _ _ _ Hrun).
Defined.

(** X17 on the HTTP plugin in an empty directory. *)
Lemma X17_witness :
  (∃ e, (collect (http_process ∅)).1 = inl e) ∧
  lookup_file (fs (collect (http_process ∅)).2) (server_config_path etc)
    = lookup_file (fs (http_process ∅)) (server_config_path etc).
Proof.
  assert (access_R (fs (http_process ∅))
            (server_config_path (arg_config_dir (plugin_args (self (http_process ∅)))))
          = false) as Hacc by (vm_compute; reflexivity).
  destruct (X17_http_plugin_never_bootstraps (http_process ∅) _ _ _ _ _
              eq_refl Hacc (surjective_pairing _)) as (T1 & T2 & _).
  split; [exact T1|exact T2].
Defined.

(** X18 on a first run. *)
Lemma X18_witness :
  ∃ c srv p sc cac l,
    config_obj run_1 = Some c ∧
    server c = Some srv ∧ client c = Some p ∧
    certificate srv = Some sc ∧ server_cert (self run_1) = Some sc ∧
    private_key srv = server_private_key (self run_1) ∧
    ca_certificate c = Some cac ∧ ca_cert (self run_1) = Some cac ∧
    verify sc (get_public_key cac) = inr tt ∧
    secret p = Some (self_secret (self (process ∅))) ∧
    labels p = Some l ∧ py_in "All" l = true ∧
    (∃ f, lookup_file (fs run_1) (server_config_path etc) = Some f ∧
          f_data f = dump_config c) ∧
    (∃ f, lookup_file (fs run_1) (client_config_path etc) = Some f ∧
          f_data f = client_config_warning +:+ dump_config (client_config_of c)).
Proof.
  assert (collect (process ∅) = (inr tt, run_1)) as Hrun by (vm_compute; reflexivity).
  assert (access_R (fs (process ∅))
            (server_config_path (arg_config_dir (plugin_args (self (process ∅)))))
          = false) as Hacc by (vm_compute; reflexivity).
  exact (X18_fresh_bootstrap_configuration_is_verified _ _ Hacc Hrun).
Defined.

End MoreExamples.

Section PickyExamples.
Import Picky.
#[local] Existing Instance Picky.crypto.
#[local] Existing Instance Toy.types.
#[local] Existing Instance Picky.collaborators.

(** X2 on a CA private key file that does not hold a key: the run stops
    with the parser's error and the world is as it was. *)
Lemma X2_witness :
  generate_keys (in_collect garbled_ca_key)
    = (inl (ProviderError "ValueError"), in_collect garbled_ca_key).
Proof.
  assert (read_file (fs (in_collect garbled_ca_key)) (ca_key_path Toy.etc)
          = inr "-----BEGIN GARBAGE-----") as R1 by (vm_compute; reflexivity).
  assert (key_from_primitive "-----BEGIN GARBAGE-----"
          = inl (ProviderError "ValueError")) as R2 by (vm_compute; reflexivity).
  assert (ProviderError "ValueError" ≠ IOError) as Hne by done.
  exact (X2_generate_keys_unparsable_ca_file_aborts (in_collect garbled_ca_key)
           Toy.etc _ _ eq_refl Hne (or_introl (conj R1 R2))).
Defined.

End PickyExamples.
